(** * GHAS audit: aggregation and compliance scoring engine

    A shallow embedding of [src/audit.js] (class [GHASAudit]), of the
    parts of [src/create-issue.js] and of the dashboard generator that
    compute on the saved results, and their properties.

    Conventions of the embedding.
    - JavaScript numbers that are always integers (array lengths, alert
      counters, page numbers, millisecond time values) are [Z]; numbers
      that carry fractions (scores, durations in days) are IEEE-754
      binary64 values, Rocq's primitive [float], with the operations in
      the order the source performs them, so that rounding is the
      source's.  [JS.Z2f] is the conversion at the places where the source
      divides or multiplies an integer; it is exact below 2^53.
    - A timestamp field holds an ISO-8601 string in the source; the model
      keeps the time value [new Date(s).getTime()] of that string, in
      milliseconds, as a [Z].  An absent ([undefined]) or [null] field is
      [None].
    - Objects are records, one per shape the source builds; the three
      alert shapes are the variants of [Alert].
    - The GitHub REST and GraphQL services are a record of functions
      ([GitHub]); an [await] on a rejected request is [inl error].
    - Effects ([this.results], the warnings written to the console,
      exceptions, [process.exit]) are threaded by the monad [M]; [while]
      loops take a fuel argument. *)

From Stdlib Require Import ZArith List String Ascii Bool Lia.
From Stdlib Require Import Permutation.
From Stdlib Require Import Floats Uint63.
Import ListNotations.

#[local] Set Warnings "-inexact-float".
#[local] Open Scope string_scope.
#[local] Open Scope list_scope.
#[local] Open Scope Z_scope.

(** ** JavaScript primitives used by the source *)

Module JS.

(** Truthiness of an optional value whose present values are all truthy
    (non-empty strings, objects). *)
Definition truthy {A : Type} (x : option A) : bool :=
  match x with Some _ => true | None => false end.

(** Truthiness of an optional string: [undefined], [null] and the empty
    string are falsy. *)
Definition truthy_string (x : option string) : bool :=
  match x with
  | Some s => negb (String.eqb s "")
  | None => false
  end.

(** [x || y] on optional values. *)
Definition or_else {A : Type} (x y : option A) : option A :=
  match x with Some _ => x | None => y end.

(** [x === 'lit'] where [x] may be undefined. *)
Definition strict_eq (x : option string) (lit : string) : bool :=
  match x with Some s => String.eqb s lit | None => false end.

(** [array.length] *)
Definition length {A : Type} (l : list A) : Z := Z.of_nat (List.length l).

(** Number conversion of an integer: exact below 2^53 in absolute value,
    rounded to nearest below 2^63. *)
Definition Z2f (z : Z) : float :=
  if z <? 0 then PrimFloat.opp (PrimFloat.of_uint63 (Uint63.of_Z (- z)))
  else PrimFloat.of_uint63 (Uint63.of_Z z).

(** [Math.min(x, y)] (the sign of a zero result is not distinguished). *)
Definition Math_min (x y : float) : float :=
  if PrimFloat.is_nan x || PrimFloat.is_nan y then PrimFloat.nan
  else if PrimFloat.ltb x y then x else y.

(** [String.prototype.includes] *)
Fixpoint includes (needle hay : string) : bool :=
  String.prefix needle hay
  || match hay with
     | EmptyString => false
     | String _ hay' => includes needle hay'
     end.

(** [Array.prototype.includes] on an array of strings. *)
Definition array_includes (x : string) (l : list string) : bool :=
  existsb (String.eqb x) l.

(** [String.prototype.split] with a one-character separator. *)
Fixpoint split (sep : ascii) (s : string) : list string :=
  match s with
  | EmptyString => [EmptyString]
  | String c s' =>
      if Ascii.eqb c sep then EmptyString :: split sep s'
      else match split sep s' with
           | w :: ws => String c w :: ws
           | [] => [String c EmptyString]
           end
  end.

(** White space of [String.prototype.trim], restricted to the ASCII range:
    tab, line feed, vertical tab, form feed, carriage return, space. *)
Definition is_space (c : ascii) : bool :=
  let n := nat_of_ascii c in
  ((9 <=? n) && (n <=? 13))%nat || (n =? 32)%nat.

Fixpoint trimStart (s : string) : string :=
  match s with
  | EmptyString => EmptyString
  | String c s' => if is_space c then trimStart s' else s
  end.

Fixpoint trimEnd (s : string) : string :=
  match s with
  | EmptyString => EmptyString
  | String c s' =>
      let t := trimEnd s' in
      if is_space c && String.eqb t "" then EmptyString else String c t
  end.

Definition trim (s : string) : string := trimEnd (trimStart s).

(** Time value of [new Date(x)]: [None] is the invalid date of an
    undefined argument. *)
Definition Date (x : option Z) : option Z := x.

(** Subtraction of two dates: both time values are integers of magnitude
    at most 8.64e15, so the double subtraction is the rounding of the
    exact difference; an invalid date gives NaN. *)
Definition Date_sub (a b : option Z) : float :=
  match a, b with
  | Some x, Some y => Z2f (x - y)
  | _, _ => PrimFloat.nan
  end.

End JS.

(** ** Data model *)

Definition timestamp := Z.

(** An error thrown by a request: [error.status] and [error.message]. *)
Module Err.
Record t := mk { status : option Z; message : string }.
End Err.

(** A repository object as the REST API returns it. *)
Module Repo.
Record t := mk {
  name : string;
  html_url : string;
  private : bool;
  default_branch : string;
  updated_at : string;
  topics : option (list string);
  has_vulnerability_alerts : option bool
}.
End Repo.

(** A code-scanning alert of the REST API. *)
Module RawCode.
Record t := mk {
  number : Z;
  state : string;
  security_severity_level : option string;   (* alert.rule.security_severity_level *)
  rule_id : string;                          (* alert.rule.id *)
  rule_description : string;
  location_path : option string;             (* most_recent_instance.location?.path *)
  created_at : timestamp;
  tool_name : string
}.
End RawCode.

(** A secret-scanning alert of the REST API. *)
Module RawSecret.
Record t := mk {
  number : Z;
  state : string;
  secret_type : string;
  secret_type_display_name : string;
  created_at : timestamp;
  resolved_at : option timestamp;
  resolved_by_login : option string;         (* alert.resolved_by?.login *)
  push_protection_bypassed : option bool
}.
End RawSecret.

(** A [vulnerabilityAlerts] node of the GraphQL query. *)
Module RawDep.
Record t := mk {
  id : string;
  createdAt : timestamp;
  dismissedAt : option timestamp;
  severity : string;                         (* securityVulnerability.severity *)
  package_name : string;
  package_ecosystem : string;
  advisory_summary : string;
  cvss_score : option float                  (* advisory.cvss?.score *)
}.
End RawDep.

(** The three alert shapes built by the collectors. *)
Module CodeAlert.
Record t := mk {
  number : Z;
  state : string;
  severity : string;
  rule : string;
  description : string;
  path : option string;
  createdAt : timestamp;
  tool : string
}.
End CodeAlert.

Module SecretAlert.
Record t := mk {
  number : Z;
  state : string;
  secretType : string;
  secretTypeDisplayName : string;
  createdAt : timestamp;
  resolvedAt : option timestamp;
  resolvedBy : option string;
  pushProtectionBypassed : option bool
}.
End SecretAlert.

Module DepAlert.
Record t := mk {
  id : string;
  createdAt : timestamp;
  severity : string;
  package : string;
  ecosystem : string;
  summary : string;
  cvssScore : option float
}.
End DepAlert.

(** An element of [allAlerts]: an object of one of the three shapes. *)
Inductive Alert : Type :=
| ACode (a : CodeAlert.t)
| ASecret (a : SecretAlert.t)
| ADep (a : DepAlert.t).

(** Property reads on an element of [allAlerts]; a property the shape does
    not have reads as undefined. *)
Module AlertField.

Definition state (a : Alert) : option string :=
  match a with
  | ACode c => Some (CodeAlert.state c)
  | ASecret s => Some (SecretAlert.state s)
  | ADep _ => None
  end.

Definition createdAt (a : Alert) : option timestamp :=
  match a with
  | ACode c => Some (CodeAlert.createdAt c)
  | ASecret s => Some (SecretAlert.createdAt s)
  | ADep d => Some (DepAlert.createdAt d)
  end.

Definition resolvedAt (a : Alert) : option timestamp :=
  match a with
  | ASecret s => SecretAlert.resolvedAt s
  | ACode _ | ADep _ => None
  end.

Definition dismissedAt (a : Alert) : option timestamp :=
  match a with
  | ACode _ | ASecret _ | ADep _ => None
  end.

End AlertField.

(** [securityFeatures] of a repository. *)
Record CodeScanningStatus := mkCodeScanning {
  cs_enabled : bool;
  cs_lastRun : option string;
  cs_error : option string
}.

Record SecretScanningStatus := mkSecretScanning {
  ss_enabled : bool;
  ss_pushProtection : bool;
  ss_error : option string
}.

Record DependabotStatus := mkDependabot {
  db_enabled : bool;
  db_securityUpdates : bool;
  db_error : option string
}.

Record BranchProtectionStatus := mkBranchProtection {
  bp_enabled : bool;
  bp_rules : option string     (* [] until a protection object is stored *)
}.

Record SecurityFeatures := mkFeatures {
  codeScanning : CodeScanningStatus;
  secretScanning : SecretScanningStatus;
  dependabot : DependabotStatus;
  branchProtection : BranchProtectionStatus
}.

Record Alerts := mkAlerts {
  code : list CodeAlert.t;
  secret : list SecretAlert.t;
  dependency : list DepAlert.t
}.

Record Metrics := mkMetrics {
  totalAlerts : Z;
  openAlerts : Z;
  closedAlerts : Z;
  meanTimeToResolve : float
}.

(** The per-repository object [repoAudit]. *)
Module RepoAudit.
Record t := mk {
  name : string;
  url : string;
  private : bool;
  defaultBranch : string;
  lastUpdated : string;
  securityFeatures : SecurityFeatures;
  alerts : Alerts;
  metrics : Metrics
}.
End RepoAudit.

(** [this.results] *)
Record Metadata := mkMetadata {
  organization : string;
  auditDate : string;
  md_scope : string;
  version : string
}.

Module Summary.
Record t := mk {
  totalRepositories : Z;
  scannedRepositories : Z;
  totalAlerts : Z;
  criticalAlerts : Z;
  highAlerts : Z;
  mediumAlerts : Z;
  lowAlerts : Z;
  secretAlerts : Z;
  dependencyAlerts : Z;
  codeAlerts : Z
}.
End Summary.

Record FrameworkScore := mkFramework {
  score : float;
  details : string
}.

Record Compliance := mkCompliance {
  overallScore : float;
  frameworks : list (string * FrameworkScore)   (* keys in insertion order *)
}.

Record Results := mkResults {
  metadata : Metadata;
  summary : Summary.t;
  repositories : list RepoAudit.t;
  compliance : Compliance
}.

(** Lookup of a key of the [frameworks] object. *)
Fixpoint framework (key : string) (fs : list (string * FrameworkScore))
  : option FrameworkScore :=
  match fs with
  | [] => None
  | (k, v) :: fs' => if String.eqb k key then Some v else framework key fs'
  end.

(** The command-line options the class reads. *)
Record Options := mkOptions {
  opt_scope : string;
  opt_repos : option string
}.

(** ** The collectors' mappings into the alert shapes *)

(** [getCodeScanningAlerts], the object built for one record. *)
Definition mapCodeAlert (alert : RawCode.t) : CodeAlert.t :=
  CodeAlert.mk
    (RawCode.number alert)
    (RawCode.state alert)
    (if JS.truthy_string (RawCode.security_severity_level alert)
     then match RawCode.security_severity_level alert with
          | Some s => s
          | None => "unknown"
          end
     else "unknown")
    (RawCode.rule_id alert)
    (RawCode.rule_description alert)
    (RawCode.location_path alert)
    (RawCode.created_at alert)
    (RawCode.tool_name alert).

(** [getSecretScanningAlerts], the object built for one record. *)
Definition mapSecretAlert (alert : RawSecret.t) : SecretAlert.t :=
  SecretAlert.mk
    (RawSecret.number alert)
    (RawSecret.state alert)
    (RawSecret.secret_type alert)
    (RawSecret.secret_type_display_name alert)
    (RawSecret.created_at alert)
    (RawSecret.resolved_at alert)
    (RawSecret.resolved_by_login alert)
    (RawSecret.push_protection_bypassed alert).

(** [getDependabotAlerts], the object built for one node: the node's
    [dismissedAt] is not copied. *)
Definition mapDependabotAlert (alert : RawDep.t) : DepAlert.t :=
  DepAlert.mk
    (RawDep.id alert)
    (RawDep.createdAt alert)
    (RawDep.severity alert)
    (RawDep.package_name alert)
    (RawDep.package_ecosystem alert)
    (RawDep.advisory_summary alert)
    (RawDep.cvss_score alert).

(** ** Metrics calculator *)

Definition allAlerts (al : Alerts) : list Alert :=
  map ACode (code al) ++ map ASecret (secret al) ++ map ADep (dependency al).

(** [a => a.state === 'open' || !a.dismissedAt] *)
Definition isOpen (a : Alert) : bool :=
  JS.strict_eq (AlertField.state a) "open"
  || negb (JS.truthy (AlertField.dismissedAt a)).

(** [a => a.resolvedAt || a.dismissedAt] *)
Definition isResolved (a : Alert) : bool :=
  JS.truthy (JS.or_else (AlertField.resolvedAt a) (AlertField.dismissedAt a)).

(** The days between creation and resolution of one resolved alert. *)
Definition resolutionTime (a : Alert) : float :=
  let created := JS.Date (AlertField.createdAt a) in
  let resolved :=
    JS.Date (JS.or_else (AlertField.resolvedAt a) (AlertField.dismissedAt a)) in
  (JS.Date_sub resolved created / (1000 * 60 * 60 * 24))%float.

(** [reduce((a, b) => a + b, 0)] over numbers. *)
Definition sum_floats (l : list float) : float :=
  fold_left PrimFloat.add l 0%float.

Definition calculateRepoMetrics (repoAudit : RepoAudit.t) : RepoAudit.t :=
  let all := allAlerts (RepoAudit.alerts repoAudit) in
  let total := JS.length all in
  let open := JS.length (filter isOpen all) in
  let closed := total - open in
  let resolvedAlerts := filter isResolved all in
  let mttr :=
    if JS.length resolvedAlerts >? 0 then
      let resolutionTimes := map resolutionTime resolvedAlerts in
      (sum_floats resolutionTimes / JS.Z2f (JS.length resolutionTimes))%float
    else meanTimeToResolve (RepoAudit.metrics repoAudit) in
  RepoAudit.mk
    (RepoAudit.name repoAudit) (RepoAudit.url repoAudit)
    (RepoAudit.private repoAudit) (RepoAudit.defaultBranch repoAudit)
    (RepoAudit.lastUpdated repoAudit) (RepoAudit.securityFeatures repoAudit)
    (RepoAudit.alerts repoAudit)
    (mkMetrics total open closed mttr).

(** ** Fleet summary *)

Definition add_severity (crit high med low : Z) (s : Summary.t) : Summary.t :=
  Summary.mk
    (Summary.totalRepositories s) (Summary.scannedRepositories s)
    (Summary.totalAlerts s)
    (Summary.criticalAlerts s + crit) (Summary.highAlerts s + high)
    (Summary.mediumAlerts s + med) (Summary.lowAlerts s + low)
    (Summary.secretAlerts s) (Summary.dependencyAlerts s)
    (Summary.codeAlerts s).

(** The [switch] in the loop over [repoAudit.alerts.code]. *)
Definition countCodeSeverity (s : Summary.t) (alert : CodeAlert.t) : Summary.t :=
  let sev := CodeAlert.severity alert in
  if String.eqb sev "critical" then add_severity 1 0 0 0 s
  else if String.eqb sev "high" then add_severity 0 1 0 0 s
  else if String.eqb sev "medium" then add_severity 0 0 1 0 s
  else if String.eqb sev "low" then add_severity 0 0 0 1 s
  else s.

(** The [switch] in the loop over [repoAudit.alerts.dependency]. *)
Definition countDependencySeverity (s : Summary.t) (alert : DepAlert.t) : Summary.t :=
  let sev := DepAlert.severity alert in
  if String.eqb sev "CRITICAL" then add_severity 1 0 0 0 s
  else if String.eqb sev "HIGH" then add_severity 0 1 0 0 s
  else if String.eqb sev "MODERATE" then add_severity 0 0 1 0 s
  else if String.eqb sev "LOW" then add_severity 0 0 0 1 s
  else s.

Definition add_totals (total codeN secretN depN : Z) (s : Summary.t) : Summary.t :=
  Summary.mk
    (Summary.totalRepositories s) (Summary.scannedRepositories s)
    (Summary.totalAlerts s + total)
    (Summary.criticalAlerts s) (Summary.highAlerts s)
    (Summary.mediumAlerts s) (Summary.lowAlerts s)
    (Summary.secretAlerts s + secretN) (Summary.dependencyAlerts s + depN)
    (Summary.codeAlerts s + codeN).

(** [updateSummary] as a function of [this.results.summary]. *)
Definition updateSummary (repoAudit : RepoAudit.t) (s : Summary.t) : Summary.t :=
  let al := RepoAudit.alerts repoAudit in
  let s := add_totals (totalAlerts (RepoAudit.metrics repoAudit)) 0 0 0 s in
  let s := fold_left countCodeSeverity (code al) s in
  let s := fold_left countDependencySeverity (dependency al) s in
  add_totals 0 (JS.length (code al)) (JS.length (secret al))
    (JS.length (dependency al)) s.

(** ** Compliance scorer *)

Record Scores := mkScores {
  scanning : float;
  protection : float;
  resolution : float
}.

(** The body of [repos.forEach] in [calculateCompliance]. *)
Definition scoreRepo (scores : Scores) (repo : RepoAudit.t) : Scores :=
  let f := RepoAudit.securityFeatures repo in
  let m := RepoAudit.metrics repo in
  let sc := scanning scores in
  let sc := if cs_enabled (codeScanning f) then (sc + 0.33)%float else sc in
  let sc := if ss_enabled (secretScanning f) then (sc + 0.33)%float else sc in
  let sc := if db_enabled (dependabot f) then (sc + 0.34)%float else sc in
  let pr := protection scores in
  let pr := if bp_enabled (branchProtection f) then (pr + 0.5)%float else pr in
  let pr := if ss_pushProtection (secretScanning f) then (pr + 0.5)%float else pr in
  let rs := resolution scores in
  let rs :=
    if totalAlerts m >? 0
    then (rs + JS.Z2f (closedAlerts m) / JS.Z2f (totalAlerts m))%float
    else (rs + 1)%float in
  mkScores sc pr rs.

(** [(scores[key] / totalRepos) * 100] *)
Definition averageScore (x : float) (totalRepos : Z) : float :=
  (x / JS.Z2f totalRepos * 100)%float.

(** [rule.includes(keyword)] counted over the code alerts of all
    repositories. *)
Definition countRuleAlerts (keyword : string) (repos : list RepoAudit.t) : Z :=
  fold_left
    (fun count repo =>
       count + JS.length
                 (filter (fun a => JS.includes keyword (CodeAlert.rule a))
                         (code (RepoAudit.alerts repo))))
    repos 0.

(** [(count / repos.length) * weight] *)
Definition fraction (count : Z) (repos : list RepoAudit.t) (weight : float) : float :=
  (JS.Z2f count / JS.Z2f (JS.length repos) * weight)%float.

Definition calculateOWASPCompliance (r : Results) : float :=
  let score := 0%float in
  let repos := repositories r in
  let injectionAlerts := countRuleAlerts "injection" repos in
  let score := if injectionAlerts =? 0 then (score + 10)%float else score in
  let authAlerts := countRuleAlerts "auth" repos in
  let score := if authAlerts =? 0 then (score + 10)%float else score in
  let score :=
    if Summary.secretAlerts (summary r) =? 0 then (score + 20)%float else score in
  let configAlerts := countRuleAlerts "config" repos in
  let score := if configAlerts =? 0 then (score + 10)%float else score in
  let score :=
    if Summary.dependencyAlerts (summary r) <? 5 then (score + 20)%float
    else if Summary.dependencyAlerts (summary r) <? 20 then (score + 10)%float
    else score in
  let scanningEnabled :=
    JS.length (filter (fun rp => cs_enabled (codeScanning (RepoAudit.securityFeatures rp)))
                      repos) in
  let score := (score + fraction scanningEnabled repos 30)%float in
  JS.Math_min score 100.

Definition calculateNISTCompliance (r : Results) : float :=
  let repos := repositories r in
  let score := 0%float in
  let score := (score + 20)%float in
  let protectedRepos :=
    JS.length (filter (fun rp => bp_enabled (branchProtection (RepoAudit.securityFeatures rp)))
                      repos) in
  let score := (score + fraction protectedRepos repos 20)%float in
  let monitoredRepos :=
    JS.length
      (filter (fun rp =>
                 let f := RepoAudit.securityFeatures rp in
                 cs_enabled (codeScanning f)
                 || ss_enabled (secretScanning f)
                 || db_enabled (dependabot f))
              repos) in
  let score := (score + fraction monitoredRepos repos 20)%float in
  let avgResponseTime :=
    (fold_left (fun sum repo => sum + meanTimeToResolve (RepoAudit.metrics repo))
               repos 0
     / JS.Z2f (JS.length repos))%float in
  let score :=
    if PrimFloat.ltb avgResponseTime 7 then (score + 20)%float
    else if PrimFloat.ltb avgResponseTime 30 then (score + 10)%float
    else score in
  let score := (score + 20)%float in
  JS.Math_min score 100.

Definition calculateISOCompliance (r : Results) : float :=
  let repos := repositories r in
  let score := 0%float in
  let vulnMgmt :=
    JS.length (filter (fun rp => db_enabled (dependabot (RepoAudit.securityFeatures rp)))
                      repos) in
  let score := (score + fraction vulnMgmt repos 25)%float in
  let secDev :=
    JS.length (filter (fun rp => cs_enabled (codeScanning (RepoAudit.securityFeatures rp)))
                      repos) in
  let score := (score + fraction secDev repos 25)%float in
  let secretMgmt :=
    JS.length (filter (fun rp => ss_enabled (secretScanning (RepoAudit.securityFeatures rp)))
                      repos) in
  let score := (score + fraction secretMgmt repos 25)%float in
  let score := (score + 25)%float in
  JS.Math_min score 100.

(** The three sub-scores after the loop and the averaging. *)
Definition subScores (repos : list RepoAudit.t) : Scores :=
  let totalRepos := JS.length repos in
  let scores := fold_left scoreRepo repos (mkScores 0 0 0) in
  mkScores (averageScore (scanning scores) totalRepos)
           (averageScore (protection scores) totalRepos)
           (averageScore (resolution scores) totalRepos).

(** [calculateCompliance] as a function of [this.results]. *)
Definition calculateCompliance (r : Results) : Results :=
  let repos := repositories r in
  let totalRepos := JS.length repos in
  if totalRepos =? 0 then r
  else
    let scores := subScores repos in
    let overall :=
      ((scanning scores + protection scores + resolution scores) / 3)%float in
    let r1 :=
      mkResults (metadata r) (summary r) (repositories r)
                (mkCompliance overall (frameworks (compliance r))) in
    mkResults (metadata r1) (summary r1) (repositories r1)
      (mkCompliance (overallScore (compliance r1))
         [ ("OWASP", mkFramework (calculateOWASPCompliance r1)
                       "Based on OWASP Top 10 coverage");
           ("NIST", mkFramework (calculateNISTCompliance r1)
                      "Based on NIST Cybersecurity Framework");
           ("ISO27001", mkFramework (calculateISOCompliance r1)
                          "Based on ISO 27001 controls") ]).

(** The tail of [auditRepository] once the three collections are in
    [repoAudit]: metrics, summary, append, count. *)
Definition recordRepository (repoAudit : RepoAudit.t) (r : Results) : Results :=
  let repoAudit := calculateRepoMetrics repoAudit in
  let s := updateSummary repoAudit (summary r) in
  let s :=
    Summary.mk
      (Summary.totalRepositories s) (Summary.scannedRepositories s + 1)
      (Summary.totalAlerts s)
      (Summary.criticalAlerts s) (Summary.highAlerts s)
      (Summary.mediumAlerts s) (Summary.lowAlerts s)
      (Summary.secretAlerts s) (Summary.dependencyAlerts s)
      (Summary.codeAlerts s) in
  mkResults (metadata r) s (repositories r ++ [repoAudit]) (compliance r).

(** The constructor's [this.results]; [now] is the audit date. *)
Definition initialMetrics : Metrics := mkMetrics 0 0 0 0%float.

Definition initialResults (org : string) (options : Options) (now : string) : Results :=
  mkResults
    (mkMetadata org now (opt_scope options) "1.0.0")
    (Summary.mk 0 0 0 0 0 0 0 0 0 0)
    []
    (mkCompliance 0%float []).

(** ** The platform *)

(** One page of the GraphQL [vulnerabilityAlerts] connection. *)
Record PageInfo := mkPageInfo {
  hasNextPage : bool;
  endCursor : option string
}.

Record VulnerabilityAlerts := mkVulnerabilityAlerts {
  nodes : option (list RawDep.t);
  pageInfo : PageInfo
}.

(** [result.repository?.vulnerabilityAlerts]: [None] when either level is
    missing. *)
Record GraphQLResult := mkGraphQLResult {
  vulnerabilityAlerts : option VulnerabilityAlerts
}.

(** The requests the audit sends, as functions of their parameters; the
    parameters the source keeps constant ([per_page], [state], [type]) are
    part of the request each field stands for. *)
Record GitHub := mkGitHub {
  (* GET /repos/{owner}/{repo} *)
  repos_get : string -> string -> Err.t + Repo.t;
  (* GET /orgs/{org}/repos, type all, per_page 100, page *)
  repos_listForOrg : string -> Z -> Err.t + list Repo.t;
  (* GET /repos/{owner}/{repo}/code-scanning/analyses, per_page 1:
     the [created_at] of each analysis *)
  code_scanning_analyses : string -> string -> Err.t + list string;
  (* GET /repos/{owner}/{repo}/secret-scanning/alerts, per_page 1 *)
  secret_scanning_probe : string -> string -> Err.t + list RawSecret.t;
  (* GET /repos/{owner}/{repo}/branches/{branch}/protection *)
  repos_getBranchProtection : string -> string -> string -> Err.t + string;
  (* GET /repos/{owner}/{repo}/code-scanning/alerts, open, per_page 100, page *)
  code_scanning_alerts : string -> string -> Z -> Err.t + list RawCode.t;
  (* GET /repos/{owner}/{repo}/secret-scanning/alerts, open, per_page 100, page *)
  secret_scanning_alerts : string -> string -> Z -> Err.t + list RawSecret.t;
  (* the GraphQL query, with $org, $repo and $cursor *)
  graphql_vulnerabilityAlerts : string -> string -> option string -> Err.t + GraphQLResult;
  (* fs.mkdir and fs.writeFile of the results document *)
  fs_writeFile : Results -> Err.t + unit
}.

(** ** Effects *)

(** What the run leaves outside [this.results]: console warnings and
    errors, and the document written by [saveResults].  (The spinner and
    the informational [console.log] lines are not recorded.) *)
Inductive Event : Type :=
| Warn (text : string)
| Error (text : string)
| Saved (document : Results).

Record State := mkState {
  results : Results;
  trace : list Event
}.

Inductive Outcome (A : Type) : Type :=
| Ret (a : A)
| Throw (e : Err.t)
| Exit (code : Z)
| OutOfFuel.
Arguments Ret {A} a.
Arguments Throw {A} e.
Arguments Exit {A} code.
Arguments OutOfFuel {A}.

(** A computation over a store [S]: the store survives an exception, as
    the mutations made before a [throw] do. *)
Definition M (S A : Type) : Type := S -> Outcome A * S.

Definition ret {S A} (a : A) : M S A := fun s => (Ret a, s).

Definition bind {S A B} (m : M S A) (k : A -> M S B) : M S B :=
  fun s =>
    match m s with
    | (Ret a, s') => k a s'
    | (Throw e, s') => (Throw e, s')
    | (Exit c, s') => (Exit c, s')
    | (OutOfFuel, s') => (OutOfFuel, s')
    end.

Declare Scope monad_scope.
Delimit Scope monad_scope with M.
Notation "x <- m ;; k" := (bind m (fun x => k))
  (at level 61, m at next level, right associativity) : monad_scope.
Notation "m ;; k" := (bind m (fun _ => k))
  (at level 61, right associativity) : monad_scope.
#[local] Open Scope monad_scope.

Definition throw {S A} (e : Err.t) : M S A := fun s => (Throw e, s).
Definition process_exit {S A} (code : Z) : M S A := fun s => (Exit code, s).
Definition out_of_fuel {S A} : M S A := fun s => (OutOfFuel, s).

(** [try { m } catch (error) { handler }] *)
Definition try_catch {S A} (m : M S A) (handler : Err.t -> M S A) : M S A :=
  fun s =>
    match m s with
    | (Throw e, s') => handler e s'
    | r => r
    end.

(** [await] of a request. *)
Definition await {S A} (response : Err.t + A) : M S A :=
  match response with
  | inr a => ret a
  | inl e => throw e
  end.

Definition get {S} : M S S := fun s => (Ret s, s).
Definition modify {S} (f : S -> S) : M S unit := fun s => (Ret tt, f s).

(** A local variable of type [L] declared around [m]. *)
Definition with_local {S L A} (init : L) (m : M (S * L) A) : M S A :=
  fun s => let (o, sl) := m (s, init) in (o, fst sl).

Definition lift {S L A} (m : M S A) : M (S * L) A :=
  fun sl => let (o, s') := m (fst sl) in (o, (s', snd sl)).

Definition local {S L} : M (S * L) L := fun sl => (Ret (snd sl), sl).

(** [alerts.push(...items)] on the local array. *)
Definition push {S A} (items : list A) : M (S * list A) unit :=
  modify (fun sl => (fst sl, snd sl ++ items)).

Definition emit (e : Event) : M State unit :=
  modify (fun s => mkState (results s) (trace s ++ [e])).

Definition console_warn (text : string) : M State unit := emit (Warn text).
Definition console_error (text : string) : M State unit := emit (Error text).

Definition update_results (f : Results -> Results) : M State unit :=
  modify (fun s => mkState (f (results s)) (trace s)).

(** [error.status !== code] *)
Definition status_is_not (error : Err.t) (code : Z) : bool :=
  match Err.status error with
  | Some c => negb (c =? code)
  | None => true
  end.

(** ** The class [GHASAudit] *)

Section GHASAudit.

Variable gh : GitHub.
Variable org : string.          (* this.org *)
Variable options : Options.     (* this.options *)

(** *** Repository selector *)

(** The loop over [repoNames] of the explicit mode. *)
Fixpoint resolveRepos (repoNames : list string) (repos : list Repo.t)
  : M State (list Repo.t) :=
  match repoNames with
  | [] => ret repos
  | repoName :: rest =>
      repos <- try_catch
                 (data <- await (repos_get gh org repoName) ;;
                  ret (repos ++ [data]))
                 (fun _ =>
                    console_warn ("Warning: Could not access repository " ++ repoName) ;;
                    ret repos) ;;
      resolveRepos rest repos
  end.

(** The [while (hasMore)] loop of the fleet mode. *)
Fixpoint listRepos (fuel : nat) (page : Z) (repos : list Repo.t)
  : M State (list Repo.t) :=
  match fuel with
  | O => out_of_fuel
  | S fuel =>
      data <- await (repos_listForOrg gh org page) ;;
      let repos := repos ++ data in
      if JS.length data =? 100 then listRepos fuel (page + 1) repos
      else ret repos
  end.

(** The predicate of the [critical] scope. *)
Definition isCriticalRepo (repo : Repo.t) : bool :=
  match Repo.topics repo with
  | Some ts => JS.array_includes "critical" ts
  | None => false
  end
  || match Repo.topics repo with
     | Some ts => JS.array_includes "production" ts
     | None => false
     end
  || JS.includes "api" (Repo.name repo)
  || JS.includes "auth" (Repo.name repo).

Definition getRepositories (fuel : nat) : M State (list Repo.t) :=
  if JS.truthy_string (opt_repos options) then
    let repoNames :=
      map JS.trim
          (JS.split ","%char
             (match opt_repos options with Some s => s | None => "" end)) in
    resolveRepos repoNames []
  else
    repos <- listRepos fuel 1 [] ;;
    if String.eqb (opt_scope options) "critical"
    then ret (filter isCriticalRepo repos)
    else ret repos.

(** *** Feature prober *)

Definition defaultFeatures : SecurityFeatures :=
  mkFeatures (mkCodeScanning false None None)
             (mkSecretScanning false false None)
             (mkDependabot false false None)
             (mkBranchProtection false None).

Definition set_codeScanning (x : CodeScanningStatus) (f : SecurityFeatures) :=
  mkFeatures x (secretScanning f) (dependabot f) (branchProtection f).
Definition set_secretScanning (x : SecretScanningStatus) (f : SecurityFeatures) :=
  mkFeatures (codeScanning f) x (dependabot f) (branchProtection f).
Definition set_dependabot (x : DependabotStatus) (f : SecurityFeatures) :=
  mkFeatures (codeScanning f) (secretScanning f) x (branchProtection f).
Definition set_branchProtection (x : BranchProtectionStatus) (f : SecurityFeatures) :=
  mkFeatures (codeScanning f) (secretScanning f) (dependabot f) x.

Definition enable_secretScanning (f : SecurityFeatures) : SecurityFeatures :=
  set_secretScanning
    (mkSecretScanning true (ss_pushProtection (secretScanning f))
                      (ss_error (secretScanning f))) f.

(** [features] is the local object: what was set before a request fails is
    kept. *)
Definition getSecurityFeatures (repo : Repo.t) : M State SecurityFeatures :=
  with_local defaultFeatures
    (try_catch
       ((* code scanning; a failed request counts as no analysis *)
        analyses <-
          try_catch (await (code_scanning_analyses gh org (Repo.name repo)))
                    (fun _ => ret []) ;;
        match analyses with
        | lastRun :: _ =>
            modify (fun sl =>
                      (fst sl,
                       set_codeScanning
                         (mkCodeScanning true (Some lastRun)
                                         (cs_error (codeScanning (snd sl))))
                         (snd sl)))
        | [] => ret tt
        end ;;
        (* secret scanning *)
        try_catch
          (await (secret_scanning_probe gh org (Repo.name repo)) ;;
           modify (fun sl => (fst sl, enable_secretScanning (snd sl))))
          (fun error =>
             if status_is_not error 404
             then modify (fun sl => (fst sl, enable_secretScanning (snd sl)))
             else ret tt) ;;
        (* Dependabot *)
        vulnerabilityAlerts <- await (repos_get gh org (Repo.name repo)) ;;
        modify (fun sl =>
                  (fst sl,
                   set_dependabot
                     (mkDependabot
                        (match Repo.has_vulnerability_alerts vulnerabilityAlerts with
                         | Some true => true
                         | _ => false
                         end)
                        (db_securityUpdates (dependabot (snd sl)))
                        (db_error (dependabot (snd sl))))
                     (snd sl))) ;;
        (* branch protection *)
        try_catch
          (protection <-
             await (repos_getBranchProtection gh org (Repo.name repo)
                                              (Repo.default_branch repo)) ;;
           modify (fun sl =>
                     (fst sl,
                      set_branchProtection (mkBranchProtection true (Some protection))
                                           (snd sl))))
          (fun _ => ret tt))
       (fun _ =>
          lift (console_warn
                  ("Warning: Could not fetch all security features for "
                   ++ Repo.name repo))) ;;
     local).

(** *** Alert collector *)

(** The [while (hasMore)] loop of [getCodeScanningAlerts] over the local
    array [alerts]. *)
Fixpoint codeScanningPages (repo : Repo.t) (fuel : nat) (page : Z)
  : M (State * list CodeAlert.t) unit :=
  match fuel with
  | O => out_of_fuel
  | S fuel =>
      hasMore <-
        try_catch
          (data <- await (code_scanning_alerts gh org (Repo.name repo) page) ;;
           push (map mapCodeAlert data) ;;
           ret (JS.length data =? 100))
          (fun error =>
             if status_is_not error 404 then throw error else ret false) ;;
      if hasMore : bool then codeScanningPages repo fuel (page + 1) else ret tt
  end.

Definition getCodeScanningAlerts (fuel : nat) (repo : Repo.t)
  : M State (list CodeAlert.t) :=
  with_local [] (codeScanningPages repo fuel 1 ;; local).

Fixpoint secretScanningPages (repo : Repo.t) (fuel : nat) (page : Z)
  : M (State * list SecretAlert.t) unit :=
  match fuel with
  | O => out_of_fuel
  | S fuel =>
      hasMore <-
        try_catch
          (data <- await (secret_scanning_alerts gh org (Repo.name repo) page) ;;
           push (map mapSecretAlert data) ;;
           ret (JS.length data =? 100))
          (fun error =>
             if status_is_not error 404 && status_is_not error 403
             then throw error else ret false) ;;
      if hasMore : bool then secretScanningPages repo fuel (page + 1) else ret tt
  end.

Definition getSecretScanningAlerts (fuel : nat) (repo : Repo.t)
  : M State (list SecretAlert.t) :=
  with_local [] (secretScanningPages repo fuel 1 ;; local).

(** The [while (hasNextPage)] loop of [getDependabotAlerts]. *)
Fixpoint dependabotPages (repo : Repo.t) (fuel : nat) (cursor : option string)
  : M (State * list DepAlert.t) unit :=
  match fuel with
  | O => out_of_fuel
  | S fuel =>
      result <- await (graphql_vulnerabilityAlerts gh org (Repo.name repo) cursor) ;;
      match vulnerabilityAlerts result with
      | Some va =>
          match nodes va with
          | Some ns =>
              push (map mapDependabotAlert ns) ;;
              if hasNextPage (pageInfo va)
              then dependabotPages repo fuel (endCursor (pageInfo va))
              else ret tt
          | None => ret tt
          end
      | None => ret tt
      end
  end.

(** The [try] encloses the whole loop and the array is declared outside
    it: the function returns what the pages fetched before a failure
    pushed. *)
Definition getDependabotAlerts (fuel : nat) (repo : Repo.t)
  : M State (list DepAlert.t) :=
  with_local []
    (try_catch
       (dependabotPages repo fuel None)
       (fun _ =>
          lift (console_warn
                  ("Warning: Could not fetch Dependabot alerts via GraphQL for "
                   ++ Repo.name repo))) ;;
     local).

(** *** One repository *)

Definition set_alerts (al : Alerts) (ra : RepoAudit.t) : RepoAudit.t :=
  RepoAudit.mk (RepoAudit.name ra) (RepoAudit.url ra) (RepoAudit.private ra)
    (RepoAudit.defaultBranch ra) (RepoAudit.lastUpdated ra)
    (RepoAudit.securityFeatures ra) al (RepoAudit.metrics ra).

Definition set_features (f : SecurityFeatures) (ra : RepoAudit.t) : RepoAudit.t :=
  RepoAudit.mk (RepoAudit.name ra) (RepoAudit.url ra) (RepoAudit.private ra)
    (RepoAudit.defaultBranch ra) (RepoAudit.lastUpdated ra)
    f (RepoAudit.alerts ra) (RepoAudit.metrics ra).

Definition auditRepository (fuel : nat) (repo : Repo.t) : M State unit :=
  try_catch
    (securityFeatures <- getSecurityFeatures repo ;;
     let repoAudit :=
       RepoAudit.mk (Repo.name repo) (Repo.html_url repo) (Repo.private repo)
         (Repo.default_branch repo) (Repo.updated_at repo)
         securityFeatures (mkAlerts [] [] []) initialMetrics in
     repoAudit <-
       try_catch
         (alerts <- getCodeScanningAlerts fuel repo ;;
          let al := RepoAudit.alerts repoAudit in
          ret (set_alerts (mkAlerts alerts (secret al) (dependency al)) repoAudit))
         (fun error =>
            let f := RepoAudit.securityFeatures repoAudit in
            ret (set_features
                   (set_codeScanning
                      (mkCodeScanning (cs_enabled (codeScanning f))
                                      (cs_lastRun (codeScanning f))
                                      (Some (Err.message error))) f)
                   repoAudit)) ;;
     repoAudit <-
       try_catch
         (alerts <- getSecretScanningAlerts fuel repo ;;
          let al := RepoAudit.alerts repoAudit in
          ret (set_alerts (mkAlerts (code al) alerts (dependency al)) repoAudit))
         (fun error =>
            let f := RepoAudit.securityFeatures repoAudit in
            ret (set_features
                   (set_secretScanning
                      (mkSecretScanning (ss_enabled (secretScanning f))
                                        (ss_pushProtection (secretScanning f))
                                        (Some (Err.message error))) f)
                   repoAudit)) ;;
     repoAudit <-
       try_catch
         (alerts <- getDependabotAlerts fuel repo ;;
          let al := RepoAudit.alerts repoAudit in
          ret (set_alerts (mkAlerts (code al) (secret al) alerts) repoAudit))
         (fun error =>
            let f := RepoAudit.securityFeatures repoAudit in
            ret (set_features
                   (set_dependabot
                      (mkDependabot (db_enabled (dependabot f))
                                    (db_securityUpdates (dependabot f))
                                    (Some (Err.message error))) f)
                   repoAudit)) ;;
     update_results (recordRepository repoAudit))
    (fun _ => ret tt).

(** *** The run *)

Fixpoint auditAll (fuel : nat) (repos : list Repo.t) : M State unit :=
  match repos with
  | [] => ret tt
  | repo :: rest => auditRepository fuel repo ;; auditAll fuel rest
  end.

Definition set_totalRepositories (n : Z) (r : Results) : Results :=
  let s := summary r in
  mkResults (metadata r)
    (Summary.mk n (Summary.scannedRepositories s) (Summary.totalAlerts s)
       (Summary.criticalAlerts s) (Summary.highAlerts s)
       (Summary.mediumAlerts s) (Summary.lowAlerts s)
       (Summary.secretAlerts s) (Summary.dependencyAlerts s)
       (Summary.codeAlerts s))
    (repositories r) (compliance r).

Definition saveResults : M State unit :=
  s <- get ;;
  await (fs_writeFile gh (results s)) ;;
  emit (Saved (results s)).

Definition run (fuel : nat) : M State unit :=
  try_catch
    (repos <- getRepositories fuel ;;
     update_results (set_totalRepositories (JS.length repos)) ;;
     auditAll fuel repos ;;
     update_results calculateCompliance ;;
     saveResults)
    (fun error =>
       console_error (Err.message error) ;;
       process_exit 1).

End GHASAudit.

(** The state of a new [GHASAudit]. *)
Definition initialState (org : string) (options : Options) (now : string) : State :=
  mkState (initialResults org options now) [].

(** * The consumers of the saved results *)

(** The issue writer ([src/create-issue.js]) and the dashboard generator
    (the [generate-dashboard] program in the second part of that source
    file) read the document that [saveResults] writes; their
    [auditResults] and [auditData] are modelled by [Results].  Only the
    parts that compute on the results are embedded; requests, file
    access, charts and templates are not. *)

Module JSArray.

(** Insertion of [x] before the first element that does not have to
    precede it. *)
Fixpoint insert {A : Type} (compare : A -> A -> Z) (x : A) (l : list A) : list A :=
  match l with
  | [] => [x]
  | y :: l' => if compare x y <=? 0 then x :: l else y :: insert compare x l'
  end.

(** [Array.prototype.sort(compare)]: the sort is stable, so for a
    comparator that orders by a key the result is the one of a stable
    insertion sort. *)
Definition sort {A : Type} (compare : A -> A -> Z) (l : list A) : list A :=
  fold_right (insert compare) [] l.

(** [Array.prototype.slice(0, n)] *)
Definition slice0 {A : Type} (n : nat) (l : list A) : list A := firstn n l.

(** [Array.prototype.some] *)
Definition some {A : Type} (f : A -> bool) (l : list A) : bool := existsb f l.

End JSArray.

(** ** Issue writer *)

(** The target of the issue in [createIssue]:
    [const [owner, repo] = options.repo.split('/')], refused when either
    part is missing or empty. *)
Definition parseRepository (repo : string) : Err.t + (string * string) :=
  let parts := JS.split "/"%char repo in
  let owner := nth_error parts 0 in
  let repo := nth_error parts 1 in
  match owner, repo with
  | Some owner, Some repo =>
      if String.eqb owner "" || String.eqb repo ""
      then inl (Err.mk None "Invalid repository format. Use owner/repo")
      else inr (owner, repo)
  | _, _ => inl (Err.mk None "Invalid repository format. Use owner/repo")
  end.

(** The filter of [highRiskRepos] in [generateIssueBody]. *)
Definition isHighRisk (repo : RepoAudit.t) : bool :=
  (totalAlerts (RepoAudit.metrics repo) >? 10)
  || JSArray.some (fun a => String.eqb (CodeAlert.severity a) "critical")
                  (code (RepoAudit.alerts repo))
  || JSArray.some (fun a => String.eqb (DepAlert.severity a) "CRITICAL")
                  (dependency (RepoAudit.alerts repo)).

(** [(a, b) => b.metrics.totalAlerts - a.metrics.totalAlerts] *)
Definition byTotalAlertsDescending (a b : RepoAudit.t) : Z :=
  totalAlerts (RepoAudit.metrics b) - totalAlerts (RepoAudit.metrics a).

Definition highRiskRepos (repositories : list RepoAudit.t) : list RepoAudit.t :=
  JSArray.slice0 5
    (JSArray.sort byTotalAlertsDescending (filter isHighRisk repositories)).

(** The third column of the table of high-risk repositories. *)
Definition criticalHigh (repo : RepoAudit.t) : Z :=
  JS.length
    (filter (fun a => String.eqb (CodeAlert.severity a) "critical"
                      || String.eqb (CodeAlert.severity a) "high")
            (code (RepoAudit.alerts repo)))
  + JS.length
      (filter (fun a => String.eqb (DepAlert.severity a) "CRITICAL"
                        || String.eqb (DepAlert.severity a) "HIGH")
              (dependency (RepoAudit.alerts repo))).

(** The repositories that lack one of the three scanners; the issue and
    the dashboard use the same filter. *)
Definition unprotectedRepos (repositories : list RepoAudit.t) : list RepoAudit.t :=
  filter (fun repo =>
            let f := RepoAudit.securityFeatures repo in
            negb (cs_enabled (codeScanning f))
            || negb (ss_enabled (secretScanning f))
            || negb (db_enabled (dependabot f)))
         repositories.

(** ** Dashboard generator *)

Module RiskScore.
Record t := mk {
  score : float;
  level : string;
  color : string
}.
End RiskScore.

(** The weighted sum and the maximum are sums and products of counts,
    integers in the source as here. *)
Definition calculateRiskScore (auditData : Results) : RiskScore.t :=
  let s := summary auditData in
  let score := 0 in
  let score := score + Summary.criticalAlerts s * 10 in
  let score := score + Summary.highAlerts s * 5 in
  let score := score + Summary.mediumAlerts s * 2 in
  let score := score + Summary.lowAlerts s * 1 in
  let maxPossibleScore := Summary.totalAlerts s * 10 in
  let riskScore :=
    if maxPossibleScore >? 0
    then (JS.Z2f score / JS.Z2f maxPossibleScore * 100)%float
    else 0%float in
  RiskScore.mk riskScore
    (if PrimFloat.ltb 75 riskScore then "Critical"
     else if PrimFloat.ltb 50 riskScore then "High"
     else if PrimFloat.ltb 25 riskScore then "Medium"
     else "Low")
    (if PrimFloat.ltb 75 riskScore then "#dc3545"
     else if PrimFloat.ltb 50 riskScore then "#fd7e14"
     else if PrimFloat.ltb 25 riskScore then "#ffc107"
     else "#28a745").

Module Recommendation.
Record t := mk {
  priority : string;
  title : string;
  description : string;
  action : string
}.
End Recommendation.

Section Rendering.

(** The text of a count in a template literal, and
    [Number.prototype.toFixed]. *)
Variable Number_toString : Z -> string.
Variable toFixed : float -> Z -> string.

Definition generateRecommendations (auditData : Results) : list Recommendation.t :=
  let recommendations := [] in
  let recommendations :=
    if Summary.criticalAlerts (summary auditData) >? 0
    then recommendations
         ++ [Recommendation.mk "Critical" "Address Critical Security Alerts"
               ("There are "
                ++ Number_toString (Summary.criticalAlerts (summary auditData))
                ++ " critical security alerts that require immediate attention.")
               "Review and remediate all critical alerts within 24-48 hours."]
    else recommendations in
  let unprotected := unprotectedRepos (repositories auditData) in
  let recommendations :=
    if JS.length unprotected >? 0
    then recommendations
         ++ [Recommendation.mk "High" "Enable Security Features"
               (Number_toString (JS.length unprotected)
                ++ " repositories lack complete security scanning coverage.")
               "Enable code scanning, secret scanning, and Dependabot for all repositories."]
    else recommendations in
  let lowComplianceFrameworks :=
    map fst
        (filter (fun entry => PrimFloat.ltb (score (snd entry)) 70)
                (frameworks (compliance auditData))) in
  let recommendations :=
    if JS.length lowComplianceFrameworks >? 0
    then recommendations
         ++ [Recommendation.mk "Medium" "Improve Compliance Scores"
               ("Compliance scores for "
                ++ String.concat ", " lowComplianceFrameworks
                ++ " are below target.")
               "Review compliance requirements and implement necessary controls."]
    else recommendations in
  let avgMTTR :=
    (fold_left (fun sum repo => sum + meanTimeToResolve (RepoAudit.metrics repo))
               (repositories auditData) 0
     / JS.Z2f (JS.length (repositories auditData)))%float in
  let recommendations :=
    if PrimFloat.ltb 30 avgMTTR
    then recommendations
         ++ [Recommendation.mk "Medium" "Reduce Alert Resolution Time"
               ("Average alert resolution time is " ++ toFixed avgMTTR 1 ++ " days.")
               "Implement automated remediation and improve incident response processes."]
    else recommendations in
  recommendations.

(** [securityCoverage] in [generateExecutiveSummary]. *)
Definition securityCoverage (auditData : Results) : float :=
  (JS.Z2f (Summary.scannedRepositories (summary auditData))
   / JS.Z2f (Summary.totalRepositories (summary auditData)) * 100)%float.

Definition generateExecutiveSummary (auditData : Results) : string :=
  let totalAlerts := Summary.totalAlerts (summary auditData) in
  let criticalHighAlerts :=
    Summary.criticalAlerts (summary auditData) + Summary.highAlerts (summary auditData) in
  let complianceScore := overallScore (compliance auditData) in
  let securityCoverage := securityCoverage auditData in
  let text :=
    ("This security audit assessed "
     ++ Number_toString (Summary.totalRepositories (summary auditData))
     ++ " repositories in the " ++ organization (metadata auditData)
     ++ " organization. ")%string in
  let text :=
    (if (totalAlerts =? 0)%Z
     then text ++ "No security alerts were found, indicating a strong security posture. "
     else if (criticalHighAlerts >? 0)%Z
     then text ++ "A total of " ++ Number_toString totalAlerts
          ++ " security alerts were identified, including "
          ++ Number_toString criticalHighAlerts
          ++ " critical/high severity issues that require immediate attention. "
     else text ++ "A total of " ++ Number_toString totalAlerts
          ++ " security alerts were identified, all of medium or low severity. ")%string in
  let text :=
    (text ++ "The overall compliance score is " ++ toFixed complianceScore 1 ++ "%, ")%string in
  let text :=
    (if PrimFloat.leb 80 complianceScore
     then text ++ "demonstrating strong adherence to security frameworks. "
     else if PrimFloat.leb 60 complianceScore
     then text ++ "indicating room for improvement in security practices. "
     else text
          ++ "revealing significant gaps in security compliance that need to be addressed. ")%string in
  (text ++ "Security scanning coverage is at " ++ toFixed securityCoverage 1
   ++ "% of repositories.")%string.

End Rendering.

(** * Definitions used by the statements *)

(** ** Reference formulations *)

(** The specification's wording of the metric: the alerts that carry a
    resolution timestamp (resolved or dismissed), the days between the
    creation and the resolution of each, their average, and 0 when there
    is none. *)
Module MTTRSpec.

Definition carriesResolutionTimestamp (a : Alert) : bool :=
  match AlertField.resolvedAt a, AlertField.dismissedAt a with
  | None, None => false
  | _, _ => true
  end.

Definition resolutionTimestamp (a : Alert) : option timestamp :=
  match AlertField.resolvedAt a with
  | Some t => Some t
  | None => AlertField.dismissedAt a
  end.

Definition days (created resolved : option timestamp) : float :=
  match created, resolved with
  | Some c, Some r => (JS.Z2f (r - c) / 86400000)%float
  | _, _ => PrimFloat.nan
  end.

Definition average (l : list float) : float :=
  (fold_left PrimFloat.add l 0 / JS.Z2f (Z.of_nat (List.length l)))%float.

Definition meanTimeToResolveDays (alerts : list Alert) : float :=
  match filter carriesResolutionTimestamp alerts with
  | [] => 0%float
  | resolved =>
      average (map (fun a => days (AlertField.createdAt a) (resolutionTimestamp a))
                   resolved)
  end.

End MTTRSpec.

(** The number of elements whose severity string is exactly [lit]. *)
Definition countSeverity {A} (severity : A -> string) (lit : string) (l : list A) : Z :=
  JS.length (filter (fun a => String.eqb (severity a) lit) l).

(** One step of either severity [switch], for the four literals it
    matches. *)
Definition countStep (lc lh lm ll : string) (sev : string) (s : Summary.t) : Summary.t :=
  if String.eqb sev lc then add_severity 1 0 0 0 s
  else if String.eqb sev lh then add_severity 0 1 0 0 s
  else if String.eqb sev lm then add_severity 0 0 1 0 s
  else if String.eqb sev ll then add_severity 0 0 0 1 s
  else s.

(** The four severity totals of a summary. *)
Definition severityBuckets (s : Summary.t) : Z * Z * Z * Z :=
  (Summary.criticalAlerts s, Summary.highAlerts s,
   Summary.mediumAlerts s, Summary.lowAlerts s).

(** The repositories' part of [run] once their collections are known:
    each [repoAudit] is recorded in turn, then the compliance scorer
    runs. *)
Definition recordAll (l : list RepoAudit.t) (r : Results) : Results :=
  fold_left (fun r repoAudit => recordRepository repoAudit r) l r.

(** The results after a whole fleet. *)
Definition auditFleet (l : list RepoAudit.t) (r : Results) : Results :=
  calculateCompliance (recordAll l r).

(** The score stored under a framework name, if there is one. *)
Definition frameworkScore (name : string) (r : Results) : option float :=
  option_map score (framework name (frameworks (compliance r))).

(** The summary after one repository, as a function of the summary
    before. *)
Definition recordSummary (s : Summary.t) (repoAudit : RepoAudit.t) : Summary.t :=
  let s := updateSummary (calculateRepoMetrics repoAudit) s in
  Summary.mk
    (Summary.totalRepositories s) (Summary.scannedRepositories s + 1)
    (Summary.totalAlerts s)
    (Summary.criticalAlerts s) (Summary.highAlerts s)
    (Summary.mediumAlerts s) (Summary.lowAlerts s)
    (Summary.secretAlerts s) (Summary.dependencyAlerts s)
    (Summary.codeAlerts s).

(** A trace that holds console warnings only. *)
Definition onlyWarnings (events : list Event) : Prop :=
  forall e, In e events -> exists text, e = Warn text.

Section SelectorSpec.

Variable gh : GitHub.
Variable org : string.

(** The entries the explicit mode returns for a list of names: one per
    occurrence of a name that resolves, in order. *)
Definition resolved (repoNames : list string) : list Repo.t :=
  flat_map (fun repoName =>
              match repos_get gh org repoName with
              | inr data => [data]
              | inl _ => []
              end)
           repoNames.

(** The names that do not resolve, one warning each. *)
Definition unresolvedWarnings (repoNames : list string) : list Event :=
  flat_map (fun repoName =>
              match repos_get gh org repoName with
              | inr _ => []
              | inl _ => [Warn ("Warning: Could not access repository " ++ repoName)]
              end)
           repoNames.


End SelectorSpec.

(** The node with another [dismissedAt]. *)
Definition with_dismissedAt (t : option timestamp) (n : RawDep.t) : RawDep.t :=
  RawDep.mk (RawDep.id n) (RawDep.createdAt n) t (RawDep.severity n)
    (RawDep.package_name n) (RawDep.package_ecosystem n)
    (RawDep.advisory_summary n) (RawDep.cvss_score n).

(** A binary64 value that is not NaN and has sign [s]. *)
Definition sf_signed (s : bool) (x : spec_float) : Prop :=
  match x with
  | S754_zero s' | S754_infinity s' | S754_finite s' _ _ => s' = s
  | S754_nan => False
  end.

(** Positive zero, a positive finite number or positive infinity. *)
Definition nonneg_float (x : float) : Prop := sf_signed false (Prim2SF x).

(** A positive finite number. *)
Definition finite_positive (x : float) : Prop :=
  exists m e, Prim2SF x = S754_finite false m e.

(** Within the closed interval from 0 to 100. *)
Definition in_range (x : float) : Prop :=
  PrimFloat.leb 0 x = true /\ PrimFloat.leb x 100 = true.

(** Metrics whose resolution ratio is the quotient of two counts. *)
Definition countsInRange (repo : RepoAudit.t) : Prop :=
  let m := RepoAudit.metrics repo in
  0 <= closedAlerts m < 2 ^ 53 /\ totalAlerts m < 2 ^ 53.

(** The three running sub-scores are not negative. *)
Definition nonneg_scores (s : Scores) : Prop :=
  nonneg_float (scanning s) /\ nonneg_float (protection s) /\ nonneg_float (resolution s).

(** ** Concrete repositories, fleets and a platform *)

(** A repository with the given alert collections, as [auditRepository]
    has it before the metrics are calculated. *)
Definition singleAlertRepo (al : Alerts) : RepoAudit.t :=
  RepoAudit.mk "demo" "https://github.com/octo/demo" false "main"
    "2025-06-30T00:00:00Z" defaultFeatures al initialMetrics.

(** Five days in milliseconds. *)
Definition fiveDays : Z := 5 * (1000 * 60 * 60 * 24).

(** A secret alert in state [resolved], created at [T] and resolved five
    days later, with no [dismissedAt]. *)
Definition resolvedSecret (T : timestamp) : SecretAlert.t :=
  SecretAlert.mk 7 "resolved" "github_personal_access_token"
    "GitHub Personal Access Token" T (Some (T + fiveDays)) (Some "octocat")
    (Some false).

(** The scenario of the specification: five alerts whose source
    severities are [critical], [HIGH], [Medium], [low] and
    [unknown-string]. *)
Definition mixedSeverities : list string :=
  ["critical"; "HIGH"; "Medium"; "low"; "unknown-string"].

(** A code-scanning record and a dependency node with the given
    severity. *)
Definition rawCodeWith (sev : option string) : RawCode.t :=
  RawCode.mk 1 "open" sev "js/sql-injection" "Database query built from user input"
    (Some "server.js") 1751241600000 "CodeQL".

Definition rawDepWith (sev : string) : RawDep.t :=
  RawDep.mk "RVA_1" 1751241600000 None sev "lodash" "NPM"
    "Prototype pollution in lodash" (Some 7.4%float).

(** The five severities ingested as code alerts, and as dependency
    alerts. *)
Definition mixedAsCode : RepoAudit.t :=
  singleAlertRepo
    (mkAlerts (map (fun s => mapCodeAlert (rawCodeWith (Some s))) mixedSeverities) [] []).

Definition mixedAsDependency : RepoAudit.t :=
  singleAlertRepo
    (mkAlerts [] [] (map (fun s => mapDependabotAlert (rawDepWith s)) mixedSeverities)).

(** The constructor's summary and results. *)
Definition emptySummary : Summary.t := Summary.mk 0 0 0 0 0 0 0 0 0 0.

Definition emptyResults : Results :=
  initialResults "octo-org" (mkOptions "all" None) "2025-06-30T00:00:00.000Z".

(** Features with the given five flags: code scanning, secret scanning,
    Dependabot, branch protection, push protection. *)
Definition featuresWith (cs ss db bp pp : bool) : SecurityFeatures :=
  mkFeatures (mkCodeScanning cs None None) (mkSecretScanning ss pp None)
             (mkDependabot db false None) (mkBranchProtection bp None).

(** A repository without alerts and with the given features. *)
Definition cleanRepo (f : SecurityFeatures) : RepoAudit.t :=
  RepoAudit.mk "clean" "https://github.com/octo-org/clean" true "main"
    "2025-06-30T00:00:00Z" f (mkAlerts [] [] []) initialMetrics.

(** Five repositories without alerts, in two orders. *)
Definition fleetA : list RepoAudit.t :=
  [ cleanRepo (featuresWith true true true false false);
    cleanRepo (featuresWith false false true false false);
    cleanRepo (featuresWith false true true false false);
    cleanRepo (featuresWith false false false false false);
    cleanRepo (featuresWith true true true false false) ].

Definition fleetA' : list RepoAudit.t :=
  [ cleanRepo (featuresWith true true true false false);
    cleanRepo (featuresWith false true true false false);
    cleanRepo (featuresWith false false false false false);
    cleanRepo (featuresWith true true true false false);
    cleanRepo (featuresWith false false true false false) ].

(** A repository whose only alert is a secret alert resolved [ms]
    milliseconds after its creation. *)
Definition resolvedAfter (ms : Z) : RepoAudit.t :=
  singleAlertRepo
    (mkAlerts []
       [SecretAlert.mk 1 "resolved" "aws_access_key_id" "AWS Access Key ID"
          1751241600000 (Some (1751241600000 + ms)) None None]
       []).

(** Three repositories whose single alert took 42 minutes, 16.7 hours
    and 20.275 days to resolve, in two orders. *)
Definition fleetB : list RepoAudit.t :=
  [resolvedAfter 2520000; resolvedAfter 60120000; resolvedAfter 1751760000].

Definition fleetB' : list RepoAudit.t :=
  [resolvedAfter 2520000; resolvedAfter 1751760000; resolvedAfter 60120000].

(** The repository of the scenarios, two errors, and the first page of
    its dependency alerts (the second node was dismissed). *)
Definition paymentApi : Repo.t :=
  Repo.mk "payment-api" "https://github.com/octo-org/payment-api" true "main"
    "2025-06-29T18:00:00Z" (Some ["production"]) (Some true).

Definition badGateway : Err.t := Err.mk (Some 502) "Bad Gateway".
Definition notFound : Err.t := Err.mk (Some 404) "Not Found".

Definition depPage1 : list RawDep.t :=
  [ RawDep.mk "RVA_kwDOA1" 1750000000000 None "HIGH" "lodash" "NPM"
      "Prototype pollution in lodash" (Some 7.4%float);
    RawDep.mk "RVA_kwDOA2" 1750500000000 (Some 1751000000000) "MODERATE"
      "express" "NPM" "Open redirect in express" None ].

(** The organisation has one repository.  Its code and secret sources
    answer with one short page each; the GraphQL query answers the first
    page, announces a second one, and fails on it. *)
Definition scenarioGitHub : GitHub :=
  mkGitHub
    (fun _ repo =>
       if String.eqb repo "payment-api" then inr paymentApi else inl notFound)
    (fun _ page => if page =? 1 then inr [paymentApi] else inr [])
    (fun _ _ => inr ["2025-06-29T12:00:00Z"])
    (fun _ _ => inr [])
    (fun _ _ _ => inl notFound)
    (fun _ _ page =>
       if page =? 1 then inr [rawCodeWith (Some "high")] else inr [])
    (fun _ _ page =>
       if page =? 1
       then inr [RawSecret.mk 3 "open" "aws_access_key_id" "AWS Access Key ID"
                   1751000000000 None None (Some false)]
       else inr [])
    (fun _ _ cursor =>
       match cursor with
       | None =>
           inr (mkGraphQLResult
                  (Some (mkVulnerabilityAlerts (Some depPage1)
                           (mkPageInfo true (Some "Y3Vyc29yOnYyOpHOAAE=")))))
       | Some _ => inl badGateway
       end)
    (fun _ => inr tt).

(** Options and initial state of a run over the whole organisation, and
    the options of a run that names the repository twice. *)
Definition scenarioOptions : Options := mkOptions "all" None.

Definition scenarioState : State :=
  initialState "octo-org" scenarioOptions "2025-06-30T00:00:00.000Z".


(** ** Definitions used by the further properties *)

(** The pages a REST listing answers from [page] on: full pages of 100. *)
Fixpoint fullPages {A} (request : Z -> Err.t + list A) (page : Z)
         (pages : list (list A)) : Prop :=
  match pages with
  | [] => True
  | p :: ps =>
      request page = inr p /\ JS.length p = 100 /\ fullPages request (page + 1) ps
  end.

(** The state [st'] differs from [st] by console warnings only. *)
Definition warnedFrom (st st' : State) : Prop :=
  results st' = results st
  /\ exists w, trace st' = trace st ++ w /\ onlyWarnings w.

(** The pages the GraphQL connection answers from [cursor] on, each with
    nodes and the announcement of a next page at [endCursor]. *)
Fixpoint cursorPages (query : option string -> Err.t + GraphQLResult)
         (cursor : option string) (pages : list (list RawDep.t * option string))
  : Prop :=
  match pages with
  | [] => True
  | (ns, next) :: ps =>
      query cursor
      = inr (mkGraphQLResult
               (Some (mkVulnerabilityAlerts (Some ns) (mkPageInfo true next))))
      /\ cursorPages query next ps
  end.

(** The cursor reached after those pages. *)
Fixpoint cursorAfter (cursor : option string)
         (pages : list (list RawDep.t * option string)) : option string :=
  match pages with
  | [] => cursor
  | (_, next) :: ps => cursorAfter next ps
  end.

(** An outcome that is a normal return or the exhaustion of the fuel. *)
Definition returnsOrDiverges {A} (o : Outcome A) : Prop :=
  (exists a, o = Ret a) \/ o = OutOfFuel.

(** The identity of a repository as [auditRepository] copies it into
    [repoAudit]. *)
Definition describes (repo : Repo.t) (ra : RepoAudit.t) : Prop :=
  RepoAudit.name ra = Repo.name repo
  /\ RepoAudit.url ra = Repo.html_url repo
  /\ RepoAudit.private ra = Repo.private repo
  /\ RepoAudit.defaultBranch ra = Repo.default_branch repo
  /\ RepoAudit.lastUpdated ra = Repo.updated_at repo.

(** What the aggregator keeps true of [this.results]: the scanned count is
    the number of entries, the total is the sum of the three source-type
    totals and of the entries' totals, and the four severity totals count
    disjoint parts of the code and dependency alerts. *)
Definition aggregated (r : Results) : Prop :=
  let s := summary r in
  Summary.scannedRepositories s = JS.length (repositories r)
  /\ Summary.totalAlerts s
     = Summary.codeAlerts s + Summary.secretAlerts s + Summary.dependencyAlerts s
  /\ Summary.totalAlerts s
     = fold_left (fun n ra => n + totalAlerts (RepoAudit.metrics ra)) (repositories r) 0
  /\ 0 <= Summary.criticalAlerts s
  /\ 0 <= Summary.highAlerts s
  /\ 0 <= Summary.mediumAlerts s
  /\ 0 <= Summary.lowAlerts s
  /\ 0 <= Summary.secretAlerts s
  /\ Summary.criticalAlerts s + Summary.highAlerts s
     + Summary.mediumAlerts s + Summary.lowAlerts s
     <= Summary.codeAlerts s + Summary.dependencyAlerts s.

(** An error of status 403 and a secret-scanning record. *)
Definition forbidden : Err.t :=
  Err.mk (Some 403) "Resource not accessible by integration".

Definition openSecret : RawSecret.t :=
  RawSecret.mk 3 "open" "aws_access_key_id" "AWS Access Key ID"
    1751000000000 None None (Some false).

(** A platform with more than one page per source.  The organisation
    lists one full page of repositories and fails on the second; the code
    source answers a full page and a short one; the secret source answers
    a full page and then refuses access; the dependency query answers two
    pages, the second one final. *)
Definition pagedGitHub : GitHub :=
  mkGitHub
    (fun _ repo =>
       if String.eqb repo "payment-api" then inr paymentApi else inl notFound)
    (fun _ page =>
       if page =? 1 then inr (repeat paymentApi 100) else inl badGateway)
    (fun _ _ => inr ["2025-06-29T12:00:00Z"])
    (fun _ _ => inl forbidden)
    (fun _ _ _ => inr "required_status_checks")
    (fun _ _ page =>
       if page =? 1 then inr (repeat (rawCodeWith (Some "high")) 100)
       else if page =? 2 then inr [rawCodeWith (Some "low")]
       else inr [])
    (fun _ _ page =>
       if page =? 1 then inr (repeat openSecret 100) else inl forbidden)
    (fun _ _ cursor =>
       match cursor with
       | None =>
           inr (mkGraphQLResult
                  (Some (mkVulnerabilityAlerts (Some depPage1)
                           (mkPageInfo true (Some "Y3Vyc29yOnYyOpHOAAE=")))))
       | Some _ =>
           inr (mkGraphQLResult
                  (Some (mkVulnerabilityAlerts (Some [rawDepWith "CRITICAL"])
                           (mkPageInfo false (Some "Y3Vyc29yOnYyOpHOAAI=")))))
       end)
    (fun _ => inr tt).

(** A platform on which the three alert sources of every repository fail
    on their first request. *)
Definition outageGitHub : GitHub :=
  mkGitHub
    (fun _ repo =>
       if String.eqb repo "payment-api" then inr paymentApi else inl notFound)
    (fun _ page => if page =? 1 then inr [paymentApi] else inr [])
    (fun _ _ => inr ["2025-06-29T12:00:00Z"])
    (fun _ _ => inr [])
    (fun _ _ _ => inl notFound)
    (fun _ _ _ => inl badGateway)
    (fun _ _ _ => inl badGateway)
    (fun _ _ _ => inl badGateway)
    (fun _ => inr tt).

(** A repository without alerts on which the three scanners and branch
    protection are enabled, as [auditRepository] builds it. *)
Definition cleanAndCovered (ra : RepoAudit.t) : Prop :=
  RepoAudit.alerts ra = mkAlerts [] [] []
  /\ RepoAudit.metrics ra = initialMetrics
  /\ cs_enabled (codeScanning (RepoAudit.securityFeatures ra)) = true
  /\ ss_enabled (secretScanning (RepoAudit.securityFeatures ra)) = true
  /\ db_enabled (dependabot (RepoAudit.securityFeatures ra)) = true
  /\ bp_enabled (branchProtection (RepoAudit.securityFeatures ra)) = true.

(** None of the three scanners is enabled. *)
Definition noScanner (ra : RepoAudit.t) : Prop :=
  cs_enabled (codeScanning (RepoAudit.securityFeatures ra)) = false
  /\ ss_enabled (secretScanning (RepoAudit.securityFeatures ra)) = false
  /\ db_enabled (dependabot (RepoAudit.securityFeatures ra)) = false.

(** The repository has at least one alert, and fewer than 2^53. *)
Definition hasAlerts (ra : RepoAudit.t) : Prop :=
  1 <= JS.length (allAlerts (RepoAudit.alerts ra)) < 2 ^ 53.

(** A list of repositories in descending order of [totalAlerts]. *)
Fixpoint descending (l : list RepoAudit.t) : Prop :=
  match l with
  | [] => True
  | x :: l' =>
      Forall (fun y => totalAlerts (RepoAudit.metrics y)
                       <= totalAlerts (RepoAudit.metrics x)) l'
      /\ descending l'
  end.

(** A name without a slash. *)
Definition noSlash (s : string) : Prop :=
  ~ In "/"%char (list_ascii_of_string s).

(** A summary without severity totals, and one whose alerts are all
    critical. *)
Definition noSeverity (s : Summary.t) : Prop :=
  Summary.criticalAlerts s = 0 /\ Summary.highAlerts s = 0
  /\ Summary.mediumAlerts s = 0 /\ Summary.lowAlerts s = 0.

Definition allCritical (s : Summary.t) : Prop :=
  Summary.criticalAlerts s = Summary.totalAlerts s /\ Summary.highAlerts s = 0
  /\ Summary.mediumAlerts s = 0 /\ Summary.lowAlerts s = 0.

(** * Properties *)

(** ** Lists and lengths *)

Lemma length_app {A} (l l' : list A) :
  JS.length (l ++ l') = JS.length l + JS.length l'.
Proof. unfold JS.length. rewrite List.length_app. lia. Qed.

Lemma length_map {A B} (f : A -> B) (l : list A) :
  JS.length (map f l) = JS.length l.
Proof. unfold JS.length. now rewrite List.length_map. Qed.

Lemma length_nonneg {A} (l : list A) : 0 <= JS.length l.
Proof. unfold JS.length. lia. Qed.

Lemma length_allAlerts (al : Alerts) :
  JS.length (allAlerts al)
  = JS.length (code al) + JS.length (secret al) + JS.length (dependency al).
Proof.
  unfold allAlerts. rewrite !length_app, !length_map. lia.
Qed.

Lemma filter_true {A} (f : A -> bool) (l : list A) :
  (forall x, In x l -> f x = true) -> filter f l = l.
Proof.
  induction l as [|x l IH]; intros H; simpl; [reflexivity|].
  rewrite (H x (or_introl eq_refl)). f_equal. apply IH.
  intros y Hy. apply H. now right.
Qed.

Lemma filter_false {A} (f : A -> bool) (l : list A) :
  (forall x, In x l -> f x = false) -> filter f l = [].
Proof.
  induction l as [|x l IH]; intros H; simpl; [reflexivity|].
  rewrite (H x (or_introl eq_refl)). apply IH.
  intros y Hy. apply H. now right.
Qed.

(** ** Metrics calculator *)

(** No alert shape has a [dismissedAt] property, so the open filter keeps
    every alert. *)
Lemma isOpen_always (a : Alert) : isOpen a = true.
Proof. destruct a; unfold isOpen; simpl; auto using orb_true_r. Qed.

Lemma filter_isOpen (l : list Alert) : filter isOpen l = l.
Proof. apply filter_true. intros x _. apply isOpen_always. Qed.

Lemma isResolved_dependency (d : DepAlert.t) : isResolved (ADep d) = false.
Proof. reflexivity. Qed.

Lemma metrics_calculateRepoMetrics (ra : RepoAudit.t) :
  let all := allAlerts (RepoAudit.alerts ra) in
  RepoAudit.metrics (calculateRepoMetrics ra)
  = mkMetrics (JS.length all) (JS.length (filter isOpen all))
      (JS.length all - JS.length (filter isOpen all))
      (if JS.length (filter isResolved all) >? 0
       then (sum_floats (map resolutionTime (filter isResolved all))
             / JS.Z2f (JS.length (map resolutionTime (filter isResolved all))))%float
       else meanTimeToResolve (RepoAudit.metrics ra)).
Proof. reflexivity. Qed.

Lemma alerts_calculateRepoMetrics (ra : RepoAudit.t) :
  RepoAudit.alerts (calculateRepoMetrics ra) = RepoAudit.alerts ra.
Proof. reflexivity. Qed.

Lemma features_calculateRepoMetrics (ra : RepoAudit.t) :
  RepoAudit.securityFeatures (calculateRepoMetrics ra)
  = RepoAudit.securityFeatures ra.
Proof. reflexivity. Qed.


(** [closedAlerts] is zero for every repository: the open filter tests
    [dismissedAt] only. *)
Lemma closedAlerts_zero (ra : RepoAudit.t) :
  let m := RepoAudit.metrics (calculateRepoMetrics ra) in
  openAlerts m = totalAlerts m /\ closedAlerts m = 0.
Proof.
  cbv zeta. rewrite metrics_calculateRepoMetrics.
  cbn [totalAlerts openAlerts closedAlerts]. rewrite filter_isOpen. lia.
Qed.

(** C4, at the failing input. The claim counts an alert in state
    [resolved] with a [resolvedAt] timestamp as closed; the code counts it
    as open: [openAlerts] is 1 and [closedAlerts] is 0, although the same
    alert enters the mean time to resolve as a resolved one. *)
Theorem C4_resolved_alert_counted_open (T : timestamp) :
  let ra := calculateRepoMetrics (singleAlertRepo (mkAlerts [] [resolvedSecret T] [])) in
  isResolved (ASecret (resolvedSecret T)) = true
  /\ totalAlerts (RepoAudit.metrics ra) = 1
  /\ openAlerts (RepoAudit.metrics ra) = 1
  /\ closedAlerts (RepoAudit.metrics ra) = 0.
Proof. cbv zeta. repeat split. Qed.

(** *** Mean time to resolve *)

Lemma isResolved_carries (a : Alert) :
  isResolved a = MTTRSpec.carriesResolutionTimestamp a.
Proof.
  unfold isResolved, MTTRSpec.carriesResolutionTimestamp, JS.or_else, JS.truthy.
  destruct (AlertField.resolvedAt a), (AlertField.dismissedAt a); reflexivity.
Qed.

Lemma resolutionTime_days (a : Alert) :
  resolutionTime a
  = MTTRSpec.days (AlertField.createdAt a) (MTTRSpec.resolutionTimestamp a).
Proof.
  unfold resolutionTime, MTTRSpec.days, MTTRSpec.resolutionTimestamp,
    JS.Date, JS.Date_sub, JS.or_else.
  destruct (AlertField.resolvedAt a), (AlertField.dismissedAt a),
    (AlertField.createdAt a); reflexivity.
Qed.

Lemma length_pos {A} (x : A) (l : list A) : (JS.length (x :: l) >? 0) = true.
Proof. apply Z.gtb_lt. unfold JS.length. simpl List.length. lia. Qed.

Lemma meanTimeToResolve_spec (ra : RepoAudit.t) :
  RepoAudit.metrics ra = initialMetrics ->
  meanTimeToResolve (RepoAudit.metrics (calculateRepoMetrics ra))
  = MTTRSpec.meanTimeToResolveDays (allAlerts (RepoAudit.alerts ra)).
Proof.
  intros Hm. rewrite metrics_calculateRepoMetrics. cbn [meanTimeToResolve].
  rewrite Hm. unfold MTTRSpec.meanTimeToResolveDays.
  rewrite (filter_ext _ _ isResolved_carries).
  destruct (filter MTTRSpec.carriesResolutionTimestamp
                   (allAlerts (RepoAudit.alerts ra))) as [|x l].
  - reflexivity.
  - rewrite length_pos. unfold MTTRSpec.average, sum_floats, JS.length.
    now rewrite (map_ext _ _ resolutionTime_days).
Qed.

(** C7. For a repository as [auditRepository] builds it (metrics at their
    initial values), [meanTimeToResolve] is the average, over exactly the
    alerts that carry a resolution timestamp, of resolution minus creation
    in days; it is 0 when no alert carries one; and it is 5 for a single
    alert created at [T] and resolved at [T] plus five days. *)
Theorem C7_meanTimeToResolve (ra : RepoAudit.t) :
  RepoAudit.metrics ra = initialMetrics ->
  let all := allAlerts (RepoAudit.alerts ra) in
  let mttr := meanTimeToResolve (RepoAudit.metrics (calculateRepoMetrics ra)) in
  mttr = MTTRSpec.meanTimeToResolveDays all
  /\ ((forall a, In a all ->
         AlertField.resolvedAt a = None /\ AlertField.dismissedAt a = None) ->
      mttr = 0%float)
  /\ (forall a T,
         all = [a] ->
         AlertField.createdAt a = Some T ->
         AlertField.resolvedAt a = Some (T + fiveDays) ->
         mttr = 5%float).
Proof.
  intros Hm all mttr.
  assert (Hspec : mttr = MTTRSpec.meanTimeToResolveDays all)
    by (apply meanTimeToResolve_spec; exact Hm).
  split; [exact Hspec|]. split.
  - intros Hnone. rewrite Hspec. unfold MTTRSpec.meanTimeToResolveDays.
    rewrite filter_false; [reflexivity|].
    intros a Ha. destruct (Hnone a Ha) as [Hr Hd].
    unfold MTTRSpec.carriesResolutionTimestamp. now rewrite Hr, Hd.
  - intros a T Hall Hc Hr. rewrite Hspec, Hall.
    unfold MTTRSpec.meanTimeToResolveDays, MTTRSpec.carriesResolutionTimestamp.
    cbn [filter]. rewrite Hr. cbn [map].
    unfold MTTRSpec.resolutionTimestamp, MTTRSpec.days. rewrite Hr, Hc.
    replace (T + fiveDays - T) with fiveDays by lia.
    vm_compute. reflexivity.
Qed.

Lemma C7_meanTimeToResolve_witness :
  let ra := singleAlertRepo (mkAlerts [] [resolvedSecret 1751241600000] []) in
  meanTimeToResolve (RepoAudit.metrics (calculateRepoMetrics ra))
  = MTTRSpec.meanTimeToResolveDays (allAlerts (RepoAudit.alerts ra))
  /\ meanTimeToResolve (RepoAudit.metrics (calculateRepoMetrics ra)) = 5%float.
Proof.
  cbv zeta.
  destruct (C7_meanTimeToResolve
              (singleAlertRepo (mkAlerts [] [resolvedSecret 1751241600000] []))
              eq_refl) as [Hspec [_ Hfive]].
  split; [exact Hspec|].
  apply (Hfive (ASecret (resolvedSecret 1751241600000)) 1751241600000);
    reflexivity.
Defined.

(** *** Dependency alerts in the metrics *)

Lemma filter_isResolved_dependency (ds : list DepAlert.t) :
  filter isResolved (map ADep ds) = [].
Proof.
  apply filter_false. intros x Hx. apply in_map_iff in Hx.
  destruct Hx as [d [<- _]]. reflexivity.
Qed.

Lemma filter_isResolved_allAlerts (cs : list CodeAlert.t) (ss : list SecretAlert.t)
      (ds : list DepAlert.t) :
  filter isResolved (allAlerts (mkAlerts cs ss ds))
  = filter isResolved (allAlerts (mkAlerts cs ss [])).
Proof.
  unfold allAlerts. cbn [code secret dependency].
  rewrite !filter_app, filter_isResolved_dependency. reflexivity.
Qed.

(** C9. A dependency alert, as mapped into the common model, has no
    [state], no [resolvedAt] and no [dismissedAt] (the [dismissedAt] of the
    queried node does not reach the mapped alert); every dependency alert
    is therefore counted as open, and the dependency alerts of a
    repository add nothing to [closedAlerts] or to [meanTimeToResolve]. *)
Theorem C9_dependency_alerts_open (ra : RepoAudit.t) (nodes : list RawDep.t) :
  let al := RepoAudit.alerts ra in
  let deps := map mapDependabotAlert nodes in
  let with_deps :=
    RepoAudit.metrics
      (calculateRepoMetrics (set_alerts (mkAlerts (code al) (secret al) deps) ra)) in
  let without :=
    RepoAudit.metrics
      (calculateRepoMetrics (set_alerts (mkAlerts (code al) (secret al) []) ra)) in
  (forall n : RawDep.t,
      let a := ADep (mapDependabotAlert n) in
      AlertField.state a = None
      /\ AlertField.resolvedAt a = None
      /\ AlertField.dismissedAt a = None
      /\ isOpen a = true
      /\ isResolved a = false)
  /\ (forall (n : RawDep.t) (t : option timestamp),
         mapDependabotAlert (with_dismissedAt t n) = mapDependabotAlert n)
  /\ openAlerts with_deps = openAlerts without + JS.length nodes
  /\ closedAlerts with_deps = closedAlerts without
  /\ closedAlerts with_deps = 0
  /\ meanTimeToResolve with_deps = meanTimeToResolve without.
Proof.
  cbv zeta. split; [|split].
  - intros n. repeat split.
  - intros n t. reflexivity.
  - rewrite !metrics_calculateRepoMetrics.
    cbn [openAlerts closedAlerts meanTimeToResolve set_alerts
         RepoAudit.alerts RepoAudit.metrics].
    rewrite !filter_isOpen,
      (filter_isResolved_allAlerts (code (RepoAudit.alerts ra))
         (secret (RepoAudit.alerts ra)) (map mapDependabotAlert nodes)).
    rewrite !length_allAlerts. cbn [code secret dependency].
    rewrite length_map. change (JS.length (@nil DepAlert.t)) with 0.
    repeat split; lia.
Qed.

(** ** Severity counting *)

Lemma countSeverity_cons {A} (severity : A -> string) lit (a : A) l :
  countSeverity severity lit (a :: l)
  = (if String.eqb (severity a) lit then 1 else 0) + countSeverity severity lit l.
Proof.
  unfold countSeverity, JS.length. cbn [filter].
  destruct (String.eqb (severity a) lit); cbn [List.length]; lia.
Qed.

Lemma add_severity_add_severity c h m l c' h' m' l' s :
  add_severity c h m l (add_severity c' h' m' l' s)
  = add_severity (c' + c) (h' + h) (m' + m) (l' + l) s.
Proof. unfold add_severity. cbn. f_equal; lia. Qed.

Lemma add_severity_zero s : add_severity 0 0 0 0 s = s.
Proof. destruct s. unfold add_severity. cbn. f_equal; lia. Qed.

Lemma countStep_closed (lc lh lm ll sev : string) (s : Summary.t) :
  lc <> lh -> lc <> lm -> lc <> ll -> lh <> lm -> lh <> ll -> lm <> ll ->
  countStep lc lh lm ll sev s
  = add_severity (if String.eqb sev lc then 1 else 0)
                 (if String.eqb sev lh then 1 else 0)
                 (if String.eqb sev lm then 1 else 0)
                 (if String.eqb sev ll then 1 else 0) s.
Proof.
  intros. unfold countStep.
  destruct (String.eqb_spec sev lc); [subst sev|].
  - destruct (String.eqb_spec lc lh), (String.eqb_spec lc lm),
      (String.eqb_spec lc ll); congruence.
  - destruct (String.eqb_spec sev lh); [subst sev|].
    + destruct (String.eqb_spec lh lm), (String.eqb_spec lh ll); congruence.
    + destruct (String.eqb_spec sev lm); [subst sev|].
      * destruct (String.eqb_spec lm ll); congruence.
      * destruct (String.eqb_spec sev ll); [reflexivity|].
        symmetry. apply add_severity_zero.
Qed.

Lemma fold_countStep {A} (severity : A -> string) (lc lh lm ll : string)
      (l : list A) (s : Summary.t) :
  lc <> lh -> lc <> lm -> lc <> ll -> lh <> lm -> lh <> ll -> lm <> ll ->
  fold_left (fun s a => countStep lc lh lm ll (severity a) s) l s
  = add_severity (countSeverity severity lc l) (countSeverity severity lh l)
                 (countSeverity severity lm l) (countSeverity severity ll l) s.
Proof.
  intros H1 H2 H3 H4 H5 H6. revert s.
  induction l as [|a l IH]; intros s.
  - cbn [fold_left]. symmetry. apply add_severity_zero.
  - cbn [fold_left]. rewrite IH, !countSeverity_cons.
    rewrite countStep_closed by assumption.
    apply add_severity_add_severity.
Qed.

Lemma fold_countCodeSeverity (l : list CodeAlert.t) (s : Summary.t) :
  fold_left countCodeSeverity l s
  = add_severity (countSeverity CodeAlert.severity "critical" l)
                 (countSeverity CodeAlert.severity "high" l)
                 (countSeverity CodeAlert.severity "medium" l)
                 (countSeverity CodeAlert.severity "low" l) s.
Proof.
  change (fold_left countCodeSeverity l s)
    with (fold_left (fun s a => countStep "critical" "high" "medium" "low"
                                          (CodeAlert.severity a) s) l s).
  apply fold_countStep; discriminate.
Qed.

Lemma fold_countDependencySeverity (l : list DepAlert.t) (s : Summary.t) :
  fold_left countDependencySeverity l s
  = add_severity (countSeverity DepAlert.severity "CRITICAL" l)
                 (countSeverity DepAlert.severity "HIGH" l)
                 (countSeverity DepAlert.severity "MODERATE" l)
                 (countSeverity DepAlert.severity "LOW" l) s.
Proof.
  change (fold_left countDependencySeverity l s)
    with (fold_left (fun s a => countStep "CRITICAL" "HIGH" "MODERATE" "LOW"
                                          (DepAlert.severity a) s) l s).
  apply fold_countStep; discriminate.
Qed.

(** [updateSummary] in closed form. *)
Lemma updateSummary_closed (ra : RepoAudit.t) (s : Summary.t) :
  let cs := code (RepoAudit.alerts ra) in
  let ss := secret (RepoAudit.alerts ra) in
  let ds := dependency (RepoAudit.alerts ra) in
  updateSummary ra s
  = Summary.mk
      (Summary.totalRepositories s) (Summary.scannedRepositories s)
      (Summary.totalAlerts s + totalAlerts (RepoAudit.metrics ra))
      (Summary.criticalAlerts s
       + (countSeverity CodeAlert.severity "critical" cs
          + countSeverity DepAlert.severity "CRITICAL" ds))
      (Summary.highAlerts s
       + (countSeverity CodeAlert.severity "high" cs
          + countSeverity DepAlert.severity "HIGH" ds))
      (Summary.mediumAlerts s
       + (countSeverity CodeAlert.severity "medium" cs
          + countSeverity DepAlert.severity "MODERATE" ds))
      (Summary.lowAlerts s
       + (countSeverity CodeAlert.severity "low" cs
          + countSeverity DepAlert.severity "LOW" ds))
      (Summary.secretAlerts s + JS.length ss)
      (Summary.dependencyAlerts s + JS.length ds)
      (Summary.codeAlerts s + JS.length cs).
Proof.
  cbv zeta. unfold updateSummary.
  rewrite fold_countCodeSeverity, fold_countDependencySeverity.
  unfold add_totals, add_severity. cbn. f_equal; lia.
Qed.

(** C1 fails on the code: with the five severities of the scenario the
    summary does not count one alert per severity, whether the alerts come
    from the code source or from the dependency source. *)
Lemma C1_counterexample :
  severityBuckets (updateSummary (calculateRepoMetrics mixedAsCode) emptySummary)
  <> (1, 1, 1, 1)
  /\ severityBuckets
       (updateSummary (calculateRepoMetrics mixedAsDependency) emptySummary)
     <> (1, 1, 1, 1).
Proof. split; vm_compute; discriminate. Qed.

(** C1, amended. The collectors keep the source's severity string: a code
    alert carries [security_severity_level], or [unknown] when it is
    missing or empty, and a dependency alert carries the node's severity,
    in the source's casing.  The summary counts by exact, case-sensitive
    match: [critical], [high], [medium], [low] for code alerts and
    [CRITICAL], [HIGH], [MODERATE], [LOW] for dependency alerts; any other
    string, and every secret alert, is counted in no severity total.  For
    code alerts with the five severities of the scenario the totals are one
    critical, no high, no medium and one low. *)
Theorem C1_severity_counting (ra : RepoAudit.t) (s : Summary.t) :
  let cs := code (RepoAudit.alerts ra) in
  let ds := dependency (RepoAudit.alerts ra) in
  let s' := updateSummary ra s in
  (forall raw : RawCode.t,
      CodeAlert.severity (mapCodeAlert raw)
      = match RawCode.security_severity_level raw with
        | Some lvl => if String.eqb lvl "" then "unknown" else lvl
        | None => "unknown"
        end)
  /\ (forall node : RawDep.t,
         DepAlert.severity (mapDependabotAlert node) = RawDep.severity node)
  /\ Summary.criticalAlerts s'
     = Summary.criticalAlerts s
       + countSeverity CodeAlert.severity "critical" cs
       + countSeverity DepAlert.severity "CRITICAL" ds
  /\ Summary.highAlerts s'
     = Summary.highAlerts s
       + countSeverity CodeAlert.severity "high" cs
       + countSeverity DepAlert.severity "HIGH" ds
  /\ Summary.mediumAlerts s'
     = Summary.mediumAlerts s
       + countSeverity CodeAlert.severity "medium" cs
       + countSeverity DepAlert.severity "MODERATE" ds
  /\ Summary.lowAlerts s'
     = Summary.lowAlerts s
       + countSeverity CodeAlert.severity "low" cs
       + countSeverity DepAlert.severity "LOW" ds
  /\ severityBuckets (updateSummary (calculateRepoMetrics mixedAsCode) emptySummary)
     = (1, 0, 0, 1).
Proof.
  cbv zeta. split; [|split].
  - intros raw. unfold mapCodeAlert, JS.truthy_string. cbn [CodeAlert.severity].
    destruct (RawCode.security_severity_level raw) as [lvl|]; [|reflexivity].
    destruct (String.eqb lvl ""); reflexivity.
  - intros node. reflexivity.
  - rewrite updateSummary_closed.
    cbn [Summary.criticalAlerts Summary.highAlerts Summary.mediumAlerts
         Summary.lowAlerts].
    repeat split; try lia.
Qed.

(** ** IEEE arithmetic: results that are not NaN and not negative *)

(** Shifting a non-negative significand right keeps it non-negative. *)
Lemma shr_1_nonneg mrs : 0 <= shr_m mrs -> 0 <= shr_m (shr_1 mrs).
Proof.
  destruct mrs as [m r s]. cbn [shr_m].
  destruct m as [|[p|p|]|[p|p|]]; cbn; lia.
Qed.

Lemma iter_shr_1_nonneg p : forall mrs,
  0 <= shr_m mrs -> 0 <= shr_m (iter_pos shr_1 p mrs).
Proof.
  induction p as [p IH|p IH|]; intros mrs H; cbn [iter_pos].
  - apply IH, IH, shr_1_nonneg, H.
  - apply IH, IH, H.
  - apply shr_1_nonneg, H.
Qed.

Lemma shr_record_of_loc_m m l : shr_m (shr_record_of_loc m l) = m.
Proof. destruct l as [|[| |]]; reflexivity. Qed.

Lemma shr_fexp_nonneg m e l :
  0 <= m -> 0 <= shr_m (fst (shr_fexp prec emax m e l)).
Proof.
  intros H. unfold shr_fexp, shr.
  destruct (fexp prec emax (Zdigits2 m + e) - e) as [|p|p]; cbn [fst];
    try (rewrite shr_record_of_loc_m; exact H).
  apply iter_shr_1_nonneg. rewrite shr_record_of_loc_m; exact H.
Qed.

Lemma round_nearest_even_nonneg m l : 0 <= m -> 0 <= round_nearest_even m l.
Proof.
  intros H. unfold round_nearest_even.
  destruct l as [|[| |]]; try destruct (Z.even m); lia.
Qed.

(** Rounding a non-negative significand gives a zero, a finite number or
    an infinity of the given sign, never NaN. *)
Lemma binary_round_aux_signed sx mx ex lx :
  0 <= mx -> sf_signed sx (binary_round_aux prec emax sx mx ex lx).
Proof.
  intros H. unfold binary_round_aux.
  pose proof (shr_fexp_nonneg mx ex lx H) as H1.
  destruct (shr_fexp prec emax mx ex lx) as [mrs' e']. cbn [fst] in H1.
  pose proof (shr_fexp_nonneg _ e' loc_Exact
                (round_nearest_even_nonneg _ (loc_of_shr_record mrs') H1)) as H2.
  destruct (shr_fexp prec emax (round_nearest_even (shr_m mrs') (loc_of_shr_record mrs'))
              e' loc_Exact) as [mrs'' e''].
  cbn [fst] in H2.
  destruct (shr_m mrs'') as [|p|p]; [reflexivity| |lia].
  destruct (e'' <=? emax - prec); reflexivity.
Qed.

Lemma binary_round_signed sx mx ex : sf_signed sx (binary_round prec emax sx mx ex).
Proof.
  unfold binary_round.
  destruct (shl_align mx ex (fexp prec emax (Z.pos (digits2_pos mx) + ex))) as [mz ez].
  apply binary_round_aux_signed. lia.
Qed.

(** The number of binary digits of an integer below [2 ^ n]. *)
Lemma digits2_pos_size p : digits2_pos p = Pos.size p.
Proof. induction p; cbn; congruence. Qed.

Lemma digits2_pos_iter_xO n : forall p,
  Z.pos (digits2_pos (Pos.iter xO p n)) = Z.pos (digits2_pos p) + Z.pos n.
Proof.
  induction n as [|n IH] using Pos.peano_ind; intros p.
  - cbn. lia.
  - rewrite Pos.iter_succ. cbn [digits2_pos]. rewrite Pos2Z.inj_succ, IH. lia.
Qed.

Lemma digits2_pos_bound p n :
  0 <= n -> Z.pos p < 2 ^ n -> Z.pos (digits2_pos p) <= n.
Proof.
  intros Hn H. rewrite digits2_pos_size.
  pose proof (Pos.size_le p) as Hs.
  assert (Hs' : 2 ^ Z.pos (Pos.size p) <= 2 * Z.pos p).
  { change (2 * Z.pos p) with (Z.pos (p~0)).
    rewrite <- Pos2Z.inj_pow. apply Pos2Z.pos_le_pos. exact Hs. }
  destruct (Z_le_gt_dec (Z.pos (Pos.size p)) n) as [Hle|Hgt]; [exact Hle|].
  assert (2 ^ (n + 1) <= 2 ^ Z.pos (Pos.size p)) by (apply Z.pow_le_mono_r; lia).
  rewrite Z.pow_add_r in * by lia. lia.
Qed.

(** An integer below [2 ^ 53] is normalised without rounding, to a
    finite float. *)
Lemma binary_round_small p :
  Z.pos p < 2 ^ 53 ->
  exists m e, binary_round prec emax false p 0 = S754_finite false m e.
Proof.
  intros Hp.
  pose proof (digits2_pos_bound p 53 ltac:(lia) Hp) as Hd.
  unfold binary_round, shl_align.
  assert (Hf : fexp prec emax (Z.pos (digits2_pos p) + 0) = Z.pos (digits2_pos p) - 53).
  { unfold fexp, emin, prec, emax. lia. }
  rewrite Hf.
  assert (Haux : forall mz ez,
             Z.pos (digits2_pos mz) = 53 -> -52 <= ez <= 0 ->
             binary_round_aux prec emax false (Z.pos mz) ez loc_Exact
             = S754_finite false mz ez).
  { intros mz ez Hmz Hez. unfold binary_round_aux, shr_fexp.
    cbn [Zdigits2 shr_record_of_loc]. rewrite Hmz.
    assert (Hz : fexp prec emax (53 + ez) - ez = 0)
      by (unfold fexp, emin, prec, emax; lia).
    rewrite Hz. cbn [shr shr_m loc_of_shr_record round_nearest_even Zdigits2].
    rewrite Hmz, Hz. cbn [shr shr_m].
    assert (Hle : (ez <=? emax - prec) = true)
      by (apply Z.leb_le; unfold emax, prec; lia).
    now rewrite Hle. }
  destruct (Z.pos (digits2_pos p) - 53 - 0) as [|q|q] eqn:E.
  - eexists; eexists. apply Haux; lia.
  - lia.
  - eexists; eexists. apply Haux.
    + rewrite digits2_pos_iter_xO. lia.
    + lia.
Qed.

(** The conversion of a count. *)
Lemma Z2f_finite_positive z : 1 <= z < 2 ^ 53 -> finite_positive (JS.Z2f z).
Proof.
  intros Hz. unfold JS.Z2f, finite_positive.
  destruct (Z.ltb_spec z 0); [lia|].
  rewrite of_uint63_spec, Uint63.of_Z_spec.
  rewrite Z.mod_small by (unfold wB, size; split; [lia|];
                          apply Z.lt_trans with (2 ^ 53); [lia|reflexivity]).
  destruct z as [|p|p]; [lia| |lia].
  cbn [binary_normalize]. apply binary_round_small. lia.
Qed.

Lemma Z2f_zero : Prim2SF (JS.Z2f 0) = S754_zero false.
Proof. reflexivity. Qed.

Lemma Z2f_nonneg z : 0 <= z < 2 ^ 53 -> nonneg_float (JS.Z2f z).
Proof.
  intros Hz. destruct (Z.eq_dec z 0) as [->|Hn].
  - unfold nonneg_float. rewrite Z2f_zero. reflexivity.
  - destruct (Z2f_finite_positive z ltac:(lia)) as (m & e & H).
    unfold nonneg_float. rewrite H. reflexivity.
Qed.

(** Sum, product with a positive constant and quotient by a positive
    finite number of non-negative values. *)
Lemma nonneg_add x y : nonneg_float x -> nonneg_float y -> nonneg_float (x + y).
Proof.
  unfold nonneg_float. rewrite FloatAxioms.add_spec. unfold SF64add, SFadd.
  destruct (Prim2SF x) as [sx|sx| |sx mx ex], (Prim2SF y) as [sy|sy| |sy my ey];
    cbn [sf_signed]; intros Hx Hy; subst; try reflexivity; try contradiction.
  cbn [cond_Zopp]. unfold binary_normalize.
  destruct (shl_align mx ex (Z.min ex ey)) as [a ea].
  destruct (shl_align my ey (Z.min ex ey)) as [b eb]. cbn [fst].
  change (Z.pos a + Z.pos b) with (Z.pos (a + b)).
  apply binary_round_signed.
Qed.

Lemma nonneg_mul_finite x c : nonneg_float x -> finite_positive c -> nonneg_float (x * c).
Proof.
  unfold nonneg_float, finite_positive. rewrite FloatAxioms.mul_spec. unfold SF64mul, SFmul.
  intros Hx (m & e & Hc). rewrite Hc.
  destruct (Prim2SF x) as [sx|sx| |sx mx ex];
    cbn [sf_signed] in *; subst; try reflexivity; try contradiction.
  cbn [xorb]. apply binary_round_aux_signed. lia.
Qed.

Lemma nonneg_div_finite x n : nonneg_float x -> finite_positive n -> nonneg_float (x / n).
Proof.
  unfold nonneg_float, finite_positive. rewrite FloatAxioms.div_spec. unfold SF64div, SFdiv.
  intros Hx (m & e & Hn). rewrite Hn.
  destruct (Prim2SF x) as [sx|sx| |sx mx ex];
    cbn [sf_signed] in *; subst; try reflexivity; try contradiction.
  cbn [xorb]. unfold SFdiv_core_binary.
  set (s := ex - e - _).
  set (m' := match s with Z0 => Z.pos mx | Z.pos _ => Z.shiftl (Z.pos mx) s | Z.neg _ => 0 end).
  assert (Hm' : 0 <= m').
  { subst m'. destruct s; try lia. apply Z.shiftl_nonneg. lia. }
  pose proof (Z_div_mod m' (Z.pos m) ltac:(lia)) as Hdm.
  destruct (Z.div_eucl m' (Z.pos m)) as [q r].
  apply binary_round_aux_signed. nia.
Qed.

(** Comparisons, and [Math.min] with 100. *)
Lemma SFcompare_refl x : x <> S754_nan -> SFcompare x x = Some Eq.
Proof.
  destruct x as [s|s| |s m e]; intros H; cbn; try congruence.
  - now destruct s.
  - rewrite Z.compare_refl.
    assert (Pos.compare_cont Eq m m = Eq) as -> by apply Pos.compare_cont_refl.
    now destruct s.
Qed.

Lemma nonneg_not_nan x : nonneg_float x -> PrimFloat.is_nan x = false.
Proof.
  unfold nonneg_float, PrimFloat.is_nan. intros H.
  rewrite FloatAxioms.eqb_spec. unfold SFeqb.
  rewrite SFcompare_refl; [reflexivity|].
  intros E. rewrite E in H. exact H.
Qed.

Lemma nonneg_leb_0 x : nonneg_float x -> PrimFloat.leb 0 x = true.
Proof.
  unfold nonneg_float. rewrite FloatAxioms.leb_spec.
  change (Prim2SF 0) with (S754_zero false).
  destruct (Prim2SF x) as [s|s| |s m e]; cbn; intros H; subst;
    reflexivity || contradiction.
Qed.

Lemma ltb_leb x y : PrimFloat.ltb x y = true -> PrimFloat.leb x y = true.
Proof.
  rewrite FloatAxioms.ltb_spec, FloatAxioms.leb_spec. unfold SFltb, SFleb.
  destruct (SFcompare (Prim2SF x) (Prim2SF y)) as [[| |]|]; congruence.
Qed.

Lemma Math_min_in_range s : nonneg_float s -> in_range (JS.Math_min s 100).
Proof.
  intros H. unfold JS.Math_min, in_range. rewrite (nonneg_not_nan s H).
  change (PrimFloat.is_nan 100) with false. cbn [orb].
  destruct (PrimFloat.ltb s 100) eqn:E.
  - split; [now apply nonneg_leb_0 | now apply ltb_leb].
  - split; reflexivity.
Qed.

(** ** The fleet fold and the compliance scores *)

(** Two values that the IEEE comparison tells apart are different. *)
Lemma float_neq (x y : float) :
  PrimFloat.eqb x y = false -> PrimFloat.eqb y y = true -> x <> y.
Proof. intros H1 H2 E. subst x. congruence. Qed.

(** What the fold leaves in each field of the results. *)
Lemma recordAll_fields (l : list RepoAudit.t) (r : Results) :
  metadata (recordAll l r) = metadata r
  /\ summary (recordAll l r) = fold_left recordSummary l (summary r)
  /\ repositories (recordAll l r) = repositories r ++ map calculateRepoMetrics l
  /\ compliance (recordAll l r) = compliance r.
Proof.
  unfold recordAll. revert r. induction l as [|a l IH]; intros r; cbn [fold_left map].
  - rewrite app_nil_r. repeat split.
  - destruct (IH (recordRepository a r)) as (Hm & Hs & Hr & Hc).
    rewrite Hm, Hs, Hr, Hc. unfold recordRepository at 1 2 3 4.
    cbn [metadata summary repositories compliance].
    rewrite <- app_assoc. repeat split.
Qed.

Lemma framework_calculateCompliance (r : Results) :
  JS.length (repositories r) <> 0 ->
  summary (calculateCompliance r) = summary r
  /\ framework "OWASP" (frameworks (compliance (calculateCompliance r)))
     = Some (mkFramework
               (calculateOWASPCompliance
                  (mkResults (metadata r) (summary r) (repositories r)
                     (mkCompliance
                        ((scanning (subScores (repositories r))
                          + protection (subScores (repositories r))
                          + resolution (subScores (repositories r))) / 3)%float
                        (frameworks (compliance r)))))
               "Based on OWASP Top 10 coverage")
  /\ framework "ISO27001" (frameworks (compliance (calculateCompliance r)))
     = Some (mkFramework
               (calculateISOCompliance
                  (mkResults (metadata r) (summary r) (repositories r)
                     (mkCompliance
                        ((scanning (subScores (repositories r))
                          + protection (subScores (repositories r))
                          + resolution (subScores (repositories r))) / 3)%float
                        (frameworks (compliance r)))))
               "Based on ISO 27001 controls").
Proof.
  intros Hn. unfold calculateCompliance.
  destruct (JS.length (repositories r) =? 0) eqn:E;
    [apply Z.eqb_eq in E; contradiction|].
  repeat split.
Qed.

Lemma calculateCompliance_empty (r : Results) :
  JS.length (repositories r) = 0 -> calculateCompliance r = r.
Proof. intros H. unfold calculateCompliance. now rewrite H. Qed.

(** *** Score bounds *)

Ltac nonneg_const := unfold nonneg_float; vm_compute; reflexivity.
Ltac finite_positive_const := unfold finite_positive; eexists; eexists; vm_compute; reflexivity.

Lemma length_filter_le {A} (f : A -> bool) (l : list A) :
  0 <= JS.length (filter f l) <= JS.length l.
Proof.
  unfold JS.length. pose proof (List.filter_length_le f l). lia.
Qed.

(** A proportional credit is not negative. *)
Lemma fraction_nonneg (count : Z) (repos : list RepoAudit.t) (weight : float) :
  0 <= count <= JS.length repos ->
  0 < JS.length repos < 2 ^ 53 ->
  finite_positive weight ->
  nonneg_float (fraction count repos weight).
Proof.
  intros Hc Hn Hw. unfold fraction.
  apply nonneg_mul_finite; [|exact Hw].
  apply nonneg_div_finite; [apply Z2f_nonneg | apply Z2f_finite_positive]; lia.
Qed.

Ltac nonneg_score Hn :=
  repeat match goal with
         | |- nonneg_float (if ?c then _ else _) => destruct c
         | |- nonneg_float (fraction _ _ _) =>
             apply fraction_nonneg;
             [apply length_filter_le | exact Hn | finite_positive_const]
         | |- nonneg_float (_ + _)%float => apply nonneg_add
         end;
  try nonneg_const.

(** Every framework score is a sum of non-negative credits cut at 100, so
    it is within [0, 100]. *)
Lemma framework_scores_in_range (r : Results) :
  0 < JS.length (repositories r) < 2 ^ 53 ->
  in_range (calculateOWASPCompliance r)
  /\ in_range (calculateNISTCompliance r)
  /\ in_range (calculateISOCompliance r).
Proof.
  intros Hn. split; [|split].
  - unfold calculateOWASPCompliance. cbv zeta.
    apply Math_min_in_range. nonneg_score Hn.
  - unfold calculateNISTCompliance. cbv zeta.
    apply Math_min_in_range. nonneg_score Hn.
  - unfold calculateISOCompliance. cbv zeta.
    apply Math_min_in_range. nonneg_score Hn.
Qed.

(** The sub-scores stay non-negative along the loop of
    [calculateCompliance]. *)
Lemma scoreRepo_nonneg (s : Scores) (repo : RepoAudit.t) :
  nonneg_scores s -> countsInRange repo -> nonneg_scores (scoreRepo s repo).
Proof.
  intros (H1 & H2 & H3) (Hc & Ht). unfold scoreRepo, nonneg_scores.
  cbn [scanning protection resolution].
  repeat split.
  - repeat match goal with
           | |- nonneg_float (if ?c then _ else _) => destruct c
           | |- nonneg_float (_ + _)%float => apply nonneg_add
           end; try assumption; nonneg_const.
  - repeat match goal with
           | |- nonneg_float (if ?c then _ else _) => destruct c
           | |- nonneg_float (_ + _)%float => apply nonneg_add
           end; try assumption; nonneg_const.
  - destruct (Z.gtb_spec (totalAlerts (RepoAudit.metrics repo)) 0).
    + apply nonneg_add; [assumption|].
      apply nonneg_div_finite; [apply Z2f_nonneg | apply Z2f_finite_positive]; lia.
    + apply nonneg_add; [assumption | nonneg_const].
Qed.

Lemma fold_scoreRepo_nonneg (repos : list RepoAudit.t) :
  Forall countsInRange repos ->
  forall s, nonneg_scores s -> nonneg_scores (fold_left scoreRepo repos s).
Proof.
  induction 1 as [|repo repos Hr _ IH]; intros s Hs; cbn [fold_left].
  - exact Hs.
  - apply IH. now apply scoreRepo_nonneg.
Qed.

(** [overallScore] is not negative. *)
Lemma overallScore_nonneg (r : Results) :
  0 < JS.length (repositories r) < 2 ^ 53 ->
  Forall countsInRange (repositories r) ->
  PrimFloat.leb 0 (overallScore (compliance (calculateCompliance r))) = true.
Proof.
  intros Hn Hr. unfold calculateCompliance.
  destruct (Z.eqb_spec (JS.length (repositories r)) 0) as [E|_]; [lia|].
  cbn [compliance overallScore]. apply nonneg_leb_0.
  destruct (fold_scoreRepo_nonneg _ Hr (mkScores 0 0 0)) as (H1 & H2 & H3).
  { repeat split; nonneg_const. }
  unfold subScores, averageScore. cbn [scanning protection resolution].
  apply nonneg_div_finite; [|finite_positive_const].
  repeat apply nonneg_add;
    (apply nonneg_mul_finite; [|finite_positive_const];
     apply nonneg_div_finite; [assumption | apply Z2f_finite_positive; lia]).
Qed.

(** The metrics calculator gives counts in that range. *)
Lemma calculateRepoMetrics_countsInRange (ra : RepoAudit.t) :
  JS.length (allAlerts (RepoAudit.alerts ra)) < 2 ^ 53 ->
  countsInRange (calculateRepoMetrics ra).
Proof.
  intros H. unfold countsInRange. cbv zeta.
  destruct (closedAlerts_zero ra) as [_ Hc]. cbv zeta in Hc. rewrite Hc.
  rewrite metrics_calculateRepoMetrics. cbn [totalAlerts]. lia.
Qed.

(** For a fleet recorded from the initial results, [overallScore] is not
    negative and each of the three framework scores is within [0, 100]. *)
Lemma fleet_scores_bounded (l : list RepoAudit.t) :
  0 < JS.length l < 2 ^ 53 ->
  Forall (fun ra => JS.length (allAlerts (RepoAudit.alerts ra)) < 2 ^ 53) l ->
  let out := auditFleet l emptyResults in
  PrimFloat.leb 0 (overallScore (compliance out)) = true
  /\ exists owasp nist iso,
      frameworks (compliance out)
      = [("OWASP", owasp); ("NIST", nist); ("ISO27001", iso)]
      /\ in_range (score owasp)
      /\ in_range (score nist)
      /\ in_range (score iso).
Proof.
  intros Hn Hl. cbv zeta. unfold auditFleet.
  destruct (recordAll_fields l emptyResults) as (_ & _ & Hr & _).
  cbn [emptyResults initialResults repositories app] in Hr.
  assert (Hlen : 0 < JS.length (repositories (recordAll l emptyResults)) < 2 ^ 53)
    by (now rewrite Hr, length_map).
  split.
  - apply overallScore_nonneg; [exact Hlen|].
    rewrite Hr. apply Forall_map.
    eapply Forall_impl; [|exact Hl].
    intros ra. apply calculateRepoMetrics_countsInRange.
  - unfold calculateCompliance.
    destruct (Z.eqb_spec (JS.length (repositories (recordAll l emptyResults))) 0)
      as [E|_]; [lia|].
    cbn [compliance frameworks metadata summary repositories overallScore].
    do 3 eexists. split; [reflexivity|]. cbn [score].
    apply framework_scores_in_range. exact Hlen.
Qed.


(** *** Order of processing *)

Lemma fleetA_permutation : Permutation fleetA fleetA'.
Proof.
  unfold fleetA, fleetA'. apply perm_skip.
  apply (Permutation_cons_append
           [ cleanRepo (featuresWith false true true false false);
             cleanRepo (featuresWith false false false false false);
             cleanRepo (featuresWith true true true false false) ]).
Qed.

Lemma fleetB_permutation : Permutation fleetB fleetB'.
Proof. unfold fleetB, fleetB'. apply perm_skip. apply perm_swap. Qed.

(** C6 fails on the code: the sub-scores and the average resolution time
    are floating-point sums taken in processing order.  Two orders of the
    same five repositories give different [overallScore]s, and two orders
    of the same three repositories give NIST scores of 50 and 60. *)
Lemma C6_counterexample :
  (Permutation fleetA fleetA'
   /\ overallScore (compliance (auditFleet fleetA emptyResults))
      <> overallScore (compliance (auditFleet fleetA' emptyResults)))
  /\ (Permutation fleetB fleetB'
      /\ frameworkScore "NIST" (auditFleet fleetB emptyResults) = Some 50%float
      /\ frameworkScore "NIST" (auditFleet fleetB' emptyResults) = Some 60%float).
Proof.
  split; split.
  - exact fleetA_permutation.
  - apply float_neq; vm_compute; reflexivity.
  - exact fleetB_permutation.
  - split; vm_compute; reflexivity.
Qed.

Section FoldPermutation.

Context {A S : Type} (f : S -> A -> S).
Hypothesis f_comm : forall s a b, f (f s a) b = f (f s b) a.

Lemma fold_left_permutation (l l' : list A) :
  Permutation l l' -> forall s, fold_left f l s = fold_left f l' s.
Proof.
  induction 1 as [|x l l' _ IH|x y l|l l' l'' _ IH1 _ IH2]; intros s; cbn [fold_left].
  - reflexivity.
  - apply IH.
  - now rewrite f_comm.
  - now rewrite IH1.
Qed.

End FoldPermutation.

Lemma length_permutation {A} (l l' : list A) :
  Permutation l l' -> JS.length l = JS.length l'.
Proof. intros H. unfold JS.length. now rewrite (Permutation_length H). Qed.

Lemma filter_permutation {A} (p : A -> bool) (l l' : list A) :
  Permutation l l' -> Permutation (filter p l) (filter p l').
Proof.
  induction 1 as [|x l l' _ IH|x y l|l l' l'' _ IH1 _ IH2]; cbn [filter].
  - constructor.
  - destruct (p x); [now constructor | assumption].
  - destruct (p x), (p y); try reflexivity. apply perm_swap.
  - now transitivity (filter p l').
Qed.

Lemma countRuleAlerts_permutation (keyword : string) (l l' : list RepoAudit.t) :
  Permutation l l' -> countRuleAlerts keyword l = countRuleAlerts keyword l'.
Proof.
  intros H. unfold countRuleAlerts.
  apply fold_left_permutation; [|exact H]. intros; lia.
Qed.

Lemma recordSummary_comm (s : Summary.t) (a b : RepoAudit.t) :
  recordSummary (recordSummary s a) b = recordSummary (recordSummary s b) a.
Proof.
  unfold recordSummary. rewrite !updateSummary_closed. cbn. f_equal; lia.
Qed.

Lemma recordAll_permutation (l l' : list RepoAudit.t) (r : Results) :
  Permutation l l' ->
  summary (recordAll l r) = summary (recordAll l' r)
  /\ Permutation (repositories (recordAll l r)) (repositories (recordAll l' r))
  /\ compliance (recordAll l r) = compliance (recordAll l' r).
Proof.
  intros H.
  destruct (recordAll_fields l r) as (_ & Hs & Hr & Hc).
  destruct (recordAll_fields l' r) as (_ & Hs' & Hr' & Hc').
  rewrite Hs, Hs', Hr, Hr', Hc, Hc'. repeat split.
  - apply fold_left_permutation; [apply recordSummary_comm | exact H].
  - apply Permutation_app_head. now apply Permutation_map.
Qed.

(** The framework scores that are computed from counts only. *)
Lemma OWASP_permutation (r r' : Results) :
  summary r = summary r' ->
  Permutation (repositories r) (repositories r') ->
  calculateOWASPCompliance r = calculateOWASPCompliance r'.
Proof.
  intros Hs Hp. unfold calculateOWASPCompliance, fraction. cbv zeta.
  rewrite Hs, !(countRuleAlerts_permutation _ _ _ Hp),
    (length_permutation _ _ Hp),
    (length_permutation _ _ (filter_permutation _ _ _ Hp)).
  reflexivity.
Qed.

Lemma ISO_permutation (r r' : Results) :
  Permutation (repositories r) (repositories r') ->
  calculateISOCompliance r = calculateISOCompliance r'.
Proof.
  intros Hp. unfold calculateISOCompliance, fraction. cbv zeta.
  rewrite (length_permutation _ _ Hp),
    !(length_permutation _ _ (filter_permutation _ _ _ Hp)).
  reflexivity.
Qed.

(** C6, amended. Processing the same repositories in any permuted order
    gives the same fleet summary (every severity and source-type total and
    both repository counts) and the same OWASP and ISO27001 entries, which
    are computed from counts alone. *)
Theorem C6_order_independence (l l' : list RepoAudit.t) (r : Results) :
  Permutation l l' ->
  let out := auditFleet l r in
  let out' := auditFleet l' r in
  summary out = summary out'
  /\ framework "OWASP" (frameworks (compliance out))
     = framework "OWASP" (frameworks (compliance out'))
  /\ framework "ISO27001" (frameworks (compliance out))
     = framework "ISO27001" (frameworks (compliance out')).
Proof.
  intros H. cbv zeta. unfold auditFleet.
  destruct (recordAll_permutation l l' r H) as (Hs & Hp & Hc).
  destruct (Z.eq_dec (JS.length (repositories (recordAll l r))) 0) as [E|E].
  - assert (E' : JS.length (repositories (recordAll l' r)) = 0)
      by (now rewrite <- (length_permutation _ _ Hp)).
    rewrite !calculateCompliance_empty by assumption.
    rewrite Hs, Hc. repeat split.
  - assert (E' : JS.length (repositories (recordAll l' r)) <> 0)
      by (now rewrite <- (length_permutation _ _ Hp)).
    destruct (framework_calculateCompliance _ E) as (Hs1 & Ho1 & Hi1).
    destruct (framework_calculateCompliance _ E') as (Hs2 & Ho2 & Hi2).
    rewrite Hs1, Hs2, Ho1, Ho2, Hi1, Hi2. split; [exact Hs|]. split.
    + f_equal. f_equal. apply OWASP_permutation; [exact Hs | exact Hp].
    + f_equal. f_equal. apply ISO_permutation. exact Hp.
Qed.

Lemma C6_order_independence_witness :
  summary (auditFleet fleetA emptyResults) = summary (auditFleet fleetA' emptyResults)
  /\ framework "OWASP" (frameworks (compliance (auditFleet fleetA emptyResults)))
     = framework "OWASP" (frameworks (compliance (auditFleet fleetA' emptyResults)))
  /\ framework "ISO27001" (frameworks (compliance (auditFleet fleetA emptyResults)))
     = framework "ISO27001" (frameworks (compliance (auditFleet fleetA' emptyResults))).
Proof.
  exact (C6_order_independence fleetA fleetA' emptyResults fleetA_permutation).
Defined.

(** ** Alert collector: a source that fails part-way *)

Section Collector.

Variable gh : GitHub.
Variable org : string.

(** The feature prober returns normally whatever the platform answers; it
    changes nothing in [this.results], writes warnings only, and leaves no
    error annotation. *)
Lemma getSecurityFeatures_returns (repo : Repo.t) (st : State) :
  exists (f : SecurityFeatures) (w : list string),
    getSecurityFeatures gh org repo st
    = (Ret f, mkState (results st) (trace st ++ map Warn w))
    /\ cs_error (codeScanning f) = None
    /\ ss_error (secretScanning f) = None
    /\ db_error (dependabot f) = None.
Proof.
  destruct st as [r t].
  unfold getSecurityFeatures, with_local, try_catch, bind, await, lift,
    console_warn, emit, modify, local, ret, throw.
  cbn [fst snd results trace].
  destruct (code_scanning_analyses gh org (Repo.name repo)) as [e1|[|a1 l1]];
    cbn [fst snd];
    destruct (secret_scanning_probe gh org (Repo.name repo)) as [e2|p2];
    cbn [fst snd];
    try destruct (status_is_not e2 404); cbn [fst snd];
    destruct (repos_get gh org (Repo.name repo)) as [e3|i3]; cbn [fst snd];
    try destruct (repos_getBranchProtection gh org (Repo.name repo)
                    (Repo.default_branch repo)) as [e4|p4];
    cbn [fst snd results trace];
    (eexists;
     first [ exists []; cbn [map]; rewrite app_nil_r; solve [repeat split]
           | eexists [_]; cbn [map]; solve [repeat split] ]).
Qed.

(** The dependency source answers its first page, announces another one
    and fails on it: the collector returns the alerts of the first page
    and writes the warning. *)
Lemma getDependabotAlerts_fails_after_page1
      (repo : Repo.t) (fuel : nat) (page1 : list RawDep.t)
      (cursor : option string) (error : Err.t) (st : State) :
  graphql_vulnerabilityAlerts gh org (Repo.name repo) None
  = inr (mkGraphQLResult
           (Some (mkVulnerabilityAlerts (Some page1) (mkPageInfo true cursor)))) ->
  graphql_vulnerabilityAlerts gh org (Repo.name repo) cursor = inl error ->
  (2 <= fuel)%nat ->
  getDependabotAlerts gh org fuel repo st
  = (Ret (map mapDependabotAlert page1),
     mkState (results st)
       (trace st
        ++ [Warn ("Warning: Could not fetch Dependabot alerts via GraphQL for "
                  ++ Repo.name repo)])).
Proof.
  intros H1 H2 Hfuel. destruct fuel as [|[|fuel]]; [lia | lia |].
  unfold getDependabotAlerts, with_local, try_catch, bind.
  cbn [dependabotPages]. unfold bind, await. rewrite H1.
  cbn [vulnerabilityAlerts nodes pageInfo hasNextPage endCursor ret push modify
       fst snd app].
  rewrite H2. reflexivity.
Qed.

End Collector.

(** C3 fails on the code: in the scenario the dependency query answers its
    first page and fails on the second while the code and secret sources
    succeed, and the repository's dependency collection is not empty: it
    holds the two alerts of the first page. *)
Lemma C3_counterexample :
  let out := auditRepository scenarioGitHub "octo-org" 5 paymentApi scenarioState in
  graphql_vulnerabilityAlerts scenarioGitHub "octo-org" "payment-api" None
  = inr (mkGraphQLResult
           (Some (mkVulnerabilityAlerts (Some depPage1)
                    (mkPageInfo true (Some "Y3Vyc29yOnYyOpHOAAE=")))))
  /\ graphql_vulnerabilityAlerts scenarioGitHub "octo-org" "payment-api"
       (Some "Y3Vyc29yOnYyOpHOAAE=")
     = inl badGateway
  /\ fst out = Ret tt
  /\ map (fun ra => JS.length (dependency (RepoAudit.alerts ra)))
         (repositories (results (snd out)))
     = [2]
  /\ ~ (forall ra, In ra (repositories (results (snd out))) ->
                   dependency (RepoAudit.alerts ra) = []).
Proof.
  cbv zeta. repeat split.
  intros H.
  specialize (H _ (or_introl eq_refl)). vm_compute in H. discriminate.
Qed.

(** C3, amended. If the dependency query fails after it returned a first
    page, while the code and secret sources succeed, then
    [auditRepository] returns normally and appends the repository to the
    results; its output contains the code and secret alerts; its
    dependency collection holds the alerts of the pages fetched before the
    failure (those of the first page); the warning is written to the
    console and no error is annotated on the Dependabot feature. *)
Theorem C3_partial_source_failure
        (gh : GitHub) (org : string) (repo : Repo.t) (fuel : nat)
        (cs : list CodeAlert.t) (ss : list SecretAlert.t)
        (page1 : list RawDep.t) (cursor : option string) (error : Err.t)
        (st : State) :
  (forall s, getCodeScanningAlerts gh org fuel repo s = (Ret cs, s)) ->
  (forall s, getSecretScanningAlerts gh org fuel repo s = (Ret ss, s)) ->
  graphql_vulnerabilityAlerts gh org (Repo.name repo) None
  = inr (mkGraphQLResult
           (Some (mkVulnerabilityAlerts (Some page1) (mkPageInfo true cursor)))) ->
  graphql_vulnerabilityAlerts gh org (Repo.name repo) cursor = inl error ->
  (2 <= fuel)%nat ->
  exists (repoAudit : RepoAudit.t) (st' : State),
    auditRepository gh org fuel repo st = (Ret tt, st')
    /\ repositories (results st') = repositories (results st) ++ [repoAudit]
    /\ Summary.scannedRepositories (summary (results st'))
       = Summary.scannedRepositories (summary (results st)) + 1
    /\ code (RepoAudit.alerts repoAudit) = cs
    /\ secret (RepoAudit.alerts repoAudit) = ss
    /\ dependency (RepoAudit.alerts repoAudit) = map mapDependabotAlert page1
    /\ db_error (dependabot (RepoAudit.securityFeatures repoAudit)) = None
    /\ In (Warn ("Warning: Could not fetch Dependabot alerts via GraphQL for "
                 ++ Repo.name repo))
          (trace st').
Proof.
  intros Hcode Hsecret Hpage1 Hpage2 Hfuel.
  destruct (getSecurityFeatures_returns gh org repo st)
    as (f & w & Hf & Hcs & Hss & Hdb).
  unfold auditRepository, try_catch at 1, bind at 1.
  rewrite Hf.
  unfold try_catch at 1, bind at 1 2. rewrite Hcode. cbn [ret].
  unfold try_catch at 1, bind at 1 2. rewrite Hsecret. cbn [ret].
  unfold try_catch at 1, bind at 1 2.
  rewrite (getDependabotAlerts_fails_after_page1 gh org repo fuel page1 cursor error
             _ Hpage1 Hpage2 Hfuel).
  cbn [ret update_results modify results trace].
  eexists. eexists. split; [reflexivity|].
  cbn [results trace repositories recordRepository summary
       Summary.scannedRepositories RepoAudit.alerts RepoAudit.securityFeatures
       calculateRepoMetrics set_alerts code secret dependency].
  split; [reflexivity|].
  split; [rewrite updateSummary_closed; reflexivity|].
  repeat split; try assumption.
  apply in_or_app. right. left. reflexivity.
Qed.

Lemma C3_partial_source_failure_witness :
  exists (repoAudit : RepoAudit.t) (st' : State),
    auditRepository scenarioGitHub "octo-org" 5 paymentApi scenarioState = (Ret tt, st')
    /\ repositories (results st') = repositories (results scenarioState) ++ [repoAudit]
    /\ Summary.scannedRepositories (summary (results st'))
       = Summary.scannedRepositories (summary (results scenarioState)) + 1
    /\ code (RepoAudit.alerts repoAudit) = [mapCodeAlert (rawCodeWith (Some "high"))]
    /\ secret (RepoAudit.alerts repoAudit)
       = [mapSecretAlert
            (RawSecret.mk 3 "open" "aws_access_key_id" "AWS Access Key ID"
               1751000000000 None None (Some false))]
    /\ dependency (RepoAudit.alerts repoAudit) = map mapDependabotAlert depPage1
    /\ db_error (dependabot (RepoAudit.securityFeatures repoAudit)) = None
    /\ In (Warn ("Warning: Could not fetch Dependabot alerts via GraphQL for "
                 ++ Repo.name paymentApi))
          (trace st').
Proof.
  apply (C3_partial_source_failure scenarioGitHub "octo-org" paymentApi 5
           _ _ depPage1 (Some "Y3Vyc29yOnYyOpHOAAE=") badGateway scenarioState).
  - intros s. reflexivity.
  - intros s. reflexivity.
  - reflexivity.
  - reflexivity.
  - lia.
Defined.

(** ** Repository selector *)

Section Selector.

Variable gh : GitHub.
Variable org : string.

Lemma resolveRepos_spec (repoNames : list string) (repos : list Repo.t) (st : State) :
  resolveRepos gh org repoNames repos st
  = (Ret (repos ++ resolved gh org repoNames),
     mkState (results st) (trace st ++ unresolvedWarnings gh org repoNames)).
Proof.
  revert repos st. induction repoNames as [|n ns IH]; intros repos st.
  - cbn. rewrite !app_nil_r. now destruct st.
  - cbn [resolveRepos resolved unresolvedWarnings flat_map].
    unfold bind at 1, try_catch, bind at 1, await.
    destruct (repos_get gh org n) as [e|data]; cbn.
    + rewrite IH. cbn [results trace]. now rewrite <- ?app_assoc.
    + rewrite IH. cbn [results trace]. now rewrite <- ?app_assoc, ?app_nil_r.
Qed.


(** Neither loop of the selector touches [this.results], and neither
    writes anything but warnings. *)
Lemma listRepos_state (fuel : nat) :
  forall (page : Z) (repos : list Repo.t) (st : State),
    snd (listRepos gh org fuel page repos st) = st.
Proof.
  induction fuel as [|fuel IH]; intros page repos st; cbn [listRepos].
  - reflexivity.
  - unfold bind, await.
    destruct (repos_listForOrg gh org page) as [e|data]; cbn; [reflexivity|].
    destruct (JS.length data =? 100); [apply IH | reflexivity].
Qed.

End Selector.

Lemma unresolvedWarnings_onlyWarnings gh org (repoNames : list string) :
  onlyWarnings (unresolvedWarnings gh org repoNames).
Proof.
  intros e He. unfold unresolvedWarnings in He. apply in_flat_map in He.
  destruct He as (n & _ & He).
  destruct (repos_get gh org n); [|contradiction].
  destruct He as [<-|[]]. now eexists.
Qed.

Lemma getRepositories_state gh org options (fuel : nat) (st : State) :
  exists w,
    snd (getRepositories gh org options fuel st)
    = mkState (results st) (trace st ++ w)
    /\ onlyWarnings w.
Proof.
  unfold getRepositories.
  destruct (JS.truthy_string (opt_repos options)).
  - rewrite resolveRepos_spec. cbn [snd]. eexists. split; [reflexivity|].
    apply unresolvedWarnings_onlyWarnings.
  - exists []. split; [|intros e []]. rewrite app_nil_r.
    unfold bind.
    pose proof (listRepos_state gh org fuel 1 [] st) as Hst.
    destruct (listRepos gh org fuel 1 [] st) as [[repos|e|c|] st'];
      cbn [snd] in Hst; subst st'; cbn [snd];
      try destruct (String.eqb (opt_scope options) "critical");
      now destruct st.
Qed.




(** ** Empty fleet *)

Lemma run_empty (gh : GitHub) (org : string) (options : Options) (fuel : nat)
      (st0 st1 : State) :
  getRepositories gh org options fuel st0 = (Ret [], st1) ->
  repositories (results st1) = [] ->
  let r := set_totalRepositories 0 (results st1) in
  run gh org options fuel st0
  = match fs_writeFile gh r with
    | inr _ => (Ret tt, mkState r (trace st1 ++ [Saved r]))
    | inl e => (Exit 1, mkState r (trace st1 ++ [Error (Err.message e)]))
    end.
Proof.
  intros Hsel Hrepos r.
  assert (Hskip : calculateCompliance r = r).
  { apply calculateCompliance_empty. subst r. cbn [repositories set_totalRepositories].
    now rewrite Hrepos. }
  unfold run, try_catch, bind. rewrite Hsel.
  cbn [update_results modify auditAll ret results trace].
  change (JS.length (@nil Repo.t)) with 0. fold r. rewrite Hskip.
  unfold saveResults, bind, get, await. cbn [results].
  destruct (fs_writeFile gh r) as [e|[]]; reflexivity.
Qed.

(** C10. When no repository is processed, compliance scoring is skipped:
    [calculateCompliance] leaves the results as they are, so a run whose
    selector returns no repository ends with [overallScore] 0 and an empty
    [frameworks] mapping, with no OWASP, NIST or ISO27001 entry, in
    [this.results] and in the document it saves. *)
Theorem C10_empty_fleet (gh : GitHub) (org : string) (options : Options)
        (now : string) (fuel : nat) (st1 : State) :
  getRepositories gh org options fuel (initialState org options now) = (Ret [], st1) ->
  let final := snd (run gh org options fuel (initialState org options now)) in
  (forall r : Results, repositories r = [] -> calculateCompliance r = r)
  /\ repositories (results final) = []
  /\ compliance (results final) = mkCompliance 0%float []
  /\ framework "OWASP" (frameworks (compliance (results final))) = None
  /\ framework "NIST" (frameworks (compliance (results final))) = None
  /\ framework "ISO27001" (frameworks (compliance (results final))) = None
  /\ (forall document : Results,
         In (Saved document) (trace final) ->
         compliance document = mkCompliance 0%float []).
Proof.
  intros Hsel final.
  split.
  { intros r Hr. apply calculateCompliance_empty. now rewrite Hr. }
  destruct (getRepositories_state gh org options fuel (initialState org options now))
    as (w & Hst & Hw).
  rewrite Hsel in Hst. cbn [snd initialState results trace app] in Hst.
  subst final. rewrite (run_empty _ _ _ _ _ _ Hsel) by (now rewrite Hst).
  rewrite Hst. cbn [results trace].
  destruct (fs_writeFile gh
              (set_totalRepositories 0 (initialResults org options now)))
    as [e|u]; cbn [snd results trace];
    (repeat split;
     intros document Hin; apply in_app_or in Hin;
     destruct Hin as [Hin|[Hin|[]]];
     [destruct (Hw _ Hin) as [text Htext]; discriminate
     |inversion Hin; subst; reflexivity]).
Qed.

Lemma C10_empty_fleet_witness :
  let options := mkOptions "custom" (Some "nope") in
  let final :=
    snd (run scenarioGitHub "octo-org" options 5
             (initialState "octo-org" options "2025-06-30T00:00:00.000Z")) in
  repositories (results final) = []
  /\ compliance (results final) = mkCompliance 0%float []
  /\ framework "OWASP" (frameworks (compliance (results final))) = None
  /\ framework "NIST" (frameworks (compliance (results final))) = None
  /\ framework "ISO27001" (frameworks (compliance (results final))) = None.
Proof.
  cbv zeta.
  destruct (C10_empty_fleet scenarioGitHub "octo-org"
              (mkOptions "custom" (Some "nope")) "2025-06-30T00:00:00.000Z" 5
              _ eq_refl)
    as (_ & H1 & H2 & H3 & H4 & H5 & _).
  repeat split; assumption.
Defined.

(** * Further properties of the audit *)

(** ** Helper lemmas: pagination, collectors, one repository, the run *)

Section Pagination.

Variable gh : GitHub.
Variable org : string.
Variable repo : Repo.t.

Lemma codeScanningPages_spec (pages : list (list RawCode.t)) :
  forall (fuel : nat) (page : Z) (st : State) (alerts : list CodeAlert.t),
    fullPages (code_scanning_alerts gh org (Repo.name repo)) page pages ->
    (List.length pages < fuel)%nat ->
    codeScanningPages gh org repo fuel page (st, alerts)
    = match code_scanning_alerts gh org (Repo.name repo)
              (page + Z.of_nat (List.length pages)) with
      | inr last =>
          if JS.length last =? 100
          then codeScanningPages gh org repo (fuel - S (List.length pages))
                 (page + Z.of_nat (List.length pages) + 1)
                 (st, alerts ++ map mapCodeAlert (List.concat pages ++ last))
          else (Ret tt, (st, alerts ++ map mapCodeAlert (List.concat pages ++ last)))
      | inl error =>
          if status_is_not error 404
          then (Throw error, (st, alerts ++ map mapCodeAlert (List.concat pages)))
          else (Ret tt, (st, alerts ++ map mapCodeAlert (List.concat pages)))
      end.
Proof.
  induction pages as [|p ps IH]; intros fuel page st alerts Hp Hfuel;
    (destruct fuel as [|fuel]; [cbn in Hfuel; lia|]).
  - cbn [List.length List.concat app]. rewrite Z.add_0_r, Nat.sub_succ, Nat.sub_0_r.
    cbn [codeScanningPages]. unfold bind at 1, try_catch, bind, await, push, modify, ret, throw.
    destruct (code_scanning_alerts gh org (Repo.name repo) page) as [e|last]; cbn [fst snd].
    + rewrite app_nil_r. destruct (status_is_not e 404); reflexivity.
    + destruct (JS.length last =? 100); reflexivity.
  - cbn [fullPages] in Hp. destruct Hp as (Hp & Hn & Hps).
    cbn [codeScanningPages]. unfold bind at 1, try_catch, bind, await, push, modify, ret.
    rewrite Hp. cbn [fst snd]. rewrite Hn. cbn [Z.eqb Pos.eqb].
    change (100 =? 100) with true. cbv iota.
    rewrite (IH fuel (page + 1) st _ Hps) by (cbn in Hfuel; lia).
    cbn [List.length List.concat]. rewrite Nat2Z.inj_succ.
    replace (page + 1 + Z.of_nat (List.length ps)) with (page + Z.succ (Z.of_nat (List.length ps))) by lia.
    replace (fuel - S (List.length ps))%nat with (S fuel - S (S (List.length ps)))%nat by lia.
    rewrite !map_app, <- !app_assoc.
    destruct (code_scanning_alerts gh org (Repo.name repo)
                (page + Z.succ (Z.of_nat (List.length ps)))) as [e|last];
      [destruct (status_is_not e 404)|destruct (JS.length last =? 100)];
      rewrite ?map_app, <- ?app_assoc; reflexivity.
Qed.

Lemma status_is_not_404 (e : Err.t) :
  status_is_not e 404 = false <-> Err.status e = Some 404.
Proof.
  unfold status_is_not. destruct (Err.status e) as [c|]; [|split; discriminate].
  destruct (Z.eqb_spec c 404); cbn; split; congruence.
Qed.

Lemma secretScanningPages_spec (pages : list (list RawSecret.t)) :
  forall (fuel : nat) (page : Z) (st : State) (alerts : list SecretAlert.t),
    fullPages (secret_scanning_alerts gh org (Repo.name repo)) page pages ->
    (List.length pages < fuel)%nat ->
    secretScanningPages gh org repo fuel page (st, alerts)
    = match secret_scanning_alerts gh org (Repo.name repo)
              (page + Z.of_nat (List.length pages)) with
      | inr last =>
          if JS.length last =? 100
          then secretScanningPages gh org repo (fuel - S (List.length pages))
                 (page + Z.of_nat (List.length pages) + 1)
                 (st, alerts ++ map mapSecretAlert (List.concat pages ++ last))
          else (Ret tt, (st, alerts ++ map mapSecretAlert (List.concat pages ++ last)))
      | inl error =>
          if status_is_not error 404 && status_is_not error 403
          then (Throw error, (st, alerts ++ map mapSecretAlert (List.concat pages)))
          else (Ret tt, (st, alerts ++ map mapSecretAlert (List.concat pages)))
      end.
Proof.
  induction pages as [|p ps IH]; intros fuel page st alerts Hp Hfuel;
    (destruct fuel as [|fuel]; [cbn in Hfuel; lia|]).
  - cbn [List.length List.concat app]. rewrite Z.add_0_r, Nat.sub_succ, Nat.sub_0_r.
    cbn [secretScanningPages]. unfold bind at 1, try_catch, bind, await, push, modify, ret, throw.
    destruct (secret_scanning_alerts gh org (Repo.name repo) page) as [e|last]; cbn [fst snd].
    + rewrite app_nil_r. destruct (status_is_not e 404 && status_is_not e 403); reflexivity.
    + destruct (JS.length last =? 100); reflexivity.
  - cbn [fullPages] in Hp. destruct Hp as (Hp & Hn & Hps).
    cbn [secretScanningPages]. unfold bind at 1, try_catch, bind, await, push, modify, ret.
    rewrite Hp. cbn [fst snd]. rewrite Hn.
    change (100 =? 100) with true. cbv iota.
    rewrite (IH fuel (page + 1) st _ Hps) by (cbn in Hfuel; lia).
    cbn [List.length List.concat]. rewrite Nat2Z.inj_succ.
    replace (page + 1 + Z.of_nat (List.length ps)) with (page + Z.succ (Z.of_nat (List.length ps))) by lia.
    replace (fuel - S (List.length ps))%nat with (S fuel - S (S (List.length ps)))%nat by lia.
    rewrite !map_app, <- !app_assoc.
    destruct (secret_scanning_alerts gh org (Repo.name repo)
                (page + Z.succ (Z.of_nat (List.length ps)))) as [e|last];
      [destruct (status_is_not e 404 && status_is_not e 403)|destruct (JS.length last =? 100)];
      rewrite ?map_app, <- ?app_assoc; reflexivity.
Qed.

End Pagination.

Lemma warnedFrom_refl st : warnedFrom st st.
Proof.
  split; [reflexivity|]. exists []. split; [now rewrite app_nil_r|]. intros e [].
Qed.

Lemma onlyWarnings_app w w' : onlyWarnings w -> onlyWarnings w' -> onlyWarnings (w ++ w').
Proof.
  intros H H' e He. apply in_app_or in He. destruct He; [now apply H | now apply H'].
Qed.

Lemma warnedFrom_trans st st' st'' :
  warnedFrom st st' -> warnedFrom st' st'' -> warnedFrom st st''.
Proof.
  intros (Hr & w & Ht & Hw) (Hr' & w' & Ht' & Hw'). split; [congruence|].
  exists (w ++ w'). split; [|now apply onlyWarnings_app].
  now rewrite Ht', Ht, app_assoc.
Qed.

Lemma onlyWarnings_map_Warn (w : list string) : onlyWarnings (map Warn w).
Proof.
  intros e He. apply in_map_iff in He. destruct He as (t & <- & _). now exists t.
Qed.

Section Collectors.

Variable gh : GitHub.
Variable org : string.
Variable repo : Repo.t.

Lemma codeScanningPages_state (fuel : nat) :
  forall (page : Z) (st : State) (alerts : list CodeAlert.t),
  exists o alerts',
    codeScanningPages gh org repo fuel page (st, alerts) = (o, (st, alerts'))
    /\ forall c, o <> Exit c.
Proof.
  induction fuel as [|fuel IH]; intros page st alerts; cbn [codeScanningPages].
  - do 2 eexists. split; [reflexivity | discriminate].
  - unfold bind at 1, try_catch, bind, await, push, modify, ret, throw.
    destruct (code_scanning_alerts gh org (Repo.name repo) page) as [e|data];
      cbn [fst snd].
    + destruct (status_is_not e 404); do 2 eexists; (split; [reflexivity | discriminate]).
    + destruct (JS.length data =? 100); [apply IH|].
      do 2 eexists. split; [reflexivity | discriminate].
Qed.

Lemma getCodeScanningAlerts_state (fuel : nat) (st : State) :
  exists o,
    getCodeScanningAlerts gh org fuel repo st = (o, st) /\ forall c, o <> Exit c.
Proof.
  unfold getCodeScanningAlerts, with_local, bind.
  destruct (codeScanningPages_state fuel 1 st []) as (o & alerts & H & Ho).
  rewrite H. destruct o as [[]|e|c|]; cbn;
    try (now destruct (Ho c eq_refl));
    eexists; (split; [reflexivity | discriminate]).
Qed.

Lemma secretScanningPages_state (fuel : nat) :
  forall (page : Z) (st : State) (alerts : list SecretAlert.t),
  exists o alerts',
    secretScanningPages gh org repo fuel page (st, alerts) = (o, (st, alerts'))
    /\ forall c, o <> Exit c.
Proof.
  induction fuel as [|fuel IH]; intros page st alerts; cbn [secretScanningPages].
  - do 2 eexists. split; [reflexivity | discriminate].
  - unfold bind at 1, try_catch, bind, await, push, modify, ret, throw.
    destruct (secret_scanning_alerts gh org (Repo.name repo) page) as [e|data];
      cbn [fst snd].
    + destruct (status_is_not e 404 && status_is_not e 403);
        do 2 eexists; (split; [reflexivity | discriminate]).
    + destruct (JS.length data =? 100); [apply IH|].
      do 2 eexists. split; [reflexivity | discriminate].
Qed.

Lemma getSecretScanningAlerts_state (fuel : nat) (st : State) :
  exists o,
    getSecretScanningAlerts gh org fuel repo st = (o, st) /\ forall c, o <> Exit c.
Proof.
  unfold getSecretScanningAlerts, with_local, bind.
  destruct (secretScanningPages_state fuel 1 st []) as (o & alerts & H & Ho).
  rewrite H. destruct o as [[]|e|c|]; cbn;
    try (now destruct (Ho c eq_refl));
    eexists; (split; [reflexivity | discriminate]).
Qed.

Lemma dependabotPages_state (fuel : nat) :
  forall (cursor : option string) (st : State) (alerts : list DepAlert.t),
  exists o alerts',
    dependabotPages gh org repo fuel cursor (st, alerts) = (o, (st, alerts'))
    /\ forall c, o <> Exit c.
Proof.
  induction fuel as [|fuel IH]; intros cursor st alerts; cbn [dependabotPages].
  - do 2 eexists. split; [reflexivity | discriminate].
  - unfold bind at 1, await, ret, throw.
    destruct (graphql_vulnerabilityAlerts gh org (Repo.name repo) cursor)
      as [e|result].
    + do 2 eexists. split; [reflexivity | discriminate].
    + destruct (vulnerabilityAlerts result) as [va|];
        [|do 2 eexists; split; [reflexivity | discriminate]].
      destruct (nodes va) as [ns|];
        [|do 2 eexists; split; [reflexivity | discriminate]].
      unfold bind, push, modify. cbn [fst snd].
      destruct (hasNextPage (pageInfo va)); [apply IH|].
      do 2 eexists. split; [reflexivity | discriminate].
Qed.

(** [getDependabotAlerts] never throws. *)
Lemma getDependabotAlerts_outcome (fuel : nat) (st : State) :
  exists o st',
    getDependabotAlerts gh org fuel repo st = (o, st')
    /\ returnsOrDiverges o
    /\ warnedFrom st st'.
Proof.
  unfold getDependabotAlerts, with_local, bind, try_catch.
  destruct (dependabotPages_state fuel None st []) as (o & alerts & H & Ho).
  rewrite H. destruct o as [[]|e|c|]; cbn.
  - do 2 eexists. split; [reflexivity|]. split; [left; now eexists | apply warnedFrom_refl].
  - do 2 eexists. split; [reflexivity|]. split; [left; now eexists|].
    split; [reflexivity|]. eexists. split; [reflexivity|].
    intros ev [<-|[]]. now eexists.
  - now destruct (Ho c eq_refl).
  - do 2 eexists. split; [reflexivity|]. split; [now right | apply warnedFrom_refl].
Qed.

Lemma dependabotPages_skip (pages : list (list RawDep.t * option string)) :
  forall (fuel : nat) (cursor : option string) (st : State) (alerts : list DepAlert.t),
    cursorPages (graphql_vulnerabilityAlerts gh org (Repo.name repo)) cursor pages ->
    dependabotPages gh org repo (List.length pages + fuel) cursor (st, alerts)
    = dependabotPages gh org repo fuel (cursorAfter cursor pages)
        (st, alerts ++ map mapDependabotAlert (List.concat (map fst pages))).
Proof.
  induction pages as [|[ns next] ps IH]; intros fuel cursor st alerts Hp.
  - cbn. now rewrite app_nil_r.
  - cbn [cursorPages] in Hp. destruct Hp as [Hp Hps].
    cbn [List.length Nat.add dependabotPages]. unfold bind at 1, await. rewrite Hp.
    cbn [ret vulnerabilityAlerts nodes pageInfo hasNextPage endCursor].
    unfold bind, push, modify. cbn [fst snd].
    rewrite (IH fuel next st _ Hps). cbn [cursorAfter map fst List.concat].
    now rewrite map_app, app_assoc.
Qed.

End Collectors.

Section OneRepository.

Variable gh : GitHub.
Variable org : string.

Lemma describes_set_alerts repo al ra : describes repo ra -> describes repo (set_alerts al ra).
Proof. intros H. exact H. Qed.

Lemma describes_set_features repo f ra :
  describes repo ra -> describes repo (set_features f ra).
Proof. intros H. exact H. Qed.

(** One [try { repoAudit.alerts.x = await collector } catch { annotate }]
    step. *)
Lemma collect_step {A} (collector : M State A) (store : A -> RepoAudit.t)
      (annotate : Err.t -> RepoAudit.t) (st : State) :
  (exists o st', collector st = (o, st') /\ warnedFrom st st' /\ forall c, o <> Exit c) ->
  exists o st',
    try_catch (alerts <- collector ;; ret (store alerts)) (fun error => ret (annotate error)) st
    = (o, st')
    /\ warnedFrom st st'
    /\ ((exists alerts, collector st = (Ret alerts, st') /\ o = Ret (store alerts))
        \/ (exists error, collector st = (Throw error, st') /\ o = Ret (annotate error))
        \/ o = OutOfFuel).
Proof.
  intros (o & st' & H & Hw & Ho). unfold try_catch, bind. rewrite H.
  destruct o as [a|e|c|]; cbn [ret].
  - do 2 eexists. split; [reflexivity|]. split; [exact Hw|]. left. now eexists.
  - do 2 eexists. split; [reflexivity|]. split; [exact Hw|]. right. left. now eexists.
  - now destruct (Ho c eq_refl).
  - do 2 eexists. split; [reflexivity|]. split; [exact Hw|]. now right; right.
Qed.

Lemma getCodeScanningAlerts_warned repo fuel st :
  exists o st',
    getCodeScanningAlerts gh org fuel repo st = (o, st')
    /\ warnedFrom st st' /\ forall c, o <> Exit c.
Proof.
  destruct (getCodeScanningAlerts_state gh org repo fuel st) as (o & H & Ho).
  exists o, st. split; [exact H|]. split; [apply warnedFrom_refl | exact Ho].
Qed.

Lemma getSecretScanningAlerts_warned repo fuel st :
  exists o st',
    getSecretScanningAlerts gh org fuel repo st = (o, st')
    /\ warnedFrom st st' /\ forall c, o <> Exit c.
Proof.
  destruct (getSecretScanningAlerts_state gh org repo fuel st) as (o & H & Ho).
  exists o, st. split; [exact H|]. split; [apply warnedFrom_refl | exact Ho].
Qed.

Lemma getDependabotAlerts_warned repo fuel st :
  exists o st',
    getDependabotAlerts gh org fuel repo st = (o, st')
    /\ warnedFrom st st' /\ forall c, o <> Exit c.
Proof.
  destruct (getDependabotAlerts_outcome gh org repo fuel st) as (o & st' & H & Ho & Hw).
  exists o, st'. split; [exact H|]. split; [exact Hw|].
  intros c E. destruct Ho as [[a Ha]|Ha]; congruence.
Qed.

Lemma getSecurityFeatures_warned repo st :
  exists f st',
    getSecurityFeatures gh org repo st = (Ret f, st') /\ warnedFrom st st'.
Proof.
  destruct (getSecurityFeatures_returns gh org repo st) as (f & w & H & _).
  do 2 eexists. split; [exact H|]. split; [reflexivity|].
  eexists. split; [reflexivity|]. apply onlyWarnings_map_Warn.
Qed.

(** [auditRepository] never throws and never exits: it returns after
    appending one entry for the repository, or the fuel of a pagination
    loop runs out and the results are untouched. *)
Lemma auditRepository_outcome (fuel : nat) (repo : Repo.t) (st : State) :
  exists o st',
    auditRepository gh org fuel repo st = (o, st')
    /\ ((o = Ret tt
         /\ exists (ra : RepoAudit.t) (w : list Event),
             results st' = recordRepository ra (results st)
             /\ trace st' = trace st ++ w
             /\ onlyWarnings w
             /\ describes repo ra
             /\ RepoAudit.metrics ra = initialMetrics)
        \/ (o = OutOfFuel /\ warnedFrom st st')).
Proof.
  unfold auditRepository, try_catch at 1, bind at 1.
  destruct (getSecurityFeatures_warned repo st) as (f & st0 & Hf & Hw0). rewrite Hf.
  set (ra0 := RepoAudit.mk (Repo.name repo) (Repo.html_url repo) (Repo.private repo)
                (Repo.default_branch repo) (Repo.updated_at repo) f
                (mkAlerts [] [] []) initialMetrics).
  assert (Hd0 : describes repo ra0 /\ RepoAudit.metrics ra0 = initialMetrics)
    by (repeat split).
  unfold bind at 1.
  match goal with
  | |- context [try_catch (bind (getCodeScanningAlerts gh org fuel repo) ?k) ?h st0] =>
      destruct (collect_step (getCodeScanningAlerts gh org fuel repo)
                  (fun alerts => set_alerts (mkAlerts alerts (secret (RepoAudit.alerts ra0))
                                               (dependency (RepoAudit.alerts ra0))) ra0)
                  (fun error => set_features
                     (set_codeScanning
                        (mkCodeScanning (cs_enabled (codeScanning (RepoAudit.securityFeatures ra0)))
                           (cs_lastRun (codeScanning (RepoAudit.securityFeatures ra0)))
                           (Some (Err.message error))) (RepoAudit.securityFeatures ra0)) ra0)
                  st0 (getCodeScanningAlerts_warned repo fuel st0))
        as (o1 & st1 & H1 & Hw1 & Hc1)
  end.
  cbv zeta. rewrite H1.
  assert (Hfuel : forall stx, warnedFrom st stx ->
            exists o st', (@OutOfFuel unit, stx) = (o, st')
              /\ ((o = Ret tt /\ exists ra w, results st' = recordRepository ra (results st)
                     /\ trace st' = trace st ++ w /\ onlyWarnings w /\ describes repo ra
                     /\ RepoAudit.metrics ra = initialMetrics)
                  \/ (o = OutOfFuel /\ warnedFrom st st'))).
  { intros stx Hx. do 2 eexists. split; [reflexivity|]. right. now split. }
  pose proof (warnedFrom_trans _ _ _ Hw0 Hw1) as Hw01.
  assert (exists ra1, (o1 = Ret ra1 /\ describes repo ra1 /\ RepoAudit.metrics ra1 = initialMetrics)
                      \/ o1 = OutOfFuel) as (ra1 & Ho1).
  { destruct Hc1 as [[a [_ ->]]|[[e [_ ->]]| ->]].
    - eexists. left. repeat split.
    - eexists. left. repeat split.
    - exists ra0. now right. }
  destruct Ho1 as [[-> [Hd1 Hm1]]| ->]; [|now apply Hfuel].
  unfold bind at 1.
  destruct (collect_step (getSecretScanningAlerts gh org fuel repo)
              (fun alerts => set_alerts (mkAlerts (code (RepoAudit.alerts ra1)) alerts
                                           (dependency (RepoAudit.alerts ra1))) ra1)
              (fun error => set_features
                 (set_secretScanning
                    (mkSecretScanning (ss_enabled (secretScanning (RepoAudit.securityFeatures ra1)))
                       (ss_pushProtection (secretScanning (RepoAudit.securityFeatures ra1)))
                       (Some (Err.message error))) (RepoAudit.securityFeatures ra1)) ra1)
              st1 (getSecretScanningAlerts_warned repo fuel st1))
    as (o2 & st2 & H2 & Hw2 & Hc2).
  rewrite H2.
  pose proof (warnedFrom_trans _ _ _ Hw01 Hw2) as Hw02.
  assert (exists ra2, (o2 = Ret ra2 /\ describes repo ra2 /\ RepoAudit.metrics ra2 = initialMetrics)
                      \/ o2 = OutOfFuel) as (ra2 & Ho2).
  { destruct Hc2 as [[a [_ ->]]|[[e [_ ->]]| ->]].
    - eexists. left. split; [reflexivity|]. split; [exact Hd1 | exact Hm1].
    - eexists. left. split; [reflexivity|]. split; [exact Hd1 | exact Hm1].
    - exists ra0. now right. }
  destruct Ho2 as [[-> [Hd2 Hm2]]| ->]; [|now apply Hfuel].
  unfold bind at 1.
  destruct (collect_step (getDependabotAlerts gh org fuel repo)
              (fun alerts => set_alerts (mkAlerts (code (RepoAudit.alerts ra2))
                                           (secret (RepoAudit.alerts ra2)) alerts) ra2)
              (fun error => set_features
                 (set_dependabot
                    (mkDependabot (db_enabled (dependabot (RepoAudit.securityFeatures ra2)))
                       (db_securityUpdates (dependabot (RepoAudit.securityFeatures ra2)))
                       (Some (Err.message error))) (RepoAudit.securityFeatures ra2)) ra2)
              st2 (getDependabotAlerts_warned repo fuel st2))
    as (o3 & st3 & H3 & Hw3 & Hc3).
  rewrite H3.
  pose proof (warnedFrom_trans _ _ _ Hw02 Hw3) as Hw03.
  assert (exists ra3, (o3 = Ret ra3 /\ describes repo ra3 /\ RepoAudit.metrics ra3 = initialMetrics)
                      \/ o3 = OutOfFuel) as (ra3 & Ho3).
  { destruct Hc3 as [[a [_ ->]]|[[e [_ ->]]| ->]].
    - eexists. left. split; [reflexivity|]. split; [exact Hd2 | exact Hm2].
    - eexists. left. split; [reflexivity|]. split; [exact Hd2 | exact Hm2].
    - exists ra0. now right. }
  destruct Ho3 as [[-> [Hd3 Hm3]]| ->]; [|now apply Hfuel].
  cbn [update_results modify].
  do 2 eexists. split; [reflexivity|]. left. split; [reflexivity|].
  destruct Hw03 as (Hr & w & Ht & Hw).
  exists ra3, w. cbn [results trace]. rewrite Hr.
  split; [reflexivity|]. split; [exact Ht|]. split; [exact Hw|]. split; [exact Hd3 | exact Hm3].
Qed.

End OneRepository.

(** *** The aggregate *)

Lemma countSeverity_nonneg {A} (sev : A -> string) lit (l : list A) :
  0 <= countSeverity sev lit l.
Proof. apply length_nonneg. Qed.

(** An alert is counted under at most one of four distinct literals. *)
Lemma countSeverity_disjoint {A} (sev : A -> string) (a b c d : string) (l : list A) :
  a <> b -> a <> c -> a <> d -> b <> c -> b <> d -> c <> d ->
  countSeverity sev a l + countSeverity sev b l
  + countSeverity sev c l + countSeverity sev d l <= JS.length l.
Proof.
  intros. induction l as [|x l IH].
  - cbn. lia.
  - rewrite !countSeverity_cons.
    replace (JS.length (x :: l)) with (1 + JS.length l)
      by (unfold JS.length; cbn [List.length]; lia).
    destruct (String.eqb_spec (sev x) a), (String.eqb_spec (sev x) b),
      (String.eqb_spec (sev x) c), (String.eqb_spec (sev x) d);
      try congruence; lia.
Qed.

Lemma fold_totalAlerts_app (l l' : list RepoAudit.t) (n : Z) :
  fold_left (fun n ra => n + totalAlerts (RepoAudit.metrics ra)) (l ++ l') n
  = fold_left (fun n ra => n + totalAlerts (RepoAudit.metrics ra)) l' 0
    + fold_left (fun n ra => n + totalAlerts (RepoAudit.metrics ra)) l n.
Proof.
  rewrite fold_left_app.
  generalize (fold_left (fun n ra => n + totalAlerts (RepoAudit.metrics ra)) l n).
  induction l' as [|x l' IH]; intros m; cbn [fold_left]; [lia|].
  rewrite IH, (IH (0 + _)). lia.
Qed.

Lemma aggregated_initial org options now : aggregated (initialResults org options now).
Proof. unfold aggregated. cbn. lia. Qed.

Lemma aggregated_recordRepository (ra : RepoAudit.t) (r : Results) :
  aggregated r -> aggregated (recordRepository ra r).
Proof.
  unfold aggregated. cbv zeta. intros (Hs & Ht & Hf & Hc & Hh & Hm & Hl & Hse & Hle).
  unfold recordRepository. cbn [summary repositories].
  rewrite updateSummary_closed. rewrite alerts_calculateRepoMetrics.
  cbn [Summary.scannedRepositories Summary.totalAlerts Summary.codeAlerts
       Summary.secretAlerts Summary.dependencyAlerts Summary.criticalAlerts
       Summary.highAlerts Summary.mediumAlerts Summary.lowAlerts].
  rewrite fold_totalAlerts_app, length_app. cbn [fold_left].
  rewrite metrics_calculateRepoMetrics. cbn [totalAlerts].
  rewrite length_allAlerts.
  pose proof (countSeverity_disjoint CodeAlert.severity "critical" "high" "medium" "low"
                (code (RepoAudit.alerts ra))
                ltac:(discriminate) ltac:(discriminate) ltac:(discriminate)
                ltac:(discriminate) ltac:(discriminate) ltac:(discriminate)).
  pose proof (countSeverity_disjoint DepAlert.severity "CRITICAL" "HIGH" "MODERATE" "LOW"
                (dependency (RepoAudit.alerts ra))
                ltac:(discriminate) ltac:(discriminate) ltac:(discriminate)
                ltac:(discriminate) ltac:(discriminate) ltac:(discriminate)).
  pose proof (countSeverity_nonneg CodeAlert.severity "critical" (code (RepoAudit.alerts ra))).
  pose proof (countSeverity_nonneg CodeAlert.severity "high" (code (RepoAudit.alerts ra))).
  pose proof (countSeverity_nonneg CodeAlert.severity "medium" (code (RepoAudit.alerts ra))).
  pose proof (countSeverity_nonneg CodeAlert.severity "low" (code (RepoAudit.alerts ra))).
  pose proof (countSeverity_nonneg DepAlert.severity "CRITICAL" (dependency (RepoAudit.alerts ra))).
  pose proof (countSeverity_nonneg DepAlert.severity "HIGH" (dependency (RepoAudit.alerts ra))).
  pose proof (countSeverity_nonneg DepAlert.severity "MODERATE" (dependency (RepoAudit.alerts ra))).
  pose proof (countSeverity_nonneg DepAlert.severity "LOW" (dependency (RepoAudit.alerts ra))).
  pose proof (length_nonneg (secret (RepoAudit.alerts ra))).
  change (JS.length [calculateRepoMetrics ra]) with 1.
  repeat split; lia.
Qed.

Lemma aggregated_recordAll (l : list RepoAudit.t) (r : Results) :
  aggregated r -> aggregated (recordAll l r).
Proof.
  unfold recordAll. revert r. induction l as [|ra l IH]; intros r Hr; cbn [fold_left].
  - exact Hr.
  - apply IH. now apply aggregated_recordRepository.
Qed.

Lemma calculateCompliance_fields (r : Results) :
  metadata (calculateCompliance r) = metadata r
  /\ summary (calculateCompliance r) = summary r
  /\ repositories (calculateCompliance r) = repositories r.
Proof.
  unfold calculateCompliance.
  destruct (JS.length (repositories r) =? 0); repeat split.
Qed.

Lemma aggregated_calculateCompliance (r : Results) :
  aggregated r -> aggregated (calculateCompliance r).
Proof.
  unfold aggregated. cbv zeta.
  destruct (calculateCompliance_fields r) as (_ & -> & ->). tauto.
Qed.

(** *** The run *)

Section Run.

Variable gh : GitHub.
Variable org : string.
Variable options : Options.

(** The loop over the selected repositories is the fold of
    [recordRepository] over one entry per repository, in order. *)
Lemma auditAll_outcome (fuel : nat) (repos : list Repo.t) :
  forall st : State,
  exists o st' w,
    auditAll gh org fuel repos st = (o, st')
    /\ trace st' = trace st ++ w
    /\ onlyWarnings w
    /\ ((o = Ret tt
         /\ exists ras : list RepoAudit.t,
             results st' = recordAll ras (results st)
             /\ Forall2 describes repos ras
             /\ Forall (fun ra => RepoAudit.metrics ra = initialMetrics) ras)
        \/ o = OutOfFuel).
Proof.
  induction repos as [|repo repos IH]; intros st; cbn [auditAll].
  - do 2 eexists. exists []. split; [reflexivity|]. rewrite app_nil_r.
    split; [reflexivity|]. split; [intros e []|].
    left. split; [reflexivity|].
    exists []. repeat split; constructor.
  - unfold bind.
    destruct (auditRepository_outcome gh org fuel repo st) as (o & st1 & H & Ho).
    rewrite H.
    destruct Ho as [(-> & ra & w & Hr & Ht & Hw & Hd & Hm)|(-> & _ & w & Ht & Hw)];
      [|do 2 eexists; exists w; split; [reflexivity | now auto]].
    destruct (IH st1) as (o2 & st2 & w2 & H2 & Ht2 & Hw2 & Ho2). rewrite H2.
    do 2 eexists. exists (w ++ w2). split; [reflexivity|].
    split; [now rewrite Ht2, Ht, app_assoc|].
    split; [now apply onlyWarnings_app|].
    destruct Ho2 as [(-> & ras & Hr2 & Hd2 & Hm2)| ->]; [|now right].
    left. split; [reflexivity|]. exists (ra :: ras).
    split; [|split].
    + rewrite Hr2, Hr. reflexivity.
    + now constructor.
    + now constructor.
Qed.

Lemma run_cases (fuel : nat) (st : State) :
  run gh org options fuel st
  = match getRepositories gh org options fuel st with
    | (Ret repos, st1) =>
        match auditAll gh org fuel repos
                (mkState (set_totalRepositories (JS.length repos) (results st1))
                         (trace st1)) with
        | (Ret _, st2) =>
            let r := calculateCompliance (results st2) in
            match fs_writeFile gh r with
            | inr _ => (Ret tt, mkState r (trace st2 ++ [Saved r]))
            | inl e => (Exit 1, mkState r (trace st2 ++ [Error (Err.message e)]))
            end
        | (Throw e, st2) =>
            (Exit 1, mkState (results st2) (trace st2 ++ [Error (Err.message e)]))
        | (Exit c, st2) => (Exit c, st2)
        | (OutOfFuel, st2) => (OutOfFuel, st2)
        end
    | (Throw e, st1) =>
        (Exit 1, mkState (results st1) (trace st1 ++ [Error (Err.message e)]))
    | (Exit c, st1) => (Exit c, st1)
    | (OutOfFuel, st1) => (OutOfFuel, st1)
    end.
Proof.
  unfold run, try_catch, bind at 1.
  destruct (getRepositories gh org options fuel st) as [[repos|e|c|] st1];
    try reflexivity.
  unfold bind at 1. cbn [update_results modify]. unfold bind at 1.
  destruct (auditAll gh org fuel repos _) as [[[]|e|c|] st2]; try reflexivity.
  unfold bind at 1. cbn [update_results modify].
  unfold saveResults, bind, get, await. cbn [results].
  destruct (fs_writeFile gh (calculateCompliance (results st2))) as [e|[]];
    reflexivity.
Qed.

Lemma listRepos_skip (pages : list (list Repo.t)) :
  forall (fuel : nat) (page : Z) (repos : list Repo.t) (st : State),
    fullPages (repos_listForOrg gh org) page pages ->
    listRepos gh org (List.length pages + fuel) page repos st
    = listRepos gh org fuel (page + Z.of_nat (List.length pages))
        (repos ++ List.concat pages) st.
Proof.
  induction pages as [|p ps IH]; intros fuel page repos st Hp.
  - cbn. now rewrite Z.add_0_r, app_nil_r.
  - cbn [fullPages] in Hp. destruct Hp as (Hp & Hn & Hps).
    cbn [List.length Nat.add listRepos]. unfold bind, await. rewrite Hp.
    cbn [ret]. rewrite Hn. change (100 =? 100) with true. cbv iota.
    rewrite (IH fuel (page + 1) _ st Hps). cbn [List.length List.concat].
    rewrite Nat2Z.inj_succ, <- app_assoc. f_equal. lia.
Qed.

End Run.

Lemma describes_calculateRepoMetrics repo ra :
  describes repo ra -> describes repo (calculateRepoMetrics ra).
Proof. intros H. exact H. Qed.

Lemma aggregated_set_totalRepositories n r :
  aggregated r -> aggregated (set_totalRepositories n r).
Proof. intros H. exact H. Qed.

Lemma Forall2_describes_map repos ras :
  Forall2 describes repos ras ->
  Forall2 describes repos (map calculateRepoMetrics ras).
Proof.
  induction 1; cbn [map]; constructor; auto using describes_calculateRepoMetrics.
Qed.

Lemma onlyWarnings_nil : onlyWarnings [].
Proof. intros e []. Qed.

Lemma getCodeScanningAlerts_first_fails gh org repo fuel error st :
  code_scanning_alerts gh org (Repo.name repo) 1 = inl error ->
  Err.status error <> Some 404 ->
  (1 <= fuel)%nat ->
  getCodeScanningAlerts gh org fuel repo st = (Throw error, st).
Proof.
  intros He Hs Hfuel.
  assert (Hloop := codeScanningPages_spec gh org repo [] fuel 1 st [] I Hfuel).
  cbn [List.length Z.of_nat] in Hloop. rewrite Z.add_0_r, He in Hloop.
  unfold getCodeScanningAlerts, with_local, bind. rewrite Hloop.
  destruct (status_is_not error 404) eqn:E; [reflexivity|].
  apply status_is_not_404 in E. contradiction.
Qed.

Lemma getSecretScanningAlerts_first_fails gh org repo fuel error st :
  secret_scanning_alerts gh org (Repo.name repo) 1 = inl error ->
  Err.status error <> Some 404 ->
  Err.status error <> Some 403 ->
  (1 <= fuel)%nat ->
  getSecretScanningAlerts gh org fuel repo st = (Throw error, st).
Proof.
  intros He Hs Hs' Hfuel.
  assert (Hloop := secretScanningPages_spec gh org repo [] fuel 1 st [] I Hfuel).
  cbn [List.length Z.of_nat] in Hloop. rewrite Z.add_0_r, He in Hloop.
  unfold getSecretScanningAlerts, with_local, bind. rewrite Hloop.
  assert (E : status_is_not error 404 && status_is_not error 403 = true).
  { unfold status_is_not. destruct (Err.status error) as [c|]; [|reflexivity].
    apply andb_true_intro. split; apply negb_true_iff, Z.eqb_neq; congruence. }
  rewrite E. reflexivity.
Qed.

Lemma getDependabotAlerts_first_fails gh org repo fuel error st :
  graphql_vulnerabilityAlerts gh org (Repo.name repo) None = inl error ->
  (1 <= fuel)%nat ->
  getDependabotAlerts gh org fuel repo st
  = (Ret [],
     mkState (results st)
       (trace st
        ++ [Warn ("Warning: Could not fetch Dependabot alerts via GraphQL for "
                  ++ Repo.name repo)])).
Proof.
  intros He Hfuel. destruct fuel as [|fuel]; [lia|].
  unfold getDependabotAlerts, with_local, bind, try_catch.
  cbn [dependabotPages]. unfold bind, await. rewrite He. reflexivity.
Qed.

(** ** Helper lemmas: exact quotients, framework scores *)

(** *** Exact quotients and sums *)

Lemma float_of_SF (x y : float) : Prim2SF x = Prim2SF y -> x = y.
Proof.
  intros H. rewrite <- (SF2Prim_Prim2SF x), <- (SF2Prim_Prim2SF y). now rewrite H.
Qed.

Lemma div_eucl_shift (m : positive) :
  Z.div_eucl (Z.shiftl (Z.pos m) 53) (Z.pos m) = (2 ^ 53, 0).
Proof.
  rewrite Z.shiftl_mul_pow2 by lia.
  pose proof (Z_div_mod (Z.pos m * 2 ^ 53) (Z.pos m) ltac:(lia)) as H.
  destruct (Z.div_eucl (Z.pos m * 2 ^ 53) (Z.pos m)) as [q r].
  destruct H as [H Hr].
  assert (q = 2 ^ 53 /\ r = 0) as [-> ->]; [|reflexivity].
  assert (Z.pos m * (2 ^ 53 - q) = r) by lia.
  assert (2 ^ 53 - q = 0) by nia. split; nia.
Qed.

Lemma div_self (x : float) : finite_positive x -> (x / x)%float = 1%float.
Proof.
  intros (m & e & H). apply float_of_SF.
  rewrite FloatAxioms.div_spec, H. unfold SF64div, SFdiv, SFdiv_core_binary.
  cbn [xorb].
  replace (Zdigits2 (Z.pos m) + e - (Zdigits2 (Z.pos m) + e)) with 0 by lia.
  replace (e - e) with 0 by lia.
  change (Z.min (fexp prec emax 0) 0) with (-53).
  change (0 - -53) with 53.
  cbv iota.
  rewrite div_eucl_shift.
  assert (Hloc : new_location (Z.pos m) 0 = loc_Exact).
  { unfold new_location, new_location_even, new_location_odd.
    destruct (Z.even (Z.pos m)); reflexivity. }
  rewrite Hloc. vm_compute. reflexivity.
Qed.

Lemma zero_div (x : float) : finite_positive x -> (0 / x)%float = 0%float.
Proof.
  intros (m & e & H). apply float_of_SF.
  rewrite FloatAxioms.div_spec, H. reflexivity.
Qed.

Lemma add_zero_r (x : float) : nonneg_float x -> (x + 0)%float = x.
Proof.
  unfold nonneg_float. intros H. apply float_of_SF.
  rewrite FloatAxioms.add_spec. change (Prim2SF 0) with (S754_zero false).
  unfold SF64add, SFadd.
  destruct (Prim2SF x) as [s|s| |s m e]; cbn [sf_signed] in H; subst;
    try reflexivity; contradiction.
Qed.

(** *** Metrics *)

Lemma filter_isResolved_secret (al : Alerts) :
  filter isResolved (allAlerts al)
  = filter isResolved (map ASecret (secret al)).
Proof.
  unfold allAlerts. rewrite !filter_app.
  assert (Hc : filter isResolved (map ACode (code al)) = []).
  { induction (code al) as [|c l IH]; [reflexivity|exact IH]. }
  assert (Hd : filter isResolved (map ADep (dependency al)) = []).
  { induction (dependency al) as [|c l IH]; [reflexivity|exact IH]. }
  rewrite Hc, Hd, app_nil_r. reflexivity.
Qed.

(** *** Exact framework scores *)

Lemma fraction_all (repos : list RepoAudit.t) (weight : float) :
  1 <= JS.length repos < 2 ^ 53 ->
  fraction (JS.length repos) repos weight = (1 * weight)%float.
Proof.
  intros Hn. unfold fraction. rewrite div_self; [reflexivity|].
  now apply Z2f_finite_positive.
Qed.

Lemma fraction_none (repos : list RepoAudit.t) (weight : float) :
  1 <= JS.length repos < 2 ^ 53 ->
  fraction 0 repos weight = (0 * weight)%float.
Proof.
  intros Hn. unfold fraction. rewrite zero_div; [reflexivity|].
  now apply Z2f_finite_positive.
Qed.

Lemma countRuleAlerts_clean (keyword : string) (repos : list RepoAudit.t) :
  Forall (fun ra => code (RepoAudit.alerts ra) = []) repos ->
  countRuleAlerts keyword repos = 0.
Proof.
  intros H. unfold countRuleAlerts. generalize 0 as n.
  induction H as [|ra l Hra Hl IH]; intros n; cbn [fold_left]; [reflexivity|].
  rewrite Hra. cbn [filter]. change (JS.length []) with 0.
  rewrite Z.add_0_r. apply IH.
Qed.

Lemma fold_meanTimeToResolve_zero (repos : list RepoAudit.t) :
  Forall (fun ra => meanTimeToResolve (RepoAudit.metrics ra) = 0%float) repos ->
  fold_left (fun sum repo => (sum + meanTimeToResolve (RepoAudit.metrics repo))%float)
            repos 0%float
  = 0%float.
Proof.
  induction 1 as [|ra l Hra Hl IH]; cbn [fold_left]; [reflexivity|].
  rewrite Hra. change (0 + 0)%float with 0%float. exact IH.
Qed.

Lemma fold_recordSummary_clean (l : list RepoAudit.t) :
  Forall cleanAndCovered l ->
  forall s,
    Summary.secretAlerts (fold_left recordSummary l s) = Summary.secretAlerts s
    /\ Summary.dependencyAlerts (fold_left recordSummary l s)
       = Summary.dependencyAlerts s.
Proof.
  induction 1 as [|ra l Hra Hl IH]; intros s; cbn [fold_left]; [now split|].
  destruct (IH (recordSummary s ra)) as [-> ->].
  unfold recordSummary. rewrite updateSummary_closed, alerts_calculateRepoMetrics.
  destruct Hra as (-> & _). cbn. lia.
Qed.

(** *** The resolution sub-score *)

Lemma scoreRepo_resolution_alerts (s : Scores) (ra : RepoAudit.t) :
  hasAlerts ra ->
  resolution s = 0%float ->
  resolution (scoreRepo s (calculateRepoMetrics ra)) = 0%float.
Proof.
  intros Ha Hs. unfold scoreRepo. cbv zeta. cbn [resolution].
  rewrite metrics_calculateRepoMetrics. cbv zeta. cbn [totalAlerts closedAlerts].
  rewrite filter_isOpen, Z.sub_diag.
  destruct (Z.gtb_spec (JS.length (allAlerts (RepoAudit.alerts ra))) 0) as [_|H];
    [|unfold hasAlerts in Ha; lia].
  rewrite zero_div by (apply Z2f_finite_positive; exact Ha).
  rewrite Hs. reflexivity.
Qed.

Lemma fold_scoreRepo_resolution (l : list RepoAudit.t) :
  Forall hasAlerts l ->
  forall s, resolution s = 0%float ->
    resolution (fold_left scoreRepo (map calculateRepoMetrics l) s) = 0%float.
Proof.
  induction 1 as [|ra l Hra Hl IH]; intros s Hs; cbn [map fold_left]; [exact Hs|].
  apply IH. now apply scoreRepo_resolution_alerts.
Qed.

(** ** Helper lemmas: consumers of the saved results *)

(** *** Sorting *)

Lemma insert_permutation {A} (compare : A -> A -> Z) (x : A) (l : list A) :
  Permutation (JSArray.insert compare x l) (x :: l).
Proof.
  induction l as [|y l IH]; cbn [JSArray.insert]; [reflexivity|].
  destruct (compare x y <=? 0); [reflexivity|].
  rewrite IH. apply perm_swap.
Qed.

Lemma sort_permutation {A} (compare : A -> A -> Z) (l : list A) :
  Permutation (JSArray.sort compare l) l.
Proof.
  unfold JSArray.sort. induction l as [|x l IH]; cbn [fold_right]; [reflexivity|].
  rewrite insert_permutation. now constructor.
Qed.

Lemma descending_insert (x : RepoAudit.t) (l : list RepoAudit.t) :
  descending l -> descending (JSArray.insert byTotalAlertsDescending x l).
Proof.
  induction l as [|y l IH]; cbn [JSArray.insert descending]; intros H.
  - split; [constructor | exact I].
  - destruct H as [Hy Hl]. unfold byTotalAlertsDescending at 1.
    destruct (Z.leb_spec (totalAlerts (RepoAudit.metrics y)
                          - totalAlerts (RepoAudit.metrics x)) 0) as [Hle|Hgt];
      cbn [descending].
    + split; [|now split]. constructor; [lia|].
      eapply Forall_impl; [|exact Hy]. cbn. intros z Hz. lia.
    + split; [|now apply IH].
      rewrite (insert_permutation byTotalAlertsDescending x l).
      constructor; [lia | exact Hy].
Qed.

Lemma descending_sort (l : list RepoAudit.t) :
  descending (JSArray.sort byTotalAlertsDescending l).
Proof.
  unfold JSArray.sort. induction l as [|x l IH]; cbn [fold_right]; [exact I|].
  now apply descending_insert.
Qed.

Lemma descending_firstn (n : nat) (l : list RepoAudit.t) :
  descending l ->
  descending (firstn n l)
  /\ forall x, In x (skipn n l) ->
       Forall (fun t => totalAlerts (RepoAudit.metrics x)
                        <= totalAlerts (RepoAudit.metrics t)) (firstn n l).
Proof.
  revert l. induction n as [|n IH]; intros l H.
  - cbn. split; [exact I | constructor].
  - destruct l as [|y l]; cbn [firstn skipn descending] in *.
    + split; [exact I | intros x []].
    + destruct H as [Hy Hl]. destruct (IH l Hl) as [Hd Hs].
      split.
      * split; [|exact Hd].
        rewrite Forall_forall in *. intros z Hz. apply Hy.
        rewrite <- (firstn_skipn n l). apply in_or_app. now left.
      * intros x Hx. constructor; [|now apply Hs].
        rewrite Forall_forall in Hy. apply Hy.
        rewrite <- (firstn_skipn n l). apply in_or_app. now right.
Qed.

(** *** The target of the issue *)

Lemma split_noSlash (s : string) :
  noSlash s -> JS.split "/"%char s = [s].
Proof.
  unfold noSlash. induction s as [|c s IH]; cbn [JS.split list_ascii_of_string]; intros H.
  - reflexivity.
  - destruct (Ascii.eqb_spec c "/"%char) as [->|_]; [exfalso; apply H; now left|].
    rewrite IH by (intros F; apply H; now right). reflexivity.
Qed.

Lemma split_segment (s rest : string) :
  noSlash s ->
  JS.split "/"%char (s ++ String "/"%char rest) = s :: JS.split "/"%char rest.
Proof.
  unfold noSlash.
  induction s as [|c s IH]; cbn [JS.split list_ascii_of_string String.append]; intros H.
  - reflexivity.
  - destruct (Ascii.eqb_spec c "/"%char) as [->|_]; [exfalso; apply H; now left|].
    rewrite IH by (intros F; apply H; now right). reflexivity.
Qed.

Lemma split_head (s : string) : exists w ws, JS.split "/"%char s = w :: ws.
Proof.
  destruct s as [|c s]; cbn [JS.split]; [now eauto|].
  destruct (Ascii.eqb c "/"%char); [now eauto|].
  destruct (JS.split "/"%char s); eauto.
Qed.

(** ** Repository selector *)

(** X1. Every requested name is accounted for. With an explicit list,
    [getRepositories] always returns, without any pagination loop: it
    leaves [this.results] unchanged, writes warnings only, and the
    number of repositories returned plus the number of warnings written
    is the number of names requested. *)
Theorem getRepositories_explicit_accounting
        (gh : GitHub) (org : string) (options : Options) (fuel : nat)
        (names : string) (st : State) :
  opt_repos options = Some names ->
  names <> "" ->
  exists (repos : list Repo.t) (w : list Event),
    getRepositories gh org options fuel st
    = (Ret repos, mkState (results st) (trace st ++ w))
    /\ onlyWarnings w
    /\ (List.length repos + List.length w
        = List.length (JS.split ","%char names))%nat.
Proof.
  intros Hn Hne. unfold getRepositories. rewrite Hn.
  unfold JS.truthy_string.
  destruct (String.eqb_spec names ""); [contradiction|].
  cbn [negb]. rewrite resolveRepos_spec. cbn [app].
  do 2 eexists. split; [reflexivity|].
  split; [apply unresolvedWarnings_onlyWarnings|].
  rewrite <- (List.length_map JS.trim (JS.split ","%char names)).
  induction (map JS.trim (JS.split ","%char names)) as [|name l IH]; [reflexivity|].
  unfold resolved, unresolvedWarnings in *. cbn [flat_map].
  rewrite !List.length_app.
  destruct (repos_get gh org name); cbn [List.length]; lia.
Qed.

Lemma getRepositories_explicit_accounting_witness :
  exists (repos : list Repo.t) (w : list Event),
    getRepositories scenarioGitHub "octo-org"
      (mkOptions "custom" (Some "payment-api, archive")) 0 scenarioState
    = (Ret repos, mkState (results scenarioState) (trace scenarioState ++ w))
    /\ onlyWarnings w
    /\ (List.length repos + List.length w
        = List.length (JS.split ","%char "payment-api, archive"))%nat.
Proof.
  apply (getRepositories_explicit_accounting scenarioGitHub "octo-org"
           (mkOptions "custom" (Some "payment-api, archive")) 0
           "payment-api, archive" scenarioState).
  - reflexivity.
  - discriminate.
Defined.

(** ** Feature prober *)

(** X2. [getSecurityFeatures] always returns, and its flags are determined
    by the four requests: code scanning is enabled exactly when the
    analyses request answers a non-empty list, whose first element
    becomes [lastRun]; secret scanning is disabled exactly when the
    probe fails with status 404 (any other failure, such as 403, counts
    as enabled); Dependabot is enabled exactly when the repository
    request succeeds with [has_vulnerability_alerts] true; branch
    protection is enabled exactly when the repository request and the
    branch-protection request both succeed; the warning is written
    exactly when the repository request fails. *)
Theorem getSecurityFeatures_flags (gh : GitHub) (org : string) (repo : Repo.t)
        (st : State) :
  exists (f : SecurityFeatures) (st' : State),
    getSecurityFeatures gh org repo st = (Ret f, st')
    /\ (cs_enabled (codeScanning f) = true
        <-> exists lastRun rest,
            code_scanning_analyses gh org (Repo.name repo) = inr (lastRun :: rest)
            /\ cs_lastRun (codeScanning f) = Some lastRun)
    /\ (ss_enabled (secretScanning f) = false
        <-> exists error,
            secret_scanning_probe gh org (Repo.name repo) = inl error
            /\ Err.status error = Some 404)
    /\ (db_enabled (dependabot f) = true
        <-> exists info,
            repos_get gh org (Repo.name repo) = inr info
            /\ Repo.has_vulnerability_alerts info = Some true)
    /\ (bp_enabled (branchProtection f) = true
        <-> exists info protection,
            repos_get gh org (Repo.name repo) = inr info
            /\ repos_getBranchProtection gh org (Repo.name repo)
                 (Repo.default_branch repo) = inr protection
            /\ bp_rules (branchProtection f) = Some protection)
    /\ (trace st'
        = trace st
          ++ match repos_get gh org (Repo.name repo) with
             | inl _ => [Warn ("Warning: Could not fetch all security features for "
                               ++ Repo.name repo)]
             | inr _ => []
             end).
Proof.
  destruct st as [r t].
  unfold getSecurityFeatures, with_local, try_catch, bind, await, lift,
    console_warn, emit, modify, local, ret, throw.
  cbn [fst snd results trace].
  destruct (code_scanning_analyses gh org (Repo.name repo)) as [e1|[|a1 l1]];
    cbn [fst snd];
    destruct (secret_scanning_probe gh org (Repo.name repo)) as [e2|p2];
    cbn [fst snd];
    try (destruct (status_is_not e2 404) eqn:E2;
         [assert (Err.status e2 <> Some 404)
            by (intros F; apply status_is_not_404 in F; congruence)
         |apply status_is_not_404 in E2]);
    cbn [fst snd];
    destruct (repos_get gh org (Repo.name repo)) as [e3|i3]; cbn [fst snd];
    try destruct (repos_getBranchProtection gh org (Repo.name repo)
                    (Repo.default_branch repo)) as [e4|p4];
    try destruct (Repo.has_vulnerability_alerts i3) as [[|]|] eqn:Ev;
    cbn [fst snd results trace];
    (do 2 eexists; split; [reflexivity|];
     cbn [codeScanning secretScanning dependabot branchProtection
          cs_enabled cs_lastRun ss_enabled db_enabled bp_enabled bp_rules
          set_codeScanning set_secretScanning set_dependabot set_branchProtection
          enable_secretScanning defaultFeatures trace];
     rewrite ?app_nil_r;
     repeat split;
     try discriminate; try reflexivity;
     try (intros _; eauto; fail);
     try (intros (? & Hx & ?); injection Hx as <-; congruence);
     try (intros (? & ? & ? & ?); congruence);
     try (intros (? & ? & ?); congruence);
     try (intros (? & ? & ? & ? & ?); congruence)).
Qed.

(** X3. [getSecurityFeatures] never throws and never touches [this.results];
    whatever the platform answers, [secretScanning.pushProtection] and
    [dependabot.securityUpdates] stay false and no error is annotated on
    a feature. *)
Theorem getSecurityFeatures_never_sets (gh : GitHub) (org : string) (repo : Repo.t)
        (st : State) :
  exists (f : SecurityFeatures) (st' : State),
    getSecurityFeatures gh org repo st = (Ret f, st')
    /\ results st' = results st
    /\ ss_pushProtection (secretScanning f) = false
    /\ db_securityUpdates (dependabot f) = false
    /\ cs_error (codeScanning f) = None
    /\ ss_error (secretScanning f) = None
    /\ db_error (dependabot f) = None.
Proof.
  destruct st as [r t].
  unfold getSecurityFeatures, with_local, try_catch, bind, await, lift,
    console_warn, emit, modify, local, ret, throw.
  cbn [fst snd results trace].
  destruct (code_scanning_analyses gh org (Repo.name repo)) as [e1|[|a1 l1]];
    cbn [fst snd];
    destruct (secret_scanning_probe gh org (Repo.name repo)) as [e2|p2];
    cbn [fst snd];
    try destruct (status_is_not e2 404); cbn [fst snd];
    destruct (repos_get gh org (Repo.name repo)) as [e3|i3]; cbn [fst snd];
    try destruct (repos_getBranchProtection gh org (Repo.name repo)
                    (Repo.default_branch repo)) as [e4|p4];
    cbn [fst snd results trace];
    do 2 eexists; (split; [reflexivity|]); repeat split.
Qed.

(** ** Alert collector *)

(** X4. Pagination of [getCodeScanningAlerts]. After any number of full
    pages of 100 records, the collector ends on the next request: a page
    of another size is appended and the mapped records of all pages are
    returned in order; a 404 ends the loop silently with the records
    fetched so far; any other error is rethrown and the fetched records
    are lost. The state is unchanged in all three cases. *)
Theorem getCodeScanningAlerts_pages (gh : GitHub) (org : string) (repo : Repo.t)
        (pages : list (list RawCode.t)) (fuel : nat) (st : State) :
  let request := code_scanning_alerts gh org (Repo.name repo) in
  let next := 1 + Z.of_nat (List.length pages) in
  fullPages request 1 pages ->
  (List.length pages < fuel)%nat ->
  (forall last,
      request next = inr last -> JS.length last <> 100 ->
      getCodeScanningAlerts gh org fuel repo st
      = (Ret (map mapCodeAlert (List.concat pages ++ last)), st))
  /\ (forall error,
         request next = inl error -> Err.status error = Some 404 ->
         getCodeScanningAlerts gh org fuel repo st
         = (Ret (map mapCodeAlert (List.concat pages)), st))
  /\ (forall error,
         request next = inl error -> Err.status error <> Some 404 ->
         getCodeScanningAlerts gh org fuel repo st = (Throw error, st)).
Proof.
  intros request next Hp Hfuel.
  assert (Hloop := codeScanningPages_spec gh org repo pages fuel 1 st [] Hp Hfuel).
  fold request next in Hloop. cbn [app] in Hloop.
  unfold getCodeScanningAlerts, with_local, bind.
  repeat split; intros x Hx Hc; rewrite Hloop, Hx.
  - apply Z.eqb_neq in Hc. rewrite Hc. reflexivity.
  - apply status_is_not_404 in Hc. rewrite Hc. reflexivity.
  - destruct (status_is_not x 404) eqn:E; [reflexivity|].
    apply status_is_not_404 in E. contradiction.
Qed.

Lemma getCodeScanningAlerts_pages_witness :
  getCodeScanningAlerts pagedGitHub "octo-org" 3 paymentApi scenarioState
  = (Ret (map mapCodeAlert
            (List.concat [repeat (rawCodeWith (Some "high")) 100]
             ++ [rawCodeWith (Some "low")])),
     scenarioState).
Proof.
  destruct (getCodeScanningAlerts_pages pagedGitHub "octo-org" paymentApi
              [repeat (rawCodeWith (Some "high")) 100] 3 scenarioState)
    as (Hlast & _).
  - cbn. repeat split.
  - cbn. lia.
  - apply Hlast; [reflexivity | discriminate].
Defined.

(** X5. Pagination of [getSecretScanningAlerts]. After any number of full
    pages of 100 records, a page of another size is appended and all
    mapped records are returned in order; an error with status 404 or
    403 ends the loop silently with the records fetched so far; any
    other error is rethrown. *)
Theorem getSecretScanningAlerts_pages (gh : GitHub) (org : string) (repo : Repo.t)
        (pages : list (list RawSecret.t)) (fuel : nat) (st : State) :
  let request := secret_scanning_alerts gh org (Repo.name repo) in
  let next := 1 + Z.of_nat (List.length pages) in
  fullPages request 1 pages ->
  (List.length pages < fuel)%nat ->
  (forall last,
      request next = inr last -> JS.length last <> 100 ->
      getSecretScanningAlerts gh org fuel repo st
      = (Ret (map mapSecretAlert (List.concat pages ++ last)), st))
  /\ (forall error,
         request next = inl error ->
         Err.status error = Some 404 \/ Err.status error = Some 403 ->
         getSecretScanningAlerts gh org fuel repo st
         = (Ret (map mapSecretAlert (List.concat pages)), st))
  /\ (forall error,
         request next = inl error ->
         Err.status error <> Some 404 -> Err.status error <> Some 403 ->
         getSecretScanningAlerts gh org fuel repo st = (Throw error, st)).
Proof.
  intros request next Hp Hfuel.
  assert (Hloop := secretScanningPages_spec gh org repo pages fuel 1 st [] Hp Hfuel).
  fold request next in Hloop. cbn [app] in Hloop.
  unfold getSecretScanningAlerts, with_local, bind.
  repeat split.
  - intros last Hx Hc. rewrite Hloop, Hx.
    apply Z.eqb_neq in Hc. rewrite Hc. reflexivity.
  - intros e Hx Hc. rewrite Hloop, Hx.
    assert (E : status_is_not e 404 && status_is_not e 403 = false).
    { unfold status_is_not. destruct Hc as [-> | ->]; reflexivity. }
    rewrite E. reflexivity.
  - intros e Hx H4 H3. rewrite Hloop, Hx.
    assert (E : status_is_not e 404 && status_is_not e 403 = true).
    { unfold status_is_not. destruct (Err.status e) as [c|]; [|reflexivity].
      destruct (Z.eqb_spec c 404); [congruence|].
      destruct (Z.eqb_spec c 403); [congruence|]. reflexivity. }
    rewrite E. reflexivity.
Qed.

Lemma getSecretScanningAlerts_pages_witness :
  getSecretScanningAlerts pagedGitHub "octo-org" 3 paymentApi scenarioState
  = (Ret (map mapSecretAlert (List.concat [repeat openSecret 100])), scenarioState).
Proof.
  destruct (getSecretScanningAlerts_pages pagedGitHub "octo-org" paymentApi
              [repeat openSecret 100] 3 scenarioState)
    as (_ & Hsilent & _).
  - cbn. repeat split.
  - cbn. lia.
  - apply (Hsilent forbidden); [reflexivity | right; reflexivity].
Defined.

(** X6. Cursor pagination of [getDependabotAlerts]. After any number of
    pages that announce a next page, each queried at the [endCursor] of
    the one before, the collector ends on the next answer: a page with
    [hasNextPage] false is appended; an answer without [nodes] (or
    without [vulnerabilityAlerts]) ends the loop with the fetched alerts
    and no warning; a failed query returns the fetched alerts and writes
    the warning. *)
Theorem getDependabotAlerts_pages (gh : GitHub) (org : string) (repo : Repo.t)
        (pages : list (list RawDep.t * option string)) (fuel : nat) (st : State) :
  let query := graphql_vulnerabilityAlerts gh org (Repo.name repo) in
  let cursor := cursorAfter None pages in
  let fetched := map mapDependabotAlert (List.concat (map fst pages)) in
  cursorPages query None pages ->
  (List.length pages < fuel)%nat ->
  (forall ns endCursor,
      query cursor
      = inr (mkGraphQLResult
               (Some (mkVulnerabilityAlerts (Some ns) (mkPageInfo false endCursor)))) ->
      getDependabotAlerts gh org fuel repo st
      = (Ret (fetched ++ map mapDependabotAlert ns), st))
  /\ (forall result,
         query cursor = inr result ->
         match vulnerabilityAlerts result with
         | Some va => nodes va = None
         | None => True
         end ->
         getDependabotAlerts gh org fuel repo st = (Ret fetched, st))
  /\ (forall error,
         query cursor = inl error ->
         getDependabotAlerts gh org fuel repo st
         = (Ret fetched,
            mkState (results st)
              (trace st
               ++ [Warn ("Warning: Could not fetch Dependabot alerts via GraphQL for "
                         ++ Repo.name repo)]))).
Proof.
  intros query cursor fetched Hp Hfuel.
  assert (Hskip : forall alerts,
             dependabotPages gh org repo fuel None (st, alerts)
             = dependabotPages gh org repo (fuel - List.length pages) cursor
                 (st, alerts ++ fetched)).
  { intros alerts.
    replace fuel with (List.length pages + (fuel - List.length pages))%nat at 1 by lia.
    now apply dependabotPages_skip. }
  destruct (fuel - List.length pages)%nat as [|rest] eqn:E; [lia|].
  assert (Hrun :
            getDependabotAlerts gh org fuel repo st
            = let (o, sl) :=
                (try_catch (dependabotPages gh org repo (S rest) cursor)
                   (fun _ =>
                      lift (console_warn
                              ("Warning: Could not fetch Dependabot alerts via GraphQL for "
                               ++ Repo.name repo))) ;;
                 local) (st, fetched) in
              (o, fst sl)).
  { unfold getDependabotAlerts, with_local, try_catch, bind. rewrite Hskip. reflexivity. }
  clear Hskip. subst query. cbv beta.
  repeat split.
  - intros ns ec Hq. rewrite Hrun.
    unfold try_catch, bind at 1. cbn [dependabotPages]. unfold bind at 1, await.
    rewrite Hq.
    cbn [ret vulnerabilityAlerts nodes pageInfo hasNextPage].
    unfold bind, push, modify, local, ret. cbn [fst snd]. reflexivity.
  - intros result Hq Hnone. rewrite Hrun.
    unfold try_catch, bind at 1. cbn [dependabotPages]. unfold bind at 1, await.
    rewrite Hq. cbn [ret].
    destruct (vulnerabilityAlerts result) as [va|];
      [rewrite Hnone|]; unfold local, ret; cbn [fst snd]; reflexivity.
  - intros e Hq. rewrite Hrun.
    unfold try_catch, bind at 1. cbn [dependabotPages]. unfold bind at 1, await.
    rewrite Hq. reflexivity.
Qed.

Lemma getDependabotAlerts_pages_witness :
  getDependabotAlerts pagedGitHub "octo-org" 3 paymentApi scenarioState
  = (Ret (map mapDependabotAlert depPage1 ++ map mapDependabotAlert [rawDepWith "CRITICAL"]),
     scenarioState).
Proof.
  destruct (getDependabotAlerts_pages pagedGitHub "octo-org" paymentApi
              [(depPage1, Some "Y3Vyc29yOnYyOpHOAAE=")] 3 scenarioState)
    as (Hlast & _).
  - cbn. repeat split.
  - cbn. lia.
  - apply (Hlast [rawDepWith "CRITICAL"] (Some "Y3Vyc29yOnYyOpHOAAI=")). reflexivity.
Defined.

(** X7. [getDependabotAlerts] never throws and never exits, whatever the
    platform answers; it leaves [this.results] unchanged and writes
    nothing but warnings. *)
Theorem getDependabotAlerts_never_throws (gh : GitHub) (org : string) (repo : Repo.t)
        (fuel : nat) (st : State) :
  exists (o : Outcome (list DepAlert.t)) (st' : State),
    getDependabotAlerts gh org fuel repo st = (o, st')
    /\ (forall error, o <> Throw error)
    /\ (forall code, o <> Exit code)
    /\ warnedFrom st st'.
Proof.
  destruct (getDependabotAlerts_outcome gh org repo fuel st) as (o & st' & H & Ho & Hw).
  exists o, st'. split; [exact H|].
  destruct Ho as [[a ->]| ->];
    (split; [discriminate|split; [discriminate|exact Hw]]).
Qed.

(** ** One repository *)

(** X8. [auditRepository] never throws and never exits. When it returns it
    has appended exactly one entry to [repositories], carrying the name,
    url, visibility, default branch and update date of the repository;
    [scannedRepositories] has grown by one and [totalAlerts] by the
    entry's [totalAlerts]; only warnings were written. (The other
    outcome is that of a pagination loop that does not end, which leaves
    [this.results] untouched.) *)
Theorem auditRepository_appends_one (gh : GitHub) (org : string) (fuel : nat)
        (repo : Repo.t) (st : State) :
  exists (o : Outcome unit) (st' : State),
    auditRepository gh org fuel repo st = (o, st')
    /\ (exists w, trace st' = trace st ++ w /\ onlyWarnings w)
    /\ ((o = Ret tt
         /\ exists entry : RepoAudit.t,
             repositories (results st') = repositories (results st) ++ [entry]
             /\ describes repo entry
             /\ Summary.scannedRepositories (summary (results st'))
                = Summary.scannedRepositories (summary (results st)) + 1
             /\ Summary.totalAlerts (summary (results st'))
                = Summary.totalAlerts (summary (results st))
                  + totalAlerts (RepoAudit.metrics entry))
        \/ (o = OutOfFuel /\ results st' = results st)).
Proof.
  destruct (auditRepository_outcome gh org fuel repo st) as (o & st' & H & Ho).
  exists o, st'. split; [exact H|].
  destruct Ho as [(-> & ra & w & Hr & Ht & Hw & Hd & Hm)|(-> & Hres & w & Ht & Hw)].
  - split; [exists w; now split|].
    left. split; [reflexivity|]. exists (calculateRepoMetrics ra).
    rewrite Hr. unfold recordRepository. cbn [repositories summary].
    rewrite updateSummary_closed.
    repeat split; apply Hd.
  - split; [exists w; now split|].
    right. now split.
Qed.

(** X9. When the three alert sources all fail on their first request (code
    scanning with a status other than 404, secret scanning with a status
    other than 404 and 403, the dependency query with any error),
    [auditRepository] still returns and records the repository: its
    three collections are empty, its metrics are zero, the messages of
    the code and secret errors are annotated on their features, no error
    is annotated on Dependabot, [scannedRepositories] grows by one and
    [totalAlerts] is unchanged. *)
Theorem auditRepository_all_sources_fail
        (gh : GitHub) (org : string) (repo : Repo.t) (fuel : nat)
        (codeError secretError dependencyError : Err.t) (st : State) :
  code_scanning_alerts gh org (Repo.name repo) 1 = inl codeError ->
  Err.status codeError <> Some 404 ->
  secret_scanning_alerts gh org (Repo.name repo) 1 = inl secretError ->
  Err.status secretError <> Some 404 ->
  Err.status secretError <> Some 403 ->
  graphql_vulnerabilityAlerts gh org (Repo.name repo) None = inl dependencyError ->
  (1 <= fuel)%nat ->
  exists (entry : RepoAudit.t) (st' : State),
    auditRepository gh org fuel repo st = (Ret tt, st')
    /\ repositories (results st') = repositories (results st) ++ [entry]
    /\ RepoAudit.alerts entry = mkAlerts [] [] []
    /\ RepoAudit.metrics entry = mkMetrics 0 0 0 0
    /\ cs_error (codeScanning (RepoAudit.securityFeatures entry))
       = Some (Err.message codeError)
    /\ ss_error (secretScanning (RepoAudit.securityFeatures entry))
       = Some (Err.message secretError)
    /\ db_error (dependabot (RepoAudit.securityFeatures entry)) = None
    /\ Summary.scannedRepositories (summary (results st'))
       = Summary.scannedRepositories (summary (results st)) + 1
    /\ Summary.totalAlerts (summary (results st'))
       = Summary.totalAlerts (summary (results st)).
Proof.
  intros Hc Hc404 Hs Hs404 Hs403 Hd Hfuel.
  destruct (getSecurityFeatures_returns gh org repo st)
    as (f & w & Hf & Hcs & Hss & Hdb).
  unfold auditRepository, try_catch at 1, bind at 1.
  rewrite Hf.
  unfold try_catch at 1, bind at 1 2.
  rewrite (getCodeScanningAlerts_first_fails gh org repo fuel codeError _ Hc Hc404 Hfuel).
  cbn [ret].
  unfold try_catch at 1, bind at 1 2.
  rewrite (getSecretScanningAlerts_first_fails gh org repo fuel secretError _
             Hs Hs404 Hs403 Hfuel).
  cbn [ret].
  unfold try_catch at 1, bind at 1 2.
  rewrite (getDependabotAlerts_first_fails gh org repo fuel dependencyError _ Hd Hfuel).
  cbn [ret update_results modify results trace].
  do 2 eexists. split; [reflexivity|].
  cbn [results recordRepository repositories summary].
  split; [reflexivity|].
  rewrite updateSummary_closed.
  cbn. rewrite Hdb, Z.add_0_r. repeat split.
Qed.

Lemma auditRepository_all_sources_fail_witness :
  exists (entry : RepoAudit.t) (st' : State),
    auditRepository outageGitHub "octo-org" 5 paymentApi scenarioState = (Ret tt, st')
    /\ repositories (results st') = repositories (results scenarioState) ++ [entry]
    /\ RepoAudit.alerts entry = mkAlerts [] [] []
    /\ RepoAudit.metrics entry = mkMetrics 0 0 0 0
    /\ cs_error (codeScanning (RepoAudit.securityFeatures entry))
       = Some (Err.message badGateway)
    /\ ss_error (secretScanning (RepoAudit.securityFeatures entry))
       = Some (Err.message badGateway)
    /\ db_error (dependabot (RepoAudit.securityFeatures entry)) = None
    /\ Summary.scannedRepositories (summary (results st'))
       = Summary.scannedRepositories (summary (results scenarioState)) + 1
    /\ Summary.totalAlerts (summary (results st'))
       = Summary.totalAlerts (summary (results scenarioState)).
Proof.
  apply (auditRepository_all_sources_fail outageGitHub "octo-org" paymentApi 5
           badGateway badGateway badGateway scenarioState).
  - reflexivity.
  - discriminate.
  - reflexivity.
  - discriminate.
  - discriminate.
  - reflexivity.
  - lia.
Defined.

(** ** The aggregate *)

(** X10. Invariant of the aggregate. For every fleet recorded from the
    constructor's results, after [calculateCompliance]:
    [scannedRepositories] is the number of entries; the fleet
    [totalAlerts] is the sum of [codeAlerts], [secretAlerts] and
    [dependencyAlerts] and also the sum of the entries' [totalAlerts];
    the four severity totals are not negative and together do not exceed
    [codeAlerts + dependencyAlerts] (secret alerts are counted under no
    severity). *)
Theorem auditFleet_aggregated (l : list RepoAudit.t) (org : string)
        (options : Options) (now : string) :
  aggregated (auditFleet l (initialResults org options now)).
Proof.
  unfold auditFleet.
  apply aggregated_calculateCompliance, aggregated_recordAll, aggregated_initial.
Qed.

(** ** The run *)

(** X11. A run that returns, started from the constructor's state, has
    audited every selected repository once and in selection order: the
    entries of [repositories] describe the repositories
    [getRepositories] returned, one for one; [totalRepositories] and
    [scannedRepositories] both equal their number; the aggregate
    invariant holds; and the last event is the save of exactly the final
    results, preceded by warnings only. *)
Theorem run_returns (gh : GitHub) (org : string) (options : Options) (fuel : nat)
        (now : string) (st' : State) :
  run gh org options fuel (initialState org options now) = (Ret tt, st') ->
  exists (repos : list Repo.t) (w : list Event),
    fst (getRepositories gh org options fuel (initialState org options now)) = Ret repos
    /\ Forall2 describes repos (repositories (results st'))
    /\ Summary.totalRepositories (summary (results st')) = JS.length repos
    /\ Summary.scannedRepositories (summary (results st')) = JS.length repos
    /\ aggregated (results st')
    /\ trace st' = w ++ [Saved (results st')]
    /\ onlyWarnings w.
Proof.
  intros Hrun. rewrite run_cases in Hrun.
  destruct (getRepositories_state gh org options fuel (initialState org options now))
    as (w0 & Hst1 & Hw0).
  destruct (getRepositories gh org options fuel (initialState org options now))
    as [[repos|e|c|] st1] eqn:Hsel; try discriminate.
  cbn [snd] in Hst1. subst st1. cbn [results trace initialState app] in Hrun.
  set (r0 := set_totalRepositories (JS.length repos) (initialResults org options now))
    in Hrun.
  destruct (auditAll_outcome gh org fuel repos (mkState r0 w0))
    as (o & st2 & w & Hall & Htr & Hw & Hcase).
  rewrite Hall in Hrun.
  destruct Hcase as [(-> & ras & Hres & Hdesc & _)| ->]; [|discriminate].
  cbn [results trace] in Hres, Htr.
  destruct (fs_writeFile gh (calculateCompliance (results st2))); [discriminate|].
  injection Hrun as <-. cbn [results trace].
  destruct (calculateCompliance_fields (results st2)) as (_ & Hsum & Hrep).
  destruct (recordAll_fields ras r0) as (_ & Hs & Hr & _).
  assert (Hagg : aggregated (calculateCompliance (results st2))).
  { apply aggregated_calculateCompliance. rewrite Hres.
    apply aggregated_recordAll, aggregated_set_totalRepositories, aggregated_initial. }
  assert (Hreps : repositories (calculateCompliance (results st2))
                  = map calculateRepoMetrics ras).
  { rewrite Hrep, Hres, Hr. reflexivity. }
  assert (Hlen : JS.length (map calculateRepoMetrics ras) = JS.length repos).
  { rewrite length_map. unfold JS.length. now rewrite (Forall2_length Hdesc). }
  exists repos, (w0 ++ w).
  split; [reflexivity|].
  split; [rewrite Hreps; now apply Forall2_describes_map|].
  split.
  { rewrite Hsum, Hres, Hs.
    assert (H : Summary.totalRepositories (summary r0) = JS.length repos) by reflexivity.
    revert H. generalize (summary r0) as s0. clear.
    induction ras as [|ra ras IH]; intros s0 H; cbn [fold_left]; [exact H|].
    apply IH. unfold recordSummary. rewrite updateSummary_closed. exact H. }
  split.
  { destruct Hagg as (-> & _). now rewrite Hreps. }
  split; [exact Hagg|].
  split; [now rewrite Htr|].
  now apply onlyWarnings_app.
Qed.

Lemma run_returns_witness :
  exists (st' : State) (repos : list Repo.t) (w : list Event),
    run scenarioGitHub "octo-org" scenarioOptions 5 scenarioState = (Ret tt, st')
    /\ fst (getRepositories scenarioGitHub "octo-org" scenarioOptions 5 scenarioState)
       = Ret repos
    /\ Forall2 describes repos (repositories (results st'))
    /\ Summary.totalRepositories (summary (results st')) = JS.length repos
    /\ Summary.scannedRepositories (summary (results st')) = JS.length repos
    /\ aggregated (results st')
    /\ trace st' = w ++ [Saved (results st')]
    /\ onlyWarnings w.
Proof.
  assert (H : exists st',
             run scenarioGitHub "octo-org" scenarioOptions 5 scenarioState = (Ret tt, st')).
  { eexists. vm_compute. reflexivity. }
  destruct H as [st' H]. exists st'.
  destruct (run_returns scenarioGitHub "octo-org" scenarioOptions 5
              "2025-06-30T00:00:00.000Z" st' H) as (repos & w & Hrest).
  exists repos, w. split; [exact H | exact Hrest].
Defined.

(** X12. [run] never lets an exception escape. It returns, and then the last
    event is the save of the final results; or it exits with code 1, and
    then the last event is the error message and nothing was saved; or a
    pagination loop does not end. Before that last event only warnings
    are written. *)
Theorem run_outcome (gh : GitHub) (org : string) (options : Options) (fuel : nat)
        (st : State) :
  exists (o : Outcome unit) (st' : State) (w : list Event),
    run gh org options fuel st = (o, st')
    /\ onlyWarnings w
    /\ ((o = Ret tt /\ trace st' = trace st ++ w ++ [Saved (results st')])
        \/ (o = Exit 1 /\ exists text, trace st' = trace st ++ w ++ [Error text])
        \/ (o = OutOfFuel /\ trace st' = trace st ++ w)).
Proof.
  rewrite run_cases.
  destruct (getRepositories_state gh org options fuel st) as (w0 & Hst1 & Hw0).
  assert (Hne : forall c st1, getRepositories gh org options fuel st <> (Exit c, st1)).
  { intros c st1. unfold getRepositories.
    destruct (JS.truthy_string (opt_repos options)).
    - rewrite resolveRepos_spec. discriminate.
    - unfold bind.
      assert (Hl : forall fuel page repos s c s',
                 listRepos gh org fuel page repos s <> (Exit c, s')).
      { clear. induction fuel as [|fuel IH]; intros page repos s c s'; cbn [listRepos].
        - discriminate.
        - unfold bind, await.
          destruct (repos_listForOrg gh org page) as [e|data]; cbn; [discriminate|].
          destruct (JS.length data =? 100); [apply IH | discriminate]. }
      specialize (Hl fuel 1 [] st).
      destruct (listRepos gh org fuel 1 [] st) as [[repos|e|c'|] s1].
      + destruct (String.eqb (opt_scope options) "critical"); discriminate.
      + discriminate.
      + now destruct (Hl c' s1).
      + discriminate. }
  destruct (getRepositories gh org options fuel st) as [[repos|e|c|] st1] eqn:Hsel;
    cbn [snd] in Hst1; subst st1; cbn [results trace].
  - destruct (auditAll_outcome gh org fuel repos
                (mkState (set_totalRepositories (JS.length repos) (results st))
                         (trace st ++ w0)))
      as (o & st2 & w & Hall & Htr & Hw & Hcase).
    rewrite Hall.
    destruct Hcase as [(-> & _)| ->]; cbn [results trace] in *.
    + destruct (fs_writeFile gh (calculateCompliance (results st2))) as [e|[]].
      * do 2 eexists. exists (w0 ++ w). split; [reflexivity|].
        split; [now apply onlyWarnings_app|]. right. left.
        split; [reflexivity|]. eexists. cbn [trace]. rewrite Htr.
        now rewrite <- !app_assoc.
      * do 2 eexists. exists (w0 ++ w). split; [reflexivity|].
        split; [now apply onlyWarnings_app|]. left.
        split; [reflexivity|]. cbn [trace results]. rewrite Htr.
        now rewrite <- !app_assoc.
    + do 2 eexists. exists (w0 ++ w). split; [reflexivity|].
      split; [now apply onlyWarnings_app|]. right. right.
      split; [reflexivity|]. rewrite Htr. now rewrite <- !app_assoc.
  - do 2 eexists. exists w0. split; [reflexivity|]. split; [exact Hw0|].
    right. left. split; [reflexivity|]. eexists. cbn [trace].
    now rewrite <- !app_assoc.
  - now destruct (Hne c (mkState (results st) (trace st ++ w0))).
  - do 2 eexists. exists w0. split; [reflexivity|]. split; [exact Hw0|].
    right. right. split; reflexivity.
Qed.

(** X13. A failure of the organisation listing is fatal. When no explicit
    list is given and the listing fails after any number of full pages
    of 100 repositories, [run] logs the error message and exits with
    code 1; [this.results] is left as it was (not even
    [totalRepositories] is set), no repository is audited and nothing is
    saved. *)
Theorem run_listing_failure (gh : GitHub) (org : string) (options : Options)
        (pages : list (list Repo.t)) (error : Err.t) (fuel : nat) (st : State) :
  JS.truthy_string (opt_repos options) = false ->
  fullPages (repos_listForOrg gh org) 1 pages ->
  repos_listForOrg gh org (1 + Z.of_nat (List.length pages)) = inl error ->
  (List.length pages < fuel)%nat ->
  run gh org options fuel st
  = (Exit 1, mkState (results st) (trace st ++ [Error (Err.message error)])).
Proof.
  intros Hmode Hp Herr Hfuel. rewrite run_cases.
  unfold getRepositories. rewrite Hmode. unfold bind at 1.
  replace fuel with (List.length pages + (fuel - List.length pages))%nat by lia.
  rewrite (listRepos_skip gh org pages _ 1 [] st Hp).
  destruct (fuel - List.length pages)%nat as [|rest] eqn:E; [lia|].
  cbn [listRepos]. unfold bind, await. rewrite Herr. reflexivity.
Qed.

Lemma run_listing_failure_witness :
  run pagedGitHub "octo-org" scenarioOptions 3 scenarioState
  = (Exit 1, mkState (results scenarioState)
               (trace scenarioState ++ [Error (Err.message badGateway)])).
Proof.
  apply (run_listing_failure pagedGitHub "octo-org" scenarioOptions
           [repeat paymentApi 100] badGateway 3 scenarioState).
  - reflexivity.
  - cbn. repeat split.
  - reflexivity.
  - cbn. lia.
Defined.

(** ** Metrics and scores *)

(** X14. [meanTimeToResolve] depends on the secret alerts only: removing the
    code and dependency alerts of a repository leaves it unchanged,
    since neither shape carries a resolution timestamp. *)
Theorem meanTimeToResolve_secret_only (ra : RepoAudit.t) :
  meanTimeToResolve (RepoAudit.metrics (calculateRepoMetrics ra))
  = meanTimeToResolve
      (RepoAudit.metrics
         (calculateRepoMetrics
            (set_alerts (mkAlerts [] (secret (RepoAudit.alerts ra)) []) ra))).
Proof.
  rewrite !metrics_calculateRepoMetrics. cbv zeta. cbn [meanTimeToResolve].
  rewrite !filter_isResolved_secret. reflexivity.
Qed.

(** X15. [calculateRepoMetrics] is idempotent: applied to an entry whose
    metrics it has computed, it changes nothing. *)
Theorem calculateRepoMetrics_idempotent (ra : RepoAudit.t) :
  calculateRepoMetrics (calculateRepoMetrics ra) = calculateRepoMetrics ra.
Proof.
  unfold calculateRepoMetrics at 1.
  rewrite alerts_calculateRepoMetrics.
  unfold calculateRepoMetrics at 6. cbn [RepoAudit.metrics meanTimeToResolve].
  unfold calculateRepoMetrics.
  cbn [RepoAudit.name RepoAudit.url RepoAudit.private RepoAudit.defaultBranch
       RepoAudit.lastUpdated RepoAudit.securityFeatures RepoAudit.alerts].
  destruct (JS.length (filter isResolved (allAlerts (RepoAudit.alerts ra))) >? 0);
    reflexivity.
Qed.

(** X16. [calculateCompliance] is idempotent: a second call leaves the
    results of the first unchanged. *)
Theorem calculateCompliance_idempotent (r : Results) :
  calculateCompliance (calculateCompliance r) = calculateCompliance r.
Proof.
  unfold calculateCompliance at 2.
  destruct (JS.length (repositories r) =? 0) eqn:E.
  - unfold calculateCompliance. now rewrite E.
  - unfold calculateCompliance. cbn [repositories metadata summary compliance
                                      overallScore frameworks].
    rewrite E. reflexivity.
Qed.

(** X17. No credit for resolution. For a fleet (of fewer than 2^53
    repositories) in which every repository has at least one alert, the
    resolution sub-score of the metrics the audit computes is exactly 0,
    whatever the states of the alerts: [closedAlerts] is 0 for every
    entry. *)
Theorem resolution_subscore_zero (l : list RepoAudit.t) :
  1 <= JS.length l < 2 ^ 53 ->
  Forall hasAlerts l ->
  resolution (subScores (map calculateRepoMetrics l)) = 0%float.
Proof.
  intros Hn Hl. unfold subScores. cbv zeta. cbn [resolution].
  rewrite (fold_scoreRepo_resolution l Hl) by reflexivity.
  unfold averageScore. rewrite length_map.
  rewrite zero_div by (apply Z2f_finite_positive; exact Hn).
  reflexivity.
Qed.

Lemma resolution_subscore_zero_witness :
  resolution
    (subScores
       (map calculateRepoMetrics
          [singleAlertRepo (mkAlerts [] [resolvedSecret 1750000000000] []);
           mixedAsCode]))
  = 0%float.
Proof.
  apply resolution_subscore_zero.
  - cbn. lia.
  - repeat constructor; cbn; lia.
Defined.

(** X18. When code scanning, secret scanning and Dependabot are enabled on
    every repository of a fleet of at least one and fewer than 2^53
    repositories, the ISO27001 score is exactly 100. *)
Theorem calculateISOCompliance_all_scanners (r : Results) :
  1 <= JS.length (repositories r) < 2 ^ 53 ->
  (forall repo, In repo (repositories r) ->
     cs_enabled (codeScanning (RepoAudit.securityFeatures repo)) = true
     /\ ss_enabled (secretScanning (RepoAudit.securityFeatures repo)) = true
     /\ db_enabled (dependabot (RepoAudit.securityFeatures repo)) = true) ->
  calculateISOCompliance r = 100%float.
Proof.
  intros Hn Hall. unfold calculateISOCompliance. cbv zeta.
  rewrite !filter_true by (intros x Hx; now apply Hall).
  rewrite !fraction_all by exact Hn.
  vm_compute. reflexivity.
Qed.

Lemma calculateISOCompliance_all_scanners_witness :
  calculateISOCompliance
    (recordAll (repeat (cleanRepo (featuresWith true true true false false)) 3)
       emptyResults)
  = 100%float.
Proof.
  apply calculateISOCompliance_all_scanners.
  - cbn. lia.
  - cbn. intros repo H.
    repeat (destruct H as [<-|H]; [repeat split|]). destruct H.
Defined.

(** X19. When none of the three scanners is enabled on any repository of a
    fleet of at least one and fewer than 2^53 repositories, the ISO27001
    score is exactly 25, the credit given for incident management. *)
Theorem calculateISOCompliance_no_scanner (r : Results) :
  1 <= JS.length (repositories r) < 2 ^ 53 ->
  Forall noScanner (repositories r) ->
  calculateISOCompliance r = 25%float.
Proof.
  intros Hn Hnone. rewrite Forall_forall in Hnone.
  unfold calculateISOCompliance. cbv zeta.
  rewrite !filter_false by (intros x Hx; now apply Hnone).
  change (JS.length []) with 0.
  rewrite !fraction_none by exact Hn.
  vm_compute. reflexivity.
Qed.

Lemma calculateISOCompliance_no_scanner_witness :
  calculateISOCompliance
    (recordAll (repeat (cleanRepo (featuresWith false false false true false)) 3)
       emptyResults)
  = 25%float.
Proof.
  apply calculateISOCompliance_no_scanner.
  - cbn. lia.
  - cbn. repeat constructor.
Defined.

(** X20. For every fleet of at least one and fewer than 2^53 repositories
    without alerts, on which the three scanners and branch protection
    are enabled, the audit stores exactly 100 for OWASP, NIST and
    ISO27001, for every fleet size (rounding shows in [overallScore]
    only). *)
Theorem clean_fleet_frameworks (l : list RepoAudit.t) (org : string)
        (options : Options) (now : string) :
  1 <= JS.length l < 2 ^ 53 ->
  Forall cleanAndCovered l ->
  let out := auditFleet l (initialResults org options now) in
  frameworkScore "OWASP" out = Some 100%float
  /\ frameworkScore "NIST" out = Some 100%float
  /\ frameworkScore "ISO27001" out = Some 100%float.
Proof.
  intros Hn Hl. cbv zeta. unfold auditFleet.
  set (r0 := initialResults org options now).
  destruct (recordAll_fields l r0) as (_ & Hs & Hr & _).
  cbn [r0 initialResults repositories app] in Hr. fold r0 in Hr.
  assert (Hlen : 1 <= JS.length (repositories (recordAll l r0)) < 2 ^ 53)
    by (now rewrite Hr, length_map).
  destruct (fold_recordSummary_clean l Hl (summary r0)) as [Hsec Hdep].
  rewrite <- Hs in Hsec, Hdep. cbn [r0 initialResults summary Summary.secretAlerts
                                     Summary.dependencyAlerts] in Hsec, Hdep.
  fold r0 in Hsec, Hdep.
  assert (Hin : forall x, In x (repositories (recordAll l r0)) ->
                  exists ra, x = calculateRepoMetrics ra /\ cleanAndCovered ra).
  { intros x Hx. rewrite Hr in Hx. apply in_map_iff in Hx.
    destruct Hx as (ra & <- & Hra). exists ra. split; [reflexivity|].
    rewrite Forall_forall in Hl. now apply Hl. }
  assert (Hcode : Forall (fun ra => code (RepoAudit.alerts ra) = [])
                    (repositories (recordAll l r0))).
  { apply Forall_forall. intros x Hx. destruct (Hin x Hx) as (ra & -> & Hal & _).
    rewrite alerts_calculateRepoMetrics, Hal. reflexivity. }
  assert (Hmttr : Forall (fun ra => meanTimeToResolve (RepoAudit.metrics ra) = 0%float)
                    (repositories (recordAll l r0))).
  { apply Forall_forall. intros x Hx. destruct (Hin x Hx) as (ra & -> & Hal & Hm & _).
    rewrite metrics_calculateRepoMetrics, Hal, Hm. reflexivity. }
  unfold calculateCompliance, frameworkScore.
  destruct (Z.eqb_spec (JS.length (repositories (recordAll l r0))) 0) as [E|_]; [lia|].
  cbn [compliance frameworks metadata summary repositories overallScore framework
       option_map score String.eqb Ascii.eqb Bool.eqb fst snd find].
  split; [|split]; cbn; f_equal.
  - unfold calculateOWASPCompliance. cbv zeta. cbn [repositories summary].
    rewrite !countRuleAlerts_clean by exact Hcode.
    rewrite Hsec, Hdep.
    rewrite filter_true
      by (intros x Hx; destruct (Hin x Hx) as (ra & -> & _ & _ & Hcs & _); exact Hcs).
    rewrite fraction_all by exact Hlen.
    vm_compute. reflexivity.
  - unfold calculateNISTCompliance. cbv zeta. cbn [repositories summary].
    rewrite !filter_true.
    2:{ intros x Hx. destruct (Hin x Hx) as (ra & -> & _ & _ & Hcs & _).
        cbn [calculateRepoMetrics RepoAudit.securityFeatures].
        now rewrite Hcs. }
    2:{ intros x Hx. destruct (Hin x Hx) as (ra & -> & _ & _ & _ & _ & _ & Hbp).
        exact Hbp. }
    rewrite !fraction_all by exact Hlen.
    rewrite fold_meanTimeToResolve_zero by exact Hmttr.
    rewrite zero_div by (apply Z2f_finite_positive; exact Hlen).
    vm_compute. reflexivity.
  - unfold calculateISOCompliance. cbv zeta. cbn [repositories].
    rewrite !filter_true.
    2:{ intros x Hx. destruct (Hin x Hx) as (ra & -> & _ & _ & _ & Hss & _).
        exact Hss. }
    2:{ intros x Hx. destruct (Hin x Hx) as (ra & -> & _ & _ & Hcs & _).
        exact Hcs. }
    2:{ intros x Hx. destruct (Hin x Hx) as (ra & -> & _ & _ & _ & _ & Hdb & _).
        exact Hdb. }
    rewrite !fraction_all by exact Hlen.
    vm_compute. reflexivity.
Qed.

Lemma clean_fleet_frameworks_witness :
  let out :=
    auditFleet (repeat (cleanRepo (featuresWith true true true true false)) 132)
      (initialResults "octo-org" scenarioOptions "2025-06-30T00:00:00.000Z") in
  frameworkScore "OWASP" out = Some 100%float
  /\ frameworkScore "NIST" out = Some 100%float
  /\ frameworkScore "ISO27001" out = Some 100%float.
Proof.
  apply clean_fleet_frameworks.
  - unfold JS.length. rewrite repeat_length. lia.
  - apply Forall_forall. intros x Hx. apply repeat_spec in Hx. subst x.
    repeat split.
Defined.

(** ** Issue writer *)

(** X21. The target of the issue. For names without a slash: a string
    without a slash is refused; [owner/repo] is accepted as that pair
    exactly when both parts are non-empty, and refused otherwise;
    anything after a second slash is ignored, so [owner/repo/extra]
    gives the same answer as [owner/repo]. *)
Theorem parseRepository_segments (owner repo : string) :
  noSlash owner -> noSlash repo ->
  let accepted :=
    if String.eqb owner "" || String.eqb repo ""
    then inl (Err.mk None "Invalid repository format. Use owner/repo")
    else inr (owner, repo) in
  parseRepository owner
  = inl (Err.mk None "Invalid repository format. Use owner/repo")
  /\ parseRepository (owner ++ "/" ++ repo) = accepted
  /\ forall extra, parseRepository (owner ++ "/" ++ repo ++ "/" ++ extra) = accepted.
Proof.
  intros Ho Hr. cbv zeta. unfold parseRepository.
  split; [|split].
  - rewrite (split_noSlash owner Ho). reflexivity.
  - change (owner ++ "/" ++ repo)%string with (owner ++ String "/"%char repo)%string.
    rewrite (split_segment owner repo Ho), (split_noSlash repo Hr). reflexivity.
  - intros extra.
    change (owner ++ "/" ++ repo ++ "/" ++ extra)%string
      with (owner ++ String "/"%char (repo ++ String "/"%char extra))%string.
    rewrite (split_segment owner _ Ho), (split_segment repo extra Hr).
    reflexivity.
Qed.

Lemma parseRepository_segments_witness :
  parseRepository "octo-org"
  = inl (Err.mk None "Invalid repository format. Use owner/repo")
  /\ parseRepository ("octo-org" ++ "/" ++ "payment-api")
     = inr ("octo-org", "payment-api")
  /\ forall extra,
       parseRepository ("octo-org" ++ "/" ++ "payment-api" ++ "/" ++ extra)
       = inr ("octo-org", "payment-api").
Proof.
  apply (parseRepository_segments "octo-org" "payment-api").
  - unfold noSlash. cbn. intros H.
    repeat (destruct H as [H|H]; [discriminate H|]). exact H.
  - unfold noSlash. cbn. intros H.
    repeat (destruct H as [H|H]; [discriminate H|]). exact H.
Defined.

(** X22. The table of high-risk repositories lists min(5, number of
    high-risk repositories) entries; each is a repository of the audit
    that passes the high-risk filter; they are in descending order of
    [totalAlerts]; and every high-risk repository that is not listed has
    at most as many alerts as each listed one. *)
Theorem highRiskRepos_top (repositories : list RepoAudit.t) :
  let top := highRiskRepos repositories in
  List.length top = Nat.min 5 (List.length (filter isHighRisk repositories))
  /\ Forall (fun repo => In repo repositories /\ isHighRisk repo = true) top
  /\ descending top
  /\ forall repo,
       In repo repositories -> isHighRisk repo = true ->
       In repo top
       \/ Forall (fun listed => totalAlerts (RepoAudit.metrics repo)
                                <= totalAlerts (RepoAudit.metrics listed)) top.
Proof.
  cbv zeta. unfold highRiskRepos, JSArray.slice0.
  set (sorted := JSArray.sort byTotalAlertsDescending (filter isHighRisk repositories)).
  assert (Hperm : Permutation sorted (filter isHighRisk repositories))
    by apply sort_permutation.
  destruct (descending_firstn 5 sorted (descending_sort _)) as [Hd Hrest].
  split; [|split; [|split]].
  - rewrite length_firstn. now rewrite (Permutation_length Hperm).
  - apply Forall_forall. intros x Hx.
    assert (Hin : In x sorted).
    { rewrite <- (firstn_skipn 5 sorted). apply in_or_app. now left. }
    apply (Permutation_in _ Hperm) in Hin. now apply filter_In in Hin.
  - exact Hd.
  - intros repo Hin Hrisk.
    assert (Hs : In repo sorted).
    { apply (Permutation_in _ (Permutation_sym Hperm)). now apply filter_In. }
    rewrite <- (firstn_skipn 5 sorted) in Hs. apply in_app_or in Hs.
    destruct Hs as [Hs|Hs]; [now left | right; now apply Hrest].
Qed.

(** X23. For every entry the audit produces, the Critical/High column of the
    table is between 0 and the entry's Total Alerts column. *)
Theorem criticalHigh_le_totalAlerts (repoAudit : RepoAudit.t) :
  let entry := calculateRepoMetrics repoAudit in
  0 <= criticalHigh entry <= totalAlerts (RepoAudit.metrics entry).
Proof.
  cbv zeta. unfold criticalHigh.
  rewrite alerts_calculateRepoMetrics, metrics_calculateRepoMetrics.
  cbv zeta. cbn [totalAlerts]. rewrite length_allAlerts.
  pose proof (length_filter_le
                (fun a => String.eqb (CodeAlert.severity a) "critical"
                          || String.eqb (CodeAlert.severity a) "high")
                (code (RepoAudit.alerts repoAudit))).
  pose proof (length_filter_le
                (fun a => String.eqb (DepAlert.severity a) "CRITICAL"
                          || String.eqb (DepAlert.severity a) "HIGH")
                (dependency (RepoAudit.alerts repoAudit))).
  pose proof (length_nonneg (secret (RepoAudit.alerts repoAudit))).
  lia.
Qed.

(** ** Dashboard generator *)

(** X24. Alerts without a counted severity carry no risk. When the four
    severity totals are 0 (for instance when all alerts are secret
    alerts), [calculateRiskScore] gives score 0, level Low and the
    colour of Low, however many alerts there are. *)
Theorem calculateRiskScore_no_severity (auditData : Results) :
  noSeverity (summary auditData) ->
  Summary.totalAlerts (summary auditData) * 10 < 2 ^ 53 ->
  calculateRiskScore auditData = RiskScore.mk 0 "Low" "#28a745".
Proof.
  intros (Hc & Hh & Hm & Hl) Hn. unfold calculateRiskScore. cbv zeta.
  rewrite Hc, Hh, Hm, Hl. cbn [Z.mul Z.add].
  destruct (Z.gtb_spec (Summary.totalAlerts (summary auditData) * 10) 0) as [Hpos|_];
    [|reflexivity].
  rewrite zero_div by (apply Z2f_finite_positive; lia).
  reflexivity.
Qed.

Lemma calculateRiskScore_no_severity_witness :
  calculateRiskScore
    (recordAll [singleAlertRepo (mkAlerts [] [resolvedSecret 1750000000000] [])]
       emptyResults)
  = RiskScore.mk 0 "Low" "#28a745".
Proof.
  apply calculateRiskScore_no_severity.
  - repeat split.
  - cbn. lia.
Defined.

(** X25. When every alert of the fleet is counted as critical (at least one
    alert, fewer than 2^53 / 10), [calculateRiskScore] gives exactly
    score 100, level Critical and the colour of Critical. *)
Theorem calculateRiskScore_all_critical (auditData : Results) :
  allCritical (summary auditData) ->
  1 <= Summary.totalAlerts (summary auditData) ->
  Summary.totalAlerts (summary auditData) * 10 < 2 ^ 53 ->
  calculateRiskScore auditData = RiskScore.mk 100 "Critical" "#dc3545".
Proof.
  intros (Hc & Hh & Hm & Hl) Hpos Hn. unfold calculateRiskScore. cbv zeta.
  rewrite Hc, Hh, Hm, Hl. cbn [Z.mul Z.add]. rewrite !Z.add_0_r.
  destruct (Z.gtb_spec (Summary.totalAlerts (summary auditData) * 10) 0) as [_|H];
    [|lia].
  rewrite div_self by (apply Z2f_finite_positive; lia).
  reflexivity.
Qed.

Lemma calculateRiskScore_all_critical_witness :
  calculateRiskScore
    (recordAll
       [singleAlertRepo (mkAlerts [mapCodeAlert (rawCodeWith (Some "critical"))] [] []);
        singleAlertRepo (mkAlerts [] [] [mapDependabotAlert (rawDepWith "CRITICAL")])]
       emptyResults)
  = RiskScore.mk 100 "Critical" "#dc3545".
Proof.
  apply calculateRiskScore_all_critical.
  - repeat split.
  - cbn. lia.
  - cbn. lia.
Defined.

(** X26. Coverage in the executive summary. For results in which
    [scannedRepositories] equals [totalRepositories] (fewer than 2^53),
    as every completed run leaves them, [securityCoverage] is exactly
    100 when there is at least one repository and NaN when there is
    none, and the summary ends with the sentence that prints this value. *)
Theorem securityCoverage_complete (auditData : Results)
        (Number_toString : Z -> string) (toFixed : float -> Z -> string) :
  Summary.scannedRepositories (summary auditData)
  = Summary.totalRepositories (summary auditData) ->
  0 <= Summary.totalRepositories (summary auditData) < 2 ^ 53 ->
  let coverage :=
    if Summary.totalRepositories (summary auditData) =? 0
    then PrimFloat.nan else 100%float in
  securityCoverage auditData = coverage
  /\ exists text,
      generateExecutiveSummary Number_toString toFixed auditData
      = (text ++ "Security scanning coverage is at " ++ toFixed coverage 1
         ++ "% of repositories.")%string.
Proof.
  intros Hs Hn. cbv zeta.
  assert (Hc : securityCoverage auditData
               = if Summary.totalRepositories (summary auditData) =? 0
                 then PrimFloat.nan else 100%float).
  { unfold securityCoverage. rewrite Hs.
    destruct (Z.eqb_spec (Summary.totalRepositories (summary auditData)) 0) as [->|Hne].
    - reflexivity.
    - rewrite div_self by (apply Z2f_finite_positive; lia). reflexivity. }
  split; [exact Hc|].
  unfold generateExecutiveSummary. cbv zeta. rewrite Hc.
  eexists. reflexivity.
Qed.

Lemma securityCoverage_complete_witness :
  let auditData := recordAll fleetA (set_totalRepositories 5 emptyResults) in
  let coverage :=
    if Summary.totalRepositories (summary auditData) =? 0
    then PrimFloat.nan else 100%float in
  securityCoverage auditData = coverage
  /\ exists text,
      generateExecutiveSummary (fun _ => "5") (fun _ _ => "100.0") auditData
      = (text ++ "Security scanning coverage is at " ++ "100.0"
         ++ "% of repositories.")%string.
Proof.
  apply (securityCoverage_complete
           (recordAll fleetA (set_totalRepositories 5 emptyResults))
           (fun _ => "5") (fun _ _ => "100.0")).
  - reflexivity.
  - cbn. lia.
Defined.

(** X27. The dashboard of an empty fleet. For the results a run saves when
    no repository was selected, whatever the organisation, the options
    and the date: there is no recommendation (the average resolution
    time is NaN, which is not above 30), the risk score is 0 with level
    Low, no repository is listed as high-risk, and [securityCoverage] is
    NaN. *)
Theorem empty_fleet_dashboard (org : string) (options : Options) (now : string)
        (Number_toString : Z -> string) (toFixed : float -> Z -> string) :
  let auditData := set_totalRepositories 0 (initialResults org options now) in
  generateRecommendations Number_toString toFixed auditData = []
  /\ calculateRiskScore auditData = RiskScore.mk 0 "Low" "#28a745"
  /\ highRiskRepos (repositories auditData) = []
  /\ PrimFloat.is_nan (securityCoverage auditData) = true.
Proof. cbv zeta. repeat split. Qed.
